(** * AI Room Designer: retry, cache, rate limiter and the redesign service

    A shallow embedding of [src/utils/apiUtils.ts] and of the two versions of
    [redesignRoom] found in the repository (the OpenRouter client with its
    client-side daily quota, and the Firebase Functions client), followed by
    the properties the specification states about them.

    Conventions of the embedding:
    - a JavaScript string is the list of its UTF-16 code units;
    - a JavaScript number is an integer [Z]: timestamps and durations are
      whole milliseconds, counters and attempt numbers are whole, and every
      quantity stays far below 2^53 where double arithmetic is exact;
    - [Date.now()] is an explicit argument of the cache and limiter methods,
      and a field of the state threaded through the service;
    - an [async] function is a state transformer that settles as [Resolved]
      or [Rejected]; [console] output is not modelled. *)

From Stdlib Require Import ZArith NArith Ascii String DecimalString.
From stdpp Require Import base numbers list gmap.

Open Scope Z_scope.

(** ** JavaScript strings *)

Module JS.

Definition jsstring : Type := list N.

(** A string literal of the source (ASCII text). *)
Definition lit (s : string) : jsstring := N_of_ascii <$> list_ascii_of_string s.

(** [s.substring(i, j)]; the two indices are swapped when [i > j]. *)
Definition substring (s : jsstring) (i j : nat) : jsstring :=
  take (Nat.max i j - Nat.min i j) (drop (Nat.min i j) s).

Fixpoint startsWith (s p : jsstring) {struct p} : bool :=
  match p, s with
  | [], _ => true
  | _ :: _, [] => false
  | a :: p', b :: s' => (a =? b)%N && startsWith s' p'
  end.

(** [s.includes(p)]: [p] occurs in [s] as a contiguous run of code units. *)
Fixpoint includes (s p : jsstring) : bool :=
  startsWith s p ||
  match s with
  | [] => false
  | _ :: s' => includes s' p
  end.

(** [parts.join(sep)]. *)
Fixpoint join (sep : jsstring) (parts : list jsstring) : jsstring :=
  match parts with
  | [] => []
  | [p] => p
  | p :: rest => p ++ sep ++ join sep rest
  end.

(** An integer interpolated in a template literal. *)
Definition numberToString (z : Z) : jsstring :=
  lit (NilZero.string_of_int (Z.to_int z)).

(** A string in a boolean position: only the empty string is falsy. *)
Definition truthy (s : jsstring) : bool :=
  match s with
  | [] => false
  | _ :: _ => true
  end.

(** The base64 alphabet, by index. *)
Definition b64char (i : N) : N :=
  (if i <? 26 then 65 + i
   else if i <? 52 then 97 + (i - 26)
   else if i <? 62 then 48 + (i - 52)
   else if i =? 62 then 43 else 47)%N.

Fixpoint base64 (bytes : list N) : jsstring :=
  match bytes with
  | [] => []
  | [a] => [b64char (a / 4); b64char ((a mod 4) * 16); 61; 61]%N
  | [a; b] =>
      [b64char (a / 4); b64char ((a mod 4) * 16 + b / 16);
       b64char ((b mod 16) * 4); 61]%N
  | a :: b :: c :: rest =>
      [b64char (a / 4); b64char ((a mod 4) * 16 + b / 16);
       b64char ((b mod 16) * 4 + c / 64); b64char (c mod 64)]%N
      ++ base64 rest
  end.

(** [btoa(s)]: base64 of the code units read as bytes; the browser throws an
    [InvalidCharacterError] when a code unit is above 0xFF ([None] here). *)
Definition btoa (s : jsstring) : option jsstring :=
  if forallb (fun c => c <=? 255)%N s then Some (base64 s) else None.

End JS.

Import JS.

(** ** Browser platform functions the services call *)

Module Web.

(** UTF-8 bytes of one code point. *)
Definition utf8 (cp : N) : list N :=
  (if cp <? 0x80 then [cp]
   else if cp <? 0x800 then [0xC0 + cp / 64; 0x80 + cp mod 64]
   else if cp <? 0x10000 then
     [0xE0 + cp / 4096; 0x80 + (cp / 64) mod 64; 0x80 + cp mod 64]
   else
     [0xF0 + cp / 262144; 0x80 + (cp / 4096) mod 64;
      0x80 + (cp / 64) mod 64; 0x80 + cp mod 64])%N.

Definition highSurrogate (c : N) : bool := ((0xD800 <=? c) && (c <? 0xDC00))%N.
Definition lowSurrogate (c : N) : bool := ((0xDC00 <=? c) && (c <? 0xE000))%N.

(** [new TextEncoder().encode(s)]: surrogate pairs are combined, a lone
    surrogate becomes U+FFFD. *)
Fixpoint encode (s : jsstring) : list N :=
  match s with
  | [] => []
  | c :: rest =>
      if highSurrogate c then
        match rest with
        | d :: rest' =>
            if lowSurrogate d
            then utf8 (0x10000 + (c - 0xD800) * 1024 + (d - 0xDC00))%N ++ encode rest'
            else utf8 0xFFFD%N ++ encode rest
        | [] => utf8 0xFFFD%N
        end
      else if lowSurrogate c then utf8 0xFFFD%N ++ encode rest
      else utf8 c ++ encode rest
  end.

(** *** SHA-256 (FIPS 180-4) on 32-bit words kept in [N] *)

Definition w32 (x : N) : N := (x mod 0x100000000)%N.
Definition add32 (x y : N) : N := w32 (x + y).
Definition rotr (n x : N) : N := N.lor (N.shiftr x n) (w32 (N.shiftl x (32 - n))).
Definition not32 (x : N) : N := N.lxor x 0xFFFFFFFF%N.
Definition Ch (x y z : N) : N := N.lxor (N.land x y) (N.land (not32 x) z).
Definition Maj (x y z : N) : N :=
  N.lxor (N.lxor (N.land x y) (N.land x z)) (N.land y z).
Definition bigSigma0 (x : N) : N := N.lxor (N.lxor (rotr 2 x) (rotr 13 x)) (rotr 22 x).
Definition bigSigma1 (x : N) : N := N.lxor (N.lxor (rotr 6 x) (rotr 11 x)) (rotr 25 x).
Definition smallSigma0 (x : N) : N := N.lxor (N.lxor (rotr 7 x) (rotr 18 x)) (N.shiftr x 3).
Definition smallSigma1 (x : N) : N := N.lxor (N.lxor (rotr 17 x) (rotr 19 x)) (N.shiftr x 10).

(** The first 64 primes. *)
Definition primes : list N :=
  [2; 3; 5; 7; 11; 13; 17; 19; 23; 29; 31; 37; 41; 43; 47; 53;
   59; 61; 67; 71; 73; 79; 83; 89; 97; 101; 103; 107; 109; 113; 127; 131;
   137; 139; 149; 151; 157; 163; 167; 173; 179; 181; 191; 193; 197; 199; 211; 223;
   227; 229; 233; 239; 241; 251; 257; 263; 269; 271; 277; 281; 283; 293; 307; 311]%N.

(** Integer cube root below [2^bits], one bit at a time from the top. *)
Fixpoint cubeRoot (bits : nat) (x root : N) : N :=
  match bits with
  | O => root
  | S bits' =>
      let candidate := (root + 2 ^ N.of_nat bits')%N in
      cubeRoot bits' x (if (candidate ^ 3 <=? x)%N then candidate else root)
  end.

(** The round constants: the first 32 bits of the fractional part of the cube
    root of each prime. *)
Definition K256 : list N :=
  (fun p => w32 (cubeRoot 36 (p * 2 ^ 96) 0))%N <$> primes.

(** The initial hash value: the first 32 bits of the fractional part of the
    square root of each of the first eight primes. *)
Definition H256 : list N :=
  (fun p => w32 (N.sqrt (p * 2 ^ 64)))%N <$> take 8 primes.

(** Big-endian bytes of a number, [n] bytes wide. *)
Fixpoint bigEndian (n : nat) (x : N) : list N :=
  match n with
  | O => []
  | S n' => bigEndian n' (x / 256)%N ++ [(x mod 256)%N]
  end.

Definition fromBigEndian (bytes : list N) : N :=
  foldl (fun acc b => acc * 256 + b)%N 0%N bytes.

(** The message followed by 0x80, zeros up to 56 modulo 64, and the bit
    length on eight bytes. *)
Definition pad (msg : list N) : list N :=
  let len := length msg in
  let zeros := ((64 - (len + 9) mod 64) mod 64)%nat in
  msg ++ [0x80%N] ++ replicate zeros 0%N ++ bigEndian 8 (N.of_nat len * 8)%N.

Fixpoint chunks (fuel size : nat) (l : list N) : list (list N) :=
  match fuel, l with
  | S fuel', _ :: _ => take size l :: chunks fuel' size (drop size l)
  | _, _ => []
  end.

(** The message schedule: [w] holds the sixteen latest words, oldest first. *)
Fixpoint schedule (n : nat) (w : list N) : list N :=
  match n with
  | O => []
  | S n' =>
      let next :=
        add32 (add32 (smallSigma1 (nth 14 w 0%N)) (nth 9 w 0%N))
              (add32 (smallSigma0 (nth 1 w 0%N)) (nth 0 w 0%N)) in
      next :: schedule n' (drop 1 w ++ [next])
  end.

Definition round (v : list N) (kw : N * N) : list N :=
  match v with
  | [a; b; c; d; e; f; g; h] =>
      let t1 := add32 (add32 (add32 h (bigSigma1 e)) (add32 (Ch e f g) (fst kw))) (snd kw) in
      let t2 := add32 (bigSigma0 a) (Maj a b c) in
      [add32 t1 t2; a; b; c; add32 d t1; e; f; g]
  | _ => v
  end.

Definition compress (h : list N) (block : list N) : list N :=
  let w16 := fromBigEndian <$> chunks 16 4 block in
  let w := w16 ++ schedule 48 w16 in
  zip_with add32 h (foldl round h (zip K256 w)).

(** [crypto.subtle.digest('SHA-256', data)], as the 32 bytes of the digest. *)
Definition sha256 (data : list N) : list N :=
  let padded := pad data in
  let h := foldl compress H256 (chunks (length padded) 64 padded) in
  h ≫= bigEndian 4.

Definition hexDigit (d : N) : N := (if d <? 10 then 48 + d else 87 + d)%N.

(** [b.toString(16).padStart(2, '0')] for a byte. *)
Definition hexByte (b : N) : jsstring := [hexDigit (b / 16); hexDigit (b mod 16)]%N.

(** *** The calendar day of a timestamp *)

(** Decimal digits of a non-negative number, padded with zeros to [width]. *)
Fixpoint padDigits (width : nat) (x : Z) : jsstring :=
  match width with
  | O => []
  | S width' => padDigits width' (x / 10) ++ [Z.to_N (48 + x mod 10)]
  end.

(** [new Date(ms).toISOString().split('T')[0]]: the proleptic Gregorian UTC
    date of a time value, with the expanded six-digit form for years outside
    0..9999. Time values are those [Date.now()] yields, all within the range
    in which [toISOString] is defined. *)
Definition isoDate (ms : Z) : jsstring :=
  let z := ms / 86400000 + 719468 in
  let era := z / 146097 in
  let doe := z - era * 146097 in
  let yoe := (doe - doe / 1460 + doe / 36524 - doe / 146096) / 365 in
  let doy := doe - (365 * yoe + yoe / 4 - yoe / 100) in
  let mp := (5 * doy + 2) / 153 in
  let d := doy - (153 * mp + 2) / 5 + 1 in
  let m := if mp <? 10 then mp + 3 else mp - 9 in
  let y := yoe + era * 400 + (if m <=? 2 then 1 else 0) in
  let year :=
    if (0 <=? y) && (y <=? 9999) then padDigits 4 y
    else if y <? 0 then lit "-" ++ padDigits 6 (- y)
    else lit "+" ++ padDigits 6 y in
  year ++ lit "-" ++ padDigits 2 m ++ lit "-" ++ padDigits 2 d.

End Web.

(** ** Promises as state transformers *)

Inductive Settled (E A : Type) : Type :=
| Resolved (a : A)
| Rejected (e : E).
Arguments Resolved {E A} a.
Arguments Rejected {E A} e.

Definition Async (St E A : Type) : Type := St -> Settled E A * St.

(** ** apiUtils.ts *)

Module ApiUtils.

Record RetryOptions : Type := {
  maxAttempts : Z;
  baseDelay : Z;
  maxDelay : Z;
  backoffFactor : Z
}.

Definition defaultRetryOptions : RetryOptions :=
  {| maxAttempts := 3; baseDelay := 1000; maxDelay := 10000; backoffFactor := 2 |}.

(** [Partial<RetryOptions>]: every property may be left out. *)
Record PartialRetryOptions : Type := {
  maxAttempts_given : option Z;
  baseDelay_given : option Z;
  maxDelay_given : option Z;
  backoffFactor_given : option Z
}.

Definition noRetryOptions : PartialRetryOptions :=
  {| maxAttempts_given := None; baseDelay_given := None;
     maxDelay_given := None; backoffFactor_given := None |}.

(** The object literal [{ maxAttempts: m }]. *)
Definition onlyMaxAttempts (m : Z) : PartialRetryOptions :=
  {| maxAttempts_given := Some m; baseDelay_given := None;
     maxDelay_given := None; backoffFactor_given := None |}.

(** [{ ...defaultRetryOptions, ...options }]. *)
Definition mergeRetryOptions (options : PartialRetryOptions) : RetryOptions :=
  {| maxAttempts := default (maxAttempts defaultRetryOptions) (maxAttempts_given options);
     baseDelay := default (baseDelay defaultRetryOptions) (baseDelay_given options);
     maxDelay := default (maxDelay defaultRetryOptions) (maxDelay_given options);
     backoffFactor := default (backoffFactor defaultRetryOptions) (backoffFactor_given options) |}.

(** [class APIError extends Error]. *)
Record APIError : Type := {
  message : jsstring;
  status : option Z;
  code : option jsstring;
  retryable : bool
}.

(** An [Error] object: an [APIError], or any other error with its message. *)
Inductive JsError : Type :=
| APIErr (e : APIError)
| OtherError (msg : jsstring).

(** What a promise of this module rejects with: an error, or [undefined]. *)
Inductive JsThrown : Type :=
| ThrownError (e : JsError)
| ThrownUndefined.

(** [Math.pow] is taken on a non-negative exponent, which is the case for
    every attempt number [withRetry] passes (attempt >= 1). *)
Definition calculateDelay (attempt : Z) (options : RetryOptions) : Z :=
  let delay := baseDelay options * backoffFactor options ^ (attempt - 1) in
  Z.min delay (maxDelay options).

Definition isRetryableError (error : JsError) : bool :=
  match error with
  | APIErr e => retryable e
  | OtherError msg =>
      if includes msg (lit "network") || includes msg (lit "fetch") then true
      else false
  end.

Section WithRetry.
Context {St T : Type}.
(** [await sleep(ms)], as its effect on the state. *)
Variable sleep : Z -> St -> St.
Variable operation : Async St JsError T.
Variable config : RetryOptions.

(** The body of [for (attempt = 1; attempt <= config.maxAttempts; attempt++)].
    [remaining] is the number of integers in [attempt, maxAttempts], so
    [remaining = 0] is the loop test failing and control reaching the final
    [throw lastError!]. *)
Fixpoint attempts (remaining : nat) (attempt : Z) (lastError : JsThrown)
    (s : St) : Settled JsThrown T * St :=
  match remaining with
  | O => (Rejected lastError, s)
  | S remaining' =>
      match operation s with
      | (Resolved v, s1) => (Resolved v, s1)
      | (Rejected e, s1) =>
          if negb (isRetryableError e) || (attempt =? maxAttempts config)
          then (Rejected (ThrownError e), s1)
          else
            let delay := calculateDelay attempt config in
            attempts remaining' (attempt + 1) (ThrownError e) (sleep delay s1)
      end
  end.

(** The same loop with its test [attempt <= config.maxAttempts] written out,
    on a fuel ([None] when the fuel runs out); [attempts_is_the_loop] shows
    that [attempts] is this loop, which never needs more than
    [maxAttempts + 1] steps. *)
Fixpoint attemptsFrom (fuel : nat) (attempt : Z) (lastError : JsThrown)
    (s : St) : option (Settled JsThrown T * St) :=
  match fuel with
  | O => None
  | S fuel' =>
      if attempt <=? maxAttempts config then
        match operation s with
        | (Resolved v, s1) => Some (Resolved v, s1)
        | (Rejected e, s1) =>
            if negb (isRetryableError e) || (attempt =? maxAttempts config)
            then Some (Rejected (ThrownError e), s1)
            else
              let delay := calculateDelay attempt config in
              attemptsFrom fuel' (attempt + 1) (ThrownError e) (sleep delay s1)
        end
      else Some (Rejected lastError, s)
  end.
End WithRetry.

Definition withRetry {St T : Type} (sleep : Z -> St -> St)
    (operation : Async St JsError T) (options : PartialRetryOptions)
    : Async St JsThrown T :=
  let config := mergeRetryOptions options in
  attempts sleep operation config (Z.to_nat (maxAttempts config)) 1 ThrownUndefined.

(** A spy around an operation and the timer, as the test suite wraps them:
    it counts the invocations and records the delays slept. *)
Record Spy (St : Type) : Type := {
  inner : St;
  calls : nat;
  slept : list Z
}.
Arguments inner {St} _.
Arguments calls {St} _.
Arguments slept {St} _.

Definition spyOn {St T : Type} (operation : Async St JsError T)
    : Async (Spy St) JsError T :=
  fun p =>
    let (r, s1) := operation (inner p) in
    (r, {| inner := s1; calls := S (calls p); slept := slept p |}).

Definition spySleep {St : Type} (sleep : Z -> St -> St) (ms : Z) (p : Spy St) : Spy St :=
  {| inner := sleep ms (inner p); calls := calls p; slept := slept p ++ [ms] |}.

Definition fresh {St : Type} (s : St) : Spy St :=
  {| inner := s; calls := O; slept := [] |}.

(** The operation fails on every invocation, each time retryably. *)
Definition alwaysRetryable {St T : Type} (operation : Async St JsError T) : Prop :=
  forall s, exists e s', operation s = (Rejected e, s') /\ isRetryableError e = true.

(** *** The in-memory cache *)

Record CacheEntry (T : Type) : Type := {
  data : T;
  timestamp : Z;
  ttl : Z
}.
Arguments data {T} _.
Arguments timestamp {T} _.
Arguments ttl {T} _.

Module Cache.
Definition set {T : Type} (now : Z) (key : jsstring) (v : T) (ttl_ms : Z)
    (c : gmap jsstring (CacheEntry T)) : gmap jsstring (CacheEntry T) :=
  <[key := {| data := v; timestamp := now; ttl := ttl_ms |}]> c.

(** [set(key, data)] with the default time to live of five minutes. *)
Definition set_default {T : Type} (now : Z) (key : jsstring) (v : T)
    (c : gmap jsstring (CacheEntry T)) : gmap jsstring (CacheEntry T) :=
  set now key v 300000 c.

(** The value ([None] for [null]) and the cache after the call. *)
Definition get {T : Type} (now : Z) (key : jsstring)
    (c : gmap jsstring (CacheEntry T)) : option T * gmap jsstring (CacheEntry T) :=
  match c !! key with
  | None => (None, c)
  | Some entry =>
      if now - timestamp entry >? ttl entry
      then (None, base.delete key c)
      else (Some (data entry), c)
  end.

Definition clear {T : Type} (c : gmap jsstring (CacheEntry T))
    : gmap jsstring (CacheEntry T) := ∅.

Definition delete {T : Type} (key : jsstring) (c : gmap jsstring (CacheEntry T))
    : bool * gmap jsstring (CacheEntry T) :=
  (bool_decide (is_Some (c !! key)), base.delete key c).
End Cache.

Definition createCacheKey (prefix : jsstring) (parts : list jsstring) : jsstring :=
  prefix ++ lit ":" ++ join (lit ":") parts.

(** *** The sliding-window rate limiter *)

Record RateLimiter : Type := {
  requests : list Z;
  maxRequests : Z;
  windowMs : Z
}.

(** [new RateLimiter()]: ten requests a minute. *)
Definition rateLimiter0 : RateLimiter :=
  {| requests := []; maxRequests := 10; windowMs := 60000 |}.

Definition canMakeRequest (now : Z) (rl : RateLimiter) : bool * RateLimiter :=
  let kept := filter (fun time => now - time < windowMs rl) (requests rl) in
  (bool_decide (Z.of_nat (length kept) < maxRequests rl),
   {| requests := kept; maxRequests := maxRequests rl; windowMs := windowMs rl |}).

Definition recordRequest (now : Z) (rl : RateLimiter) : RateLimiter :=
  {| requests := requests rl ++ [now];
     maxRequests := maxRequests rl; windowMs := windowMs rl |}.

Definition getWaitTime (now : Z) (rl : RateLimiter) : Z :=
  match requests rl with
  | [] => 0
  | t :: ts =>
      let oldestRequest := foldr Z.min t ts in
      let waitTime := windowMs rl - (now - oldestRequest) in
      Z.max 0 waitTime
  end.

(** [Math.ceil(waitTime / 1000)] on whole milliseconds. *)
Definition ceilSeconds (waitTime : Z) : Z := (waitTime + 999) / 1000.

Definition rateLimitError (waitTime : Z) : APIError :=
  {| message := lit "Rate limit exceeded. Please wait "
                ++ numberToString (ceilSeconds waitTime)
                ++ lit " seconds before trying again.";
     status := Some 429;
     code := Some (lit "RATE_LIMIT_EXCEEDED");
     retryable := true |}.

Definition checkRateLimit (now : Z) (rl : RateLimiter) : Settled APIError unit * RateLimiter :=
  let (ok, rl1) := canMakeRequest now rl in
  if ok then (Resolved tt, recordRequest now rl1)
  else (Rejected (rateLimitError (getWaitTime now rl1)), rl1).

End ApiUtils.

Import ApiUtils.

(** ** Sequencing of awaited steps *)

Definition ret {St E A : Type} (a : A) : Async St E A := fun st => (Resolved a, st).

Definition throw {St E A : Type} (e : E) : Async St E A := fun st => (Rejected e, st).

Definition bind {St E A B : Type} (m : Async St E A) (k : A -> Async St E B)
    : Async St E B :=
  fun st =>
    match m st with
    | (Resolved a, st1) => k a st1
    | (Rejected e, st1) => (Rejected e, st1)
    end.

Notation "'await' x <- m ;; k" := (bind m (fun x => k))
  (at level 10, x name, m at level 99, k at level 200, only parsing).

(** ** The state shared by the services *)

(** The object kept as JSON under [QUOTA_STORAGE_KEY]. *)
Record DailyUsage : Type := {
  date : jsstring;
  count : Z
}.

(** The clock, the two singletons of apiUtils, the [localStorage] item of the
    quota (kept parsed; only this code writes it) and the number of network
    calls made so far. *)
Record Runtime : Type := {
  clock : Z;
  cache : gmap jsstring (CacheEntry jsstring);
  rateLimiter : RateLimiter;
  storedUsage : option DailyUsage;
  netCalls : nat
}.

Definition withCache (c : gmap jsstring (CacheEntry jsstring)) (st : Runtime) : Runtime :=
  {| clock := clock st; cache := c; rateLimiter := rateLimiter st;
     storedUsage := storedUsage st; netCalls := netCalls st |}.

Definition withRateLimiter (rl : RateLimiter) (st : Runtime) : Runtime :=
  {| clock := clock st; cache := cache st; rateLimiter := rl;
     storedUsage := storedUsage st; netCalls := netCalls st |}.

Definition withStoredUsage (u : DailyUsage) (st : Runtime) : Runtime :=
  {| clock := clock st; cache := cache st; rateLimiter := rateLimiter st;
     storedUsage := Some u; netCalls := netCalls st |}.

(** A network call that took [elapsed] milliseconds. *)
Definition afterCall (elapsed : Z) (st : Runtime) : Runtime :=
  {| clock := clock st + elapsed; cache := cache st; rateLimiter := rateLimiter st;
     storedUsage := storedUsage st; netCalls := S (netCalls st) |}.

(** [await sleep(ms)]: the timer fires [ms] milliseconds later (at once for a
    negative delay). *)
Definition sleep (ms : Z) (st : Runtime) : Runtime :=
  {| clock := clock st + Z.max 0 ms; cache := cache st; rateLimiter := rateLimiter st;
     storedUsage := storedUsage st; netCalls := netCalls st |}.

(** The parts of the state that only [redesignRoom] itself writes. *)
Definition persisted (st : Runtime) :
    gmap jsstring (CacheEntry jsstring) * RateLimiter * option DailyUsage :=
  (cache st, rateLimiter st, storedUsage st).

(** [interface RedesignOptions], every property optional. *)
Record RedesignOptions : Type := {
  useCache : option bool;
  cacheTimeMs : option Z;
  maxRetries : option Z
}.

Definition noOptions : RedesignOptions :=
  {| useCache := None; cacheTimeMs := None; maxRetries := None |}.

(** The options once the defaults are spread under them. *)
Record RedesignConfig : Type := {
  config_useCache : bool;
  config_cacheTimeMs : Z;
  config_maxRetries : Z
}.

Definition spread (defaults : RedesignConfig) (options : RedesignOptions) : RedesignConfig :=
  {| config_useCache := default (config_useCache defaults) (useCache options);
     config_cacheTimeMs := default (config_cacheTimeMs defaults) (cacheTimeMs options);
     config_maxRetries := default (config_maxRetries defaults) (maxRetries options) |}.

(** [cache.get(cacheKey)] followed by [if (cachedResult)]: the value when it is
    present, fresh and truthy. *)
Definition cachedResult (cacheKey : jsstring) : Async Runtime JsThrown (option jsstring) :=
  fun st =>
    let (r, c) := Cache.get (clock st) cacheKey (cache st) in
    (Resolved (match r with
               | Some v => if truthy v then Some v else None
               | None => None
               end),
     withCache c st).

(** [if (config.useCache && config.cacheTimeMs) cache.set(cacheKey, result, config.cacheTimeMs)]. *)
Definition cacheResult (config : RedesignConfig) (cacheKey result : jsstring)
    : Async Runtime JsThrown unit :=
  fun st =>
    if config_useCache config && negb (config_cacheTimeMs config =? 0)
    then (Resolved tt,
          withCache (Cache.set (clock st) cacheKey result (config_cacheTimeMs config) (cache st)) st)
    else (Resolved tt, st).

(** The [DOMException] of [btoa]; its message differs between browsers and
    nothing in the code reads it. *)
Definition invalidCharacterError : JsError := OtherError (lit "InvalidCharacterError").

(** What a [catch] clause may receive. *)
Inductive Caught : Type :=
| CaughtAPIError (e : APIError)
| CaughtError (msg : jsstring)
| CaughtValue.

(** ** The OpenRouter client (quota kept in the browser) *)

Module OpenRouter.

Record Request : Type := {
  authorization : jsstring;
  text : jsstring;
  image_url : jsstring
}.

(** What follows from one [fetch]: an error thrown by [fetch], by
    [response.json()] or by the drawing code; a thrown value that is not an
    [Error]; a response whose [ok] is false, with [errorData.error?.message];
    or a successful response with [choices[0].message.content] and the PNG
    drawn from it ([None] when the canvas has no 2d context). *)
Inductive Response : Type :=
| Throws (msg : jsstring)
| ThrowsValue
| NotOk (httpStatus : Z) (errorMessage : option jsstring)
| Ok (content : option jsstring) (picture : option jsstring).

Record Exchange : Type := {
  response : Response;
  elapsed : Z
}.

(** The build-time constants and the remote end. [DAILY_REQUEST_LIMIT] is 5
    in the source and is kept as a field so that other limits can be stated;
    [openRouter n request] is what the [n]-th network call of the session
    meets. *)
Record Environment : Type := {
  VITE_API_KEY : option jsstring;
  DAILY_REQUEST_LIMIT : Z;
  openRouter : nat -> Request -> Exchange
}.

Definition DEFAULT_REDESIGN_OPTIONS : RedesignConfig :=
  {| config_useCache := true; config_cacheTimeMs := 86400000; config_maxRetries := 1 |}.

Definition missingApiKey : APIError :=
  {| message := lit "VITE_API_KEY environment variable not set. Please add your OpenRouter API key to the .env file.";
     status := Some 401;
     code := Some (lit "MISSING_API_KEY");
     retryable := false |}.

Definition getApiKey (env : Environment) : Settled APIError jsstring :=
  match VITE_API_KEY env with
  | Some apiKey => if truthy apiKey then Resolved apiKey else Rejected missingApiKey
  | None => Rejected missingApiKey
  end.

Definition getDailyUsage (st : Runtime) : DailyUsage * Runtime :=
  let today := Web.isoDate (clock st) in
  let newUsage := {| date := today; count := 0 |} in
  match storedUsage st with
  | Some usage =>
      if decide (date usage = today) then (usage, st)
      else (newUsage, withStoredUsage newUsage st)
  | None => (newUsage, withStoredUsage newUsage st)
  end.

Definition incrementDailyUsage : Async Runtime JsThrown unit :=
  fun st =>
    let (usage, st1) := getDailyUsage st in
    (Resolved tt, withStoredUsage {| date := date usage; count := count usage + 1 |} st1).

Definition dailyQuotaExceeded (limit : Z) : APIError :=
  {| message := lit "Daily limit reached (" ++ numberToString limit
                ++ lit " requests). This helps preserve your free API quota. Please try again tomorrow or upgrade to a paid plan for unlimited usage.";
     status := Some 429;
     code := Some (lit "DAILY_QUOTA_EXCEEDED");
     retryable := false |}.

Definition checkDailyQuota (env : Environment) : Async Runtime JsThrown unit :=
  fun st =>
    let (usage, st1) := getDailyUsage st in
    if count usage >=? DAILY_REQUEST_LIMIT env
    then (Rejected (ThrownError (APIErr (dailyQuotaExceeded (DAILY_REQUEST_LIMIT env)))), st1)
    else (Resolved tt, st1).

Definition createOptimizedPrompt (userPrompt : jsstring) : jsstring :=
  lit "Transform this room with: " ++ substring userPrompt 0 100
  ++ lit ". Keep layout, change style only.".

Definition generateImageHash (base64Data : jsstring) : jsstring :=
  let data := Web.encode (substring base64Data 0 1000) in
  let hashArray := Web.sha256 data in
  substring (hashArray ≫= Web.hexByte) 0 16.

(** The [cacheKey] constant of [redesignRoom]; [None] when [btoa] throws. *)
Definition cacheKey (base64ImageData prompt : jsstring) : option jsstring :=
  let optimizedPrompt := createOptimizedPrompt prompt in
  let imageHash := generateImageHash base64ImageData in
  encoded ← btoa optimizedPrompt;
  Some (createCacheKey (lit "room-redesign") [imageHash; substring encoded 0 20]).

(** [await checkRateLimit()] on the shared limiter. *)
Definition awaitRateLimit : Async Runtime JsThrown unit :=
  fun st =>
    match checkRateLimit (clock st) (rateLimiter st) with
    | (Resolved _, rl) => (Resolved tt, withRateLimiter rl st)
    | (Rejected e, rl) => (Rejected (ThrownError (APIErr e)), withRateLimiter rl st)
    end.

(** The [try] block of [generateImage]. *)
Definition requestImage (env : Environment) (base64ImageData mimeType optimizedPrompt : jsstring)
    : Async Runtime Caught jsstring :=
  fun st =>
    match getApiKey env with
    | Rejected e => (Rejected (CaughtAPIError e), st)
    | Resolved apiKey =>
        let request :=
          {| authorization := lit "Bearer " ++ apiKey;
             text := optimizedPrompt;
             image_url := lit "data:" ++ mimeType ++ lit ";base64," ++ base64ImageData |} in
        let exchange := openRouter env (netCalls st) request in
        let st1 := afterCall (elapsed exchange) st in
        match response exchange with
        | Throws msg => (Rejected (CaughtError msg), st1)
        | ThrowsValue => (Rejected CaughtValue, st1)
        | NotOk httpStatus errorMessage =>
            let fallback := lit "API request failed with status " ++ numberToString httpStatus in
            (Rejected (CaughtAPIError
               {| message := match errorMessage with
                             | Some m => if truthy m then m else fallback
                             | None => fallback
                             end;
                  status := Some httpStatus;
                  code := Some (lit "OPENROUTER_API_ERROR");
                  retryable := httpStatus >=? 500 |}), st1)
        | Ok content picture =>
            match content with
            | Some (_ :: _) =>
                match picture with
                | Some imageData => (Resolved imageData, st1)
                | None =>
                    (Rejected (CaughtAPIError
                       {| message := lit "Failed to create design visualization";
                          status := Some 500;
                          code := Some (lit "CANVAS_ERROR");
                          retryable := true |}), st1)
                end
            | _ =>
                (Rejected (CaughtAPIError
                   {| message := lit "No response generated. Please try again.";
                      status := Some 500;
                      code := Some (lit "NO_RESPONSE_GENERATED");
                      retryable := true |}), st1)
            end
        end
    end.

(** The [catch] clause of [generateImage]. *)
Definition classify (error : Caught) : APIError :=
  match error with
  | CaughtAPIError e => e
  | CaughtError msg =>
      if includes msg (lit "quota") || includes msg (lit "limit") then
        {| message := lit "API quota exceeded. Please try again later.";
           status := Some 429; code := Some (lit "QUOTA_EXCEEDED"); retryable := true |}
      else if includes msg (lit "network") || includes msg (lit "fetch") then
        {| message := lit "Network error occurred. Please check your connection and try again.";
           status := Some 503; code := Some (lit "NETWORK_ERROR"); retryable := true |}
      else
        {| message := lit "Failed to generate room design: " ++ msg;
           status := Some 500; code := Some (lit "API_ERROR"); retryable := true |}
  | CaughtValue =>
      {| message := lit "An unexpected error occurred while generating the room design. Please try again.";
         status := Some 500; code := Some (lit "UNKNOWN_ERROR"); retryable := true |}
  end.

Definition generateImage (env : Environment) (base64ImageData mimeType optimizedPrompt : jsstring)
    : Async Runtime JsError jsstring :=
  fun st =>
    match requestImage env base64ImageData mimeType optimizedPrompt st with
    | (Resolved imageData, st1) => (Resolved imageData, st1)
    | (Rejected error, st1) => (Rejected (APIErr (classify error)), st1)
    end.

Definition redesignRoom (env : Environment) (base64ImageData mimeType prompt : jsstring)
    (options : RedesignOptions) : Async Runtime JsThrown jsstring :=
  let config := spread DEFAULT_REDESIGN_OPTIONS options in
  await _u <- checkDailyQuota env ;;
  let optimizedPrompt := createOptimizedPrompt prompt in
  match cacheKey base64ImageData prompt with
  | None => throw (ThrownError invalidCharacterError)
  | Some key =>
      await hit <- (if config_useCache config then cachedResult key else ret None) ;;
      match hit with
      | Some cached => ret cached
      | None =>
          await _u <- awaitRateLimit ;;
          await result <- withRetry sleep
                      (generateImage env base64ImageData mimeType optimizedPrompt)
                      (onlyMaxAttempts (config_maxRetries config)) ;;
          await _u <- incrementDailyUsage ;;
          await _u <- cacheResult config key result ;;
          ret result
      end
  end.

End OpenRouter.

(** ** The Firebase Functions client (quota kept by the backend) *)

Module Firebase.

Record CallData : Type := {
  prompt : jsstring;
  imageDataUrl : jsstring
}.

(** What follows from one call of the [generateRoomDesign] function: a thrown
    value that is not an [APIError], with its [code] property if it has one;
    or the returned [data], with the PNG drawn from the suggestions ([None]
    when the canvas has no 2d context). *)
Inductive CallResult : Type :=
| CallThrows (errorCode : option jsstring)
| CallReturns (success : bool) (suggestions : jsstring) (picture : option jsstring).

Record CallExchange : Type := {
  result : CallResult;
  took : Z
}.

Record Environment : Type := {
  generateRoomDesignFunction : nat -> CallData -> CallExchange
}.

Definition DEFAULT_REDESIGN_OPTIONS : RedesignConfig :=
  {| config_useCache := true; config_cacheTimeMs := 86400000; config_maxRetries := 2 |}.

Definition generateImageHash (base64Data : jsstring) : jsstring :=
  substring base64Data 0 100.

(** The [cacheKey] constant of [redesignRoom]; [None] when [btoa] throws. *)
Definition cacheKey (base64ImageData prompt : jsstring) : option jsstring :=
  let imageHash := generateImageHash base64ImageData in
  encoded ← btoa prompt;
  Some (createCacheKey (lit "room-redesign") [imageHash; substring encoded 0 20]).

(** What the [catch] clause of [generateDesign] may receive. *)
Inductive Failure : Type :=
| FailedWith (e : APIError)
| Failed (errorCode : option jsstring).

Definition failureCode (error : Failure) : option jsstring :=
  match error with
  | FailedWith e => code e
  | Failed errorCode => errorCode
  end.

(** The [try] block of [generateDesign]. *)
Definition requestDesign (env : Environment) (base64ImageData mimeType userPrompt : jsstring)
    : Async Runtime Failure jsstring :=
  fun st =>
    let imageUrl := lit "data:" ++ mimeType ++ lit ";base64," ++ base64ImageData in
    let exchange :=
      generateRoomDesignFunction env (netCalls st)
        {| prompt := userPrompt; imageDataUrl := imageUrl |} in
    let st1 := afterCall (took exchange) st in
    match result exchange with
    | CallThrows errorCode => (Rejected (Failed errorCode), st1)
    | CallReturns success suggestions picture =>
        if negb success || negb (truthy suggestions) then
          (Rejected (FailedWith
             {| message := lit "Failed to generate design suggestions";
                status := Some 500;
                code := Some (lit "GENERATION_FAILED");
                retryable := true |}), st1)
        else
          match picture with
          | Some imageData => (Resolved imageData, st1)
          | None =>
              (Rejected (FailedWith
                 {| message := lit "Failed to create design visualization";
                    status := Some 500;
                    code := Some (lit "CANVAS_ERROR");
                    retryable := true |}), st1)
          end
    end.

(** The [catch] clause of [generateDesign]. *)
Definition classify (error : Failure) : APIError :=
  if decide (failureCode error = Some (lit "functions/unauthenticated")) then
    {| message := lit "Please sign in to generate designs";
       status := Some 401; code := Some (lit "UNAUTHENTICATED"); retryable := false |}
  else if decide (failureCode error = Some (lit "functions/resource-exhausted")) then
    {| message := lit "Daily generation limit reached. Please try again tomorrow.";
       status := Some 429; code := Some (lit "QUOTA_EXCEEDED"); retryable := false |}
  else if decide (failureCode error = Some (lit "functions/invalid-argument")) then
    {| message := lit "Invalid input provided. Please check your image and prompt.";
       status := Some 400; code := Some (lit "INVALID_INPUT"); retryable := false |}
  else
    match error with
    | FailedWith e => e
    | Failed _ =>
        {| message := lit "An unexpected error occurred while generating the design";
           status := Some 500; code := Some (lit "UNKNOWN_ERROR"); retryable := true |}
    end.

Definition generateDesign (env : Environment) (base64ImageData mimeType userPrompt : jsstring)
    : Async Runtime JsError jsstring :=
  fun st =>
    match requestDesign env base64ImageData mimeType userPrompt st with
    | (Resolved imageData, st1) => (Resolved imageData, st1)
    | (Rejected error, st1) => (Rejected (APIErr (classify error)), st1)
    end.

Definition redesignRoom (env : Environment) (base64ImageData mimeType userPrompt : jsstring)
    (options : RedesignOptions) : Async Runtime JsThrown jsstring :=
  let config := spread DEFAULT_REDESIGN_OPTIONS options in
  match cacheKey base64ImageData userPrompt with
  | None => throw (ThrownError invalidCharacterError)
  | Some key =>
      await hit <- (if config_useCache config then cachedResult key else ret None) ;;
      match hit with
      | Some cached => ret cached
      | None =>
          await design <- withRetry sleep
                      (generateDesign env base64ImageData mimeType userPrompt)
                      (onlyMaxAttempts (config_maxRetries config)) ;;
          await _u <- cacheResult config key design ;;
          ret design
      end
  end.

End Firebase.

(** ** A session of the rate limiter under a clock that only moves forward *)

Module LimiterSession.

Inductive Event : Type :=
| Elapse (ms : N)
| CanMakeRequest
| RecordRequest.

Record Session : Type := {
  now : Z;
  limiter : RateLimiter
}.


Definition step (s : Session) (ev : Event) : Session :=
  match ev with
  | Elapse ms => {| now := now s + Z.of_N ms; limiter := limiter s |}
  | CanMakeRequest => {| now := now s; limiter := snd (canMakeRequest (now s) (limiter s)) |}
  | RecordRequest => {| now := now s; limiter := recordRequest (now s) (limiter s) |}
  end.

Definition run (evs : list Event) (s : Session) : Session := foldl step s evs.

End LimiterSession.

(** ** Test doubles, after the repository's test suite *)

Module Mock.

(** [new APIError('Error', 500, 'ERROR', true)]. *)
Definition serverError : APIError :=
  {| message := lit "Error"; status := Some 500;
     code := Some (lit "ERROR"); retryable := true |}.

(** [new APIError('Error', 400, 'BAD_REQUEST', false)]. *)
Definition badRequest : APIError :=
  {| message := lit "Error"; status := Some 400;
     code := Some (lit "BAD_REQUEST"); retryable := false |}.

(** [vi.fn().mockRejectedValue(e)]; the state is the number of invocations. *)
Definition mockRejectedValue (e : JsError) : Async nat JsError jsstring :=
  fun n => (Rejected e, S n).

(** [vi.fn().mockRejectedValueOnce(e).mockResolvedValueOnce(v)]. *)
Definition mockRejectedOnce (e : JsError) (v : jsstring) : Async nat JsError jsstring :=
  fun n =>
    match n with
    | O => (Rejected e, S n)
    | S _ => (Resolved v, S n)
    end.

(** Fake timers: sleeping leaves the mock untouched. *)
Definition fakeTimer (ms : Z) (n : nat) : nat := n.

(** The first characters of a base64 PNG, standing for an uploaded photo. *)
Definition photo : jsstring :=
  lit "iVBORw0KGgoAAAANSUhEUgAAAAEAAAABCAYAAAAfFcSJAAAADUlEQVR42mNk".

Definition artifactA : jsstring := lit "artifact-A".

(** An OpenRouter endpoint that answers every request with a suggestion,
    drawn as [picture], after 1200 ms. *)
Definition openRouterUp (limit : Z) (picture : jsstring) : OpenRouter.Environment :=
  {| OpenRouter.VITE_API_KEY := Some (lit "sk-or-test");
     OpenRouter.DAILY_REQUEST_LIMIT := limit;
     OpenRouter.openRouter := fun _ _ =>
       {| OpenRouter.response :=
            OpenRouter.Ok (Some (lit "Use warm wood tones.")) (Some picture);
          OpenRouter.elapsed := 1200 |} |}.

(** An endpoint that answers 503 to every request, after 300 ms. *)
Definition openRouterDown (limit : Z) : OpenRouter.Environment :=
  {| OpenRouter.VITE_API_KEY := Some (lit "sk-or-test");
     OpenRouter.DAILY_REQUEST_LIMIT := limit;
     OpenRouter.openRouter := fun _ _ =>
       {| OpenRouter.response := OpenRouter.NotOk 503 None;
          OpenRouter.elapsed := 300 |} |}.

(** A Firebase backend whose function throws [functions/internal]. *)
Definition firebaseDown : Firebase.Environment :=
  {| Firebase.generateRoomDesignFunction := fun _ _ =>
       {| Firebase.result := Firebase.CallThrows (Some (lit "functions/internal"));
          Firebase.took := 300 |} |}.

(** A page just loaded at time [t]: nothing cached, recorded or stored. *)
Definition loaded (t : Z) : Runtime :=
  {| clock := t; cache := ∅; rateLimiter := rateLimiter0;
     storedUsage := None; netCalls := 0 |}.

(** 2 November 2026, 01:00 UTC. *)
Definition morning : Z := 1793581200000.

(** [used] requests are counted for the day, and the cache holds a fresh
    artifact under [key], stored an hour before. *)
Definition dayWithCached (used : Z) (key : jsstring) : Runtime :=
  {| clock := morning;
     cache := Cache.set (morning - 3600000) key artifactA 86400000 ∅;
     rateLimiter := rateLimiter0;
     storedUsage := Some {| date := lit "2026-11-02"; count := used |};
     netCalls := 0 |}.

(** The state a first successful request for [photo] leaves, 1200 ms after
    [morning]: the drawing cached, one request recorded and one counted. *)
Definition afterFirstRequest : Runtime :=
  {| clock := morning + 1200;
     cache := Cache.set (morning + 1200)
                (lit "room-redesign:f9fea128f351000d:VHJhbnNmb3JtIHRoaXMg")
                (lit "iVBORw0KGgoAAAANSUhEUgAAAyAAAAJYCAYAAACadoJw") 86400000 ∅;
     rateLimiter := {| requests := [morning]; maxRequests := 10; windowMs := 60000 |};
     storedUsage := Some {| date := lit "2026-11-02"; count := 1 |};
     netCalls := 1 |}.

(** Another upload. *)
Definition otherPhoto : jsstring :=
  lit "/9j/4AAQSkZJRgABAQAAAQABAAD/2wBDAAMCAgICAgMCAgIDAwMDBAYEBAQEBAgGBgUG".

(** The PNG the canvas yields for the sample suggestion. *)
Definition drawing : jsstring := lit "iVBORw0KGgoAAAANSUhEUgAAAyAAAAJYCAYAAACadoJw".

(** The key both prompts of the examples derive for [photo] in the OpenRouter
    client. *)
Definition photoKey : jsstring :=
  lit "room-redesign:f9fea128f351000d:VHJhbnNmb3JtIHRoaXMg".

End Mock.

(** ** Further doubles and sessions *)

(** An operation that plays a script of settlements, one per invocation; the
    state is what is left of the script (past its end it rejects). *)
Definition scripted {T : Type} : Async (list (Settled JsError T)) JsError T :=
  fun script =>
    match script with
    | [] => (Rejected (OtherError (lit "script exhausted")), [])
    | settlement :: rest => (settlement, rest)
    end.

(** A timer that leaves the state of any double untouched. *)
Definition stillTimer {St : Type} (ms : Z) (s : St) : St := s.

(** A string without the separator of [createCacheKey]. *)
Definition colonFree (s : jsstring) : Prop := 58%N ∉ s.

(** Times of successive calls under a clock that does not go back, none
    before [from]. *)
Fixpoint nonDecreasing (from : Z) (times : list Z) : Prop :=
  match times with
  | [] => True
  | t :: later => from <= t /\ nonDecreasing t later
  end.

(** [checkRateLimit()] called at each of [times] in turn: the times of the
    calls that were let through, in order, and the limiter at the end. *)
Fixpoint serveAll (times : list Z) (rl : RateLimiter) (passed : list Z)
    : list Z * RateLimiter :=
  match times with
  | [] => (passed, rl)
  | now :: rest =>
      match checkRateLimit now rl with
      | (Resolved _, rl1) => serveAll rest rl1 (passed ++ [now])
      | (Rejected _, rl1) => serveAll rest rl1 passed
      end
  end.

(** [!apiKey] in [getApiKey]: the variable is unset, or set to the empty
    string. *)
Definition VITE_API_KEY_missing (env : OpenRouter.Environment) : Prop :=
  OpenRouter.VITE_API_KEY env = None \/ OpenRouter.VITE_API_KEY env = Some [].

(** A deployment whose [.env] file has no key; the endpoint itself would
    answer. *)
Definition unconfigured (limit : Z) : OpenRouter.Environment :=
  {| OpenRouter.VITE_API_KEY := None;
     OpenRouter.DAILY_REQUEST_LIMIT := limit;
     OpenRouter.openRouter := OpenRouter.openRouter (Mock.openRouterUp limit Mock.drawing) |}.


(** A Firebase backend that answers every call with suggestions, drawn as
    [picture], after 1500 ms. *)
Definition firebaseUp (picture : jsstring) : Firebase.Environment :=
  {| Firebase.generateRoomDesignFunction := fun _ _ =>
       {| Firebase.result :=
            Firebase.CallReturns true (lit "Use warm wood tones.") (Some picture);
          Firebase.took := 1500 |} |}.

(** [{ useCache: false }]. *)
Definition withoutCache : RedesignOptions :=
  {| useCache := Some false; cacheTimeMs := None; maxRetries := None |}.

(** The error codes of the callable function that the [catch] clause of
    [generateDesign] maps to a non-retryable [APIError]. *)
Definition backendRefusal (errorCode : option jsstring) : bool :=
  bool_decide (errorCode = Some (lit "functions/unauthenticated"))
  || bool_decide (errorCode = Some (lit "functions/resource-exhausted"))
  || bool_decide (errorCode = Some (lit "functions/invalid-argument")).

(** A backend whose [n]-th call throws with the code [codeOf n], after
    300 ms. *)
Definition throwing (codeOf : nat -> option jsstring) : Firebase.Environment :=
  {| Firebase.generateRoomDesignFunction := fun n _ =>
       {| Firebase.result := Firebase.CallThrows (codeOf n); Firebase.took := 300 |} |}.

(** What [fetch] or the code after it throws on a call: an [Error] with a
    message, or ([None]) a value that is not an [Error]. *)
Definition thrown (failure : option jsstring) : OpenRouter.Response :=
  match failure with
  | Some msg => OpenRouter.Throws msg
  | None => OpenRouter.ThrowsValue
  end.

Definition caught (failure : option jsstring) : Caught :=
  match failure with
  | Some msg => CaughtError msg
  | None => CaughtValue
  end.

(** An endpoint that cannot be reached: every [fetch] throws
    [TypeError: Failed to fetch], after 50 ms. *)
Definition unreachable (limit : Z) : OpenRouter.Environment :=
  {| OpenRouter.VITE_API_KEY := Some (lit "sk-or-test");
     OpenRouter.DAILY_REQUEST_LIMIT := limit;
     OpenRouter.openRouter := fun _ _ =>
       {| OpenRouter.response := thrown (Some (lit "Failed to fetch"));
          OpenRouter.elapsed := 50 |} |}.

(** [incrementDailyUsage()] called [k] times in a row. *)
Fixpoint countRequests (k : nat) (st : Runtime) : Runtime :=
  match k with
  | O => st
  | S k' => snd (OpenRouter.incrementDailyUsage (countRequests k' st))
  end.

(** ** The Cloud Functions backend (functions/src/index.ts) *)

Module Functions.

(** A document of the [rateLimits] collection. *)
Record RateLimit : Type := {
  count : Z;
  resetAt : Z
}.

Definition oneDay : Z := 24 * 60 * 60 * 1000.

(** The Firestore collection, the clock and the number of calls made to
    OpenRouter so far. *)
Record Server : Type := {
  rateLimits : gmap jsstring RateLimit;
  now : Z;
  fetches : nat
}.

Definition withRateLimits (docs : gmap jsstring RateLimit) (sv : Server) : Server :=
  {| rateLimits := docs; now := now sv; fetches := fetches sv |}.

Definition checkRateLimit (userId : jsstring) (sv : Server) : bool * Server :=
  let oneDayLater := now sv + oneDay in
  match rateLimits sv !! userId with
  | None =>
      (true, withRateLimits (<[userId := {| count := 1; resetAt := oneDayLater |}]> (rateLimits sv)) sv)
  | Some data =>
      if decide (now sv > resetAt data) then
        (true, withRateLimits (<[userId := {| count := 1; resetAt := oneDayLater |}]> (rateLimits sv)) sv)
      else if decide (count data < 10) then
        (true, withRateLimits
                 (<[userId := {| count := count data + 1; resetAt := resetAt data |}]>
                    (rateLimits sv)) sv)
      else (false, sv)
  end.

(** The five characters the regular expression of [sanitizeInput] removes:
    the angle brackets, the double and the single quote, and the ampersand. *)
Definition htmlSpecial (c : N) : Prop := c ∈ [60; 62; 34; 39; 38]%N.

(** White space and line terminators, as [String.prototype.trim] removes
    them. *)
Definition whiteSpace (c : N) : Prop :=
  c ∈ [0x9; 0xA; 0xB; 0xC; 0xD; 0x20; 0xA0; 0x1680; 0x2028; 0x2029;
       0x202F; 0x205F; 0x3000; 0xFEFF]%N
  \/ (0x2000 <= c <= 0x200A)%N.

#[global] Instance htmlSpecial_dec (c : N) : Decision (htmlSpecial c).
Proof. unfold htmlSpecial. apply _. Defined.

#[global] Instance whiteSpace_dec (c : N) : Decision (whiteSpace c).
Proof. unfold whiteSpace. apply _. Defined.

Fixpoint trimStart (s : jsstring) : jsstring :=
  match s with
  | [] => []
  | c :: rest => if decide (whiteSpace c) then trimStart rest else s
  end.

Definition trim (s : jsstring) : jsstring := reverse (trimStart (reverse (trimStart s))).

Definition sanitizeInput (input : jsstring) : jsstring :=
  take 5000 (trim (filter (fun c => ~ htmlSpecial c) input)).

(** [functions.https.HttpsError]. *)
Record HttpsError : Type := {
  errorCode : jsstring;
  errorMessage : jsstring
}.

(** What the caller sends: [context.auth.uid] when signed in, and the two
    properties of [data] ([None]: left out, or not a string). *)
Record Call : Type := {
  auth : option jsstring;
  prompt : option jsstring;
  imageDataUrl : option jsstring
}.

(** The parts of the OpenRouter request that vary. *)
Record Upstream : Type := {
  bearer : jsstring;
  image : jsstring;
  request : jsstring
}.

(** What follows from the [fetch]: a thrown error (from [fetch], from
    [response.json()] or from reading [result.choices[0]]), a response whose
    [ok] is false, or the [content] of the first choice. *)
Inductive Reply : Type :=
| Fails
| NotOk
| Content (content : option jsstring).

(** The configured key and the remote end: [upstream n request] is what the
    [n]-th call to OpenRouter meets, and the milliseconds it takes. *)
Record Deployment : Type := {
  openrouter_apikey : option jsstring;
  upstream : nat -> Upstream -> Reply * N
}.

Record Design : Type := {
  success : bool;
  suggestions : jsstring;
  timestamp : Z
}.

Definition generateRoomDesign (cfg : Deployment) (call : Call)
    : Async Server HttpsError Design :=
  fun sv =>
    match auth call with
    | None =>
        (Rejected {| errorCode := lit "unauthenticated";
                     errorMessage := lit "User must be authenticated to generate designs" |}, sv)
    | Some userId =>
        let (withinLimit, sv1) := checkRateLimit userId sv in
        if negb withinLimit then
          (Rejected {| errorCode := lit "resource-exhausted";
                       errorMessage := lit "Daily generation limit reached. Please try again tomorrow." |},
           sv1)
        else
          match prompt call with
          | Some (c :: userPrompt) =>
              match imageDataUrl call with
              | Some (d :: url) =>
                  let sanitizedPrompt := sanitizeInput (c :: userPrompt) in
                  if decide (length sanitizedPrompt = 0%nat) then
                    (Rejected {| errorCode := lit "invalid-argument";
                                 errorMessage := lit "Prompt cannot be empty" |}, sv1)
                  else
                    match openrouter_apikey cfg with
                    | Some (k :: apiKey) =>
                        let (reply, elapsed) :=
                          upstream cfg (fetches sv1)
                            {| bearer := k :: apiKey; image := d :: url;
                               request := sanitizedPrompt |} in
                        let sv2 :=
                          {| rateLimits := rateLimits sv1; now := now sv1 + Z.of_N elapsed;
                             fetches := S (fetches sv1) |} in
                        match reply with
                        | Fails =>
                            (Rejected {| errorCode := lit "internal";
                                         errorMessage := lit "An unexpected error occurred while generating the design" |},
                             sv2)
                        | NotOk =>
                            (Rejected {| errorCode := lit "internal";
                                         errorMessage := lit "Failed to generate design suggestions" |},
                             sv2)
                        | Content (Some (e :: designSuggestions)) =>
                            (Resolved {| success := true;
                                         suggestions := e :: designSuggestions;
                                         timestamp := now sv2 |}, sv2)
                        | Content _ =>
                            (Rejected {| errorCode := lit "internal";
                                         errorMessage := lit "No design suggestions generated" |},
                             sv2)
                        end
                    | _ =>
                        (Rejected {| errorCode := lit "failed-precondition";
                                     errorMessage := lit "Service configuration error" |}, sv1)
                    end
              | _ =>
                  (Rejected {| errorCode := lit "invalid-argument";
                               errorMessage := lit "Image data URL is required" |}, sv1)
              end
          | _ =>
              (Rejected {| errorCode := lit "invalid-argument";
                           errorMessage := lit "Prompt is required and must be a string" |}, sv1)
          end
    end.

Record UsageStats : Type := {
  used : Z;
  limit : Z;
  resetsAt : Z
}.

Definition getUserUsageStats (call : Call) : Async Server HttpsError UsageStats :=
  fun sv =>
    match auth call with
    | None =>
        (Rejected {| errorCode := lit "unauthenticated";
                     errorMessage := lit "User must be authenticated" |}, sv)
    | Some userId =>
        match rateLimits sv !! userId with
        | None =>
            (Resolved {| used := 0; limit := 10; resetsAt := now sv + 24 * 60 * 60 * 1000 |}, sv)
        | Some rateLimitData =>
            if decide (now sv > resetAt rateLimitData) then
              (Resolved {| used := 0; limit := 10; resetsAt := now sv + 24 * 60 * 60 * 1000 |}, sv)
            else
              (Resolved {| used := count rateLimitData; limit := 10;
                           resetsAt := resetAt rateLimitData |}, sv)
        end
    end.

(** The same signed-in user calling [generateRoomDesign] again and again,
    [delays] apart: the settlements, oldest first. *)
Fixpoint callAll (cfg : Deployment) (call : Call) (delays : list N) (sv : Server)
    : list (Settled HttpsError Design) * Server :=
  match delays with
  | [] => ([], sv)
  | wait :: rest =>
      let sv0 :=
        {| rateLimits := rateLimits sv; now := now sv + Z.of_N wait; fetches := fetches sv |} in
      let (settled, sv1) := generateRoomDesign cfg call sv0 in
      let (later, sv2) := callAll cfg call rest sv1 in
      (settled :: later, sv2)
  end.

End Functions.

(** ** fileUtils.ts *)

Module FileUtils.

(** The characters of [[a-zA-Z0-9.-]]. *)
Definition safeChar (c : N) : Prop :=
  (97 <= c <= 122 \/ 65 <= c <= 90 \/ 48 <= c <= 57 \/ c = 46 \/ c = 45)%N.

#[global] Instance safeChar_dec (c : N) : Decision (safeChar c).
Proof. unfold safeChar. apply _. Defined.

Definition underscore : N := 95%N.

(** [.replace(/_{2,}/g, '_')]: every run of underscores becomes one. *)
Fixpoint squeeze (s : jsstring) : jsstring :=
  match s with
  | [] => []
  | c :: rest =>
      if decide (c = underscore) then
        match rest with
        | d :: _ => if decide (d = underscore) then squeeze rest else c :: squeeze rest
        | [] => [c]
        end
      else c :: squeeze rest
  end.

Definition sanitizeFileName (filename : jsstring) : jsstring :=
  substring
    (squeeze ((fun c => if decide (safeChar c) then c else underscore) <$> filename))
    0 255.

End FileUtils.

(** ** Predicates on what the backend receives and answers *)

(** A prompt as the backend forwards it: none of the five special
    characters, at most 5000 code units, not empty and not starting with
    white space. *)
Definition sanitized (s : jsstring) : Prop :=
  Forall (fun c => ~ Functions.htmlSpecial c) s
  /\ (length s <= 5000)%nat
  /\ exists c rest, s = c :: rest /\ ~ Functions.whiteSpace c.

(** The call was refused by the rate limit. *)
Definition resourceExhausted (settled : Settled Functions.HttpsError Functions.Design) : bool :=
  match settled with
  | Rejected e => bool_decide (Functions.errorCode e = lit "resource-exhausted")
  | Resolved _ => false
  end.

(** A deployment whose model answers every request with the same advice,
    after 900 ms. *)
Definition advising : Functions.Deployment :=
  {| Functions.openrouter_apikey := Some (lit "sk-or-backend");
     Functions.upstream := fun _ _ => (Functions.Content (Some (lit "Paint it sage green.")), 900%N) |}.

(** A deployment that differs from [advising] on requests holding one of
    the five special characters only: there the call fails. *)
Definition fragile : Functions.Deployment :=
  {| Functions.openrouter_apikey := Some (lit "sk-or-backend");
     Functions.upstream := fun n u =>
       if decide (Forall (fun c => ~ Functions.htmlSpecial c) (Functions.request u))
       then Functions.upstream advising n u
       else (Functions.Fails, 0%N) |}.

(** The backend at time [t], before any user called it. *)
Definition started (t : Z) : Functions.Server :=
  {| Functions.rateLimits := ∅; Functions.now := t; Functions.fetches := 0 |}.

(** A signed-in user asking for a design of [Mock.photo]. *)
Definition signedIn (uid userPrompt : jsstring) : Functions.Call :=
  {| Functions.auth := Some uid;
     Functions.prompt := Some userPrompt;
     Functions.imageDataUrl := Some (lit "data:image/png;base64," ++ Mock.photo) |}.

(** No underscore is followed by another one. *)
Fixpoint singleUnderscores (s : jsstring) : Prop :=
  match s with
  | c :: rest =>
      match rest with
      | d :: _ => ~ (c = FileUtils.underscore /\ d = FileUtils.underscore)
      | [] => True
      end /\ singleUnderscores rest
  | [] => True
  end.

(** * Properties *)

(** Closes an equation between closed terms by evaluating both sides. *)
Ltac evaluate :=
  lazymatch goal with
  | |- @eq ?A _ ?rhs => vm_cast_no_check (@eq_refl A rhs)
  end.

(** ** Strings *)

Lemma startsWith_spec (s p : jsstring) :
  startsWith s p = true <-> exists r, s = p ++ r.
Proof.
  revert s. induction p as [|a p IH]; intros s; simpl.
  - split; [intros _; now exists s | reflexivity].
  - destruct s as [|b s].
    + split; [discriminate | intros [r Hr]; discriminate].
    + rewrite andb_true_iff, N.eqb_eq, IH. split.
      * intros [-> [r ->]]. now exists r.
      * intros [r Hr]. injection Hr as -> ->. split; [reflexivity | now exists r].
Qed.

Lemma includes_spec (s p : jsstring) :
  includes s p = true <-> exists l r, s = l ++ p ++ r.
Proof.
  induction s as [|b s IH]; simpl.
  - rewrite orb_false_r, startsWith_spec. split.
    + intros [r Hr]. now exists [], r.
    + intros [l [r Hr]]. destruct l; simpl in Hr; [now exists r | discriminate].
  - rewrite orb_true_iff, startsWith_spec, IH. split.
    + intros [[r Hr] | [l [r Hr]]].
      * now exists [], r.
      * exists (b :: l), r. now rewrite Hr.
    + intros [l [r Hr]]. destruct l as [|c l]; simpl in Hr.
      * left. now exists r.
      * right. injection Hr as _ ->. now exists l, r.
Qed.

(** The derived constants begin and end as FIPS 180-4 lists them. *)
Example sha256_constants :
  take 2 Web.K256 = [0x428a2f98; 0x71374491]%N
  /\ last Web.K256 = Some 0xc67178f2%N
  /\ head Web.H256 = Some 0x6a09e667%N
  /\ last Web.H256 = Some 0x5be0cd19%N.
Proof. repeat split; evaluate. Qed.

(** The platform models agree with the published test vectors. *)
Example sha256_abc :
  Web.sha256 (Web.encode (lit "abc")) ≫= Web.hexByte
  = lit "ba7816bf8f01cfea414140de5dae2223b00361a396177a9cb410ff61f20015ad".
Proof. evaluate. Qed.

Example sha256_two_blocks :
  Web.sha256 (Web.encode (lit "abcdbcdecdefdefgefghfghighijhijkijkljklmklmnlmnomnopnopq"))
    ≫= Web.hexByte
  = lit "248d6a61d20638b8e5c026930c3e6039a33ce45964ff2167f6ecedd419db06c1".
Proof. evaluate. Qed.

Example encode_utf8 :
  Web.encode [0xE9; 0x20AC; 0xD83D; 0xDE00]%N
  = [0xC3; 0xA9; 0xE2; 0x82; 0xAC; 0xF0; 0x9F; 0x98; 0x80]%N.
Proof. reflexivity. Qed.

Example isoDate_epoch : Web.isoDate 0 = lit "1970-01-01".
Proof. reflexivity. Qed.

Example isoDate_leap_day : Web.isoDate 1709251199999 = lit "2024-02-29".
Proof. evaluate. Qed.

Example isoDate_before_epoch : Web.isoDate (-1) = lit "1969-12-31".
Proof. evaluate. Qed.

Example btoa_text : btoa (lit "hello world!?") = Some (lit "aGVsbG8gd29ybGQhPw==").
Proof. reflexivity. Qed.

Example btoa_outside_latin1 : btoa (lit "caf" ++ [0x2615%N]) = None.
Proof. reflexivity. Qed.

(** ** The retry loop *)

Section RetryFacts.
Context {St T : Type}.
Variable sleep : Z -> St -> St.
Variable operation : Async St JsError T.
Variable config : RetryOptions.

Lemma spyOn_rejected (p : Spy St) e s' :
  operation (inner p) = (Rejected e, s') ->
  spyOn operation p
  = (Rejected e, {| inner := s'; calls := S (calls p); slept := slept p |}).
Proof. intros H. unfold spyOn. now rewrite H. Qed.

Lemma attempts_none (a : Z) (lastError : JsThrown) (p : Spy St) :
  attempts (spySleep sleep) (spyOn operation) config 0 a lastError p
  = (Rejected lastError, p).
Proof. reflexivity. Qed.

Lemma attempts_exhaust (n : nat) :
  alwaysRetryable operation ->
  forall (a : Z) (lastError : JsThrown) (p : Spy St),
    maxAttempts config = a + Z.of_nat n ->
    exists e last,
      attempts (spySleep sleep) (spyOn operation) config (S n) a lastError p
      = (Rejected (ThrownError e), last)
      /\ calls last = (calls p + S n)%nat
      /\ slept last
         = slept p ++ ((fun k => calculateDelay k config) <$> seqZ a (Z.of_nat n))
      /\ exists before, operation before = (Rejected e, inner last).
Proof.
  intros Hop. induction n as [|n IH]; intros a lastError p Hmax.
  - destruct (Hop (inner p)) as (e & s' & Hcall & Hretry).
    exists e, {| inner := s'; calls := S (calls p); slept := slept p |}.
    cbn [attempts]. rewrite (spyOn_rejected _ _ _ Hcall), Hretry.
    replace (a =? maxAttempts config) with true by (symmetry; apply Z.eqb_eq; lia).
    cbn. repeat split.
    + lia.
    + now rewrite app_nil_r.
    + now exists (inner p).
  - destruct (Hop (inner p)) as (e & s' & Hcall & Hretry).
    set (p1 := {| inner := s'; calls := S (calls p); slept := slept p |}).
    destruct (IH (a + 1) (ThrownError e) (spySleep sleep (calculateDelay a config) p1))
      as (e' & last & Hrun & Hcalls & Hslept & Hlast); [lia|].
    exists e', last.
    change (attempts (spySleep sleep) (spyOn operation) config (S (S n)) a lastError p)
      with (match spyOn operation p with
            | (Resolved v, s1) => (Resolved v, s1)
            | (Rejected e0, s1) =>
                if negb (isRetryableError e0) || (a =? maxAttempts config)
                then (Rejected (ThrownError e0), s1)
                else attempts (spySleep sleep) (spyOn operation) config (S n) (a + 1)
                       (ThrownError e0) (spySleep sleep (calculateDelay a config) s1)
            end).
    rewrite (spyOn_rejected _ _ _ Hcall), Hretry.
    replace (a =? maxAttempts config) with false by (symmetry; apply Z.eqb_neq; lia).
    cbn [negb orb]. fold p1. rewrite Hrun. repeat split.
    + rewrite Hcalls. cbn. lia.
    + rewrite Hslept. cbn [spySleep slept p1].
      rewrite (seqZ_cons a (Z.of_nat (S n))) by lia.
      replace (Z.pred (Z.of_nat (S n))) with (Z.of_nat n) by lia.
      replace (Z.succ a) with (a + 1) by lia.
      rewrite fmap_cons, <- app_assoc. reflexivity.
    + exact Hlast.
Qed.

Lemma attempts_not_retryable (n : nat) (a : Z) (lastError : JsThrown)
    (p : Spy St) e s' :
  operation (inner p) = (Rejected e, s') ->
  isRetryableError e = false ->
  attempts (spySleep sleep) (spyOn operation) config (S n) a lastError p
  = (Rejected (ThrownError e),
     {| inner := s'; calls := S (calls p); slept := slept p |}).
Proof.
  intros Hcall Hretry. cbn [attempts].
  now rewrite (spyOn_rejected _ _ _ Hcall), Hretry.
Qed.
End RetryFacts.

(** The loop on the count of remaining attempts is the loop of the source:
    from [attempt], with the remaining count that of the integers in
    [attempt, maxAttempts], any larger fuel gives the same settlement. *)
Lemma attempts_is_the_loop {St T : Type} (timer : Z -> St -> St)
    (operation : Async St JsError T) (config : RetryOptions) (n : nat) :
  forall (fuel : nat) (a : Z) (lastError : JsThrown) (s : St),
    Z.of_nat n = Z.max 0 (maxAttempts config + 1 - a) ->
    (n < fuel)%nat ->
    attemptsFrom timer operation config fuel a lastError s
    = Some (attempts timer operation config n a lastError s).
Proof.
  induction n as [|n IH]; intros fuel a lastError s Hn Hfuel;
    (destruct fuel as [|fuel]; [lia|]); cbn [attemptsFrom attempts].
  - destruct (a <=? maxAttempts config) eqn:Hle; [lia | reflexivity].
  - destruct (a <=? maxAttempts config) eqn:Hle; [|lia].
    destruct (operation s) as [[v|e] s1]; [reflexivity|].
    destruct (negb (isRetryableError e) || (a =? maxAttempts config)); [reflexivity|].
    apply IH; lia.
Qed.

Lemma withRetry_is_the_loop {St T : Type} (timer : Z -> St -> St)
    (operation : Async St JsError T) (options : PartialRetryOptions) (s : St) :
  attemptsFrom timer operation (mergeRetryOptions options)
    (S (Z.to_nat (maxAttempts (mergeRetryOptions options)))) 1 ThrownUndefined s
  = Some (withRetry timer operation options s).
Proof. unfold withRetry. apply attempts_is_the_loop; lia. Qed.

Lemma mergeRetryOptions_maxAttempts (options : PartialRetryOptions) (M : Z) :
  maxAttempts_given options = Some M ->
  maxAttempts (mergeRetryOptions options) = M.
Proof. intros H. unfold mergeRetryOptions. cbn. now rewrite H. Qed.

(** C3. With [maxAttempts = M >= 1] and an operation that fails retryably on
    every invocation, [withRetry] invokes the operation exactly [M] times and
    then rejects with the error of the last invocation; between the attempts
    it sleeps the delays of attempts 1 to M-1. *)
Theorem withRetry_exhausts_attempts {St T : Type} (sleep : Z -> St -> St)
    (operation : Async St JsError T) (options : PartialRetryOptions) (M : Z) (s : St) :
  1 <= M ->
  maxAttempts_given options = Some M ->
  alwaysRetryable operation ->
  exists e last,
    withRetry (spySleep sleep) (spyOn operation) options (fresh s)
    = (Rejected (ThrownError e), last)
    /\ calls last = Z.to_nat M
    /\ (exists before, operation before = (Rejected e, inner last))
    /\ slept last
       = (fun k => calculateDelay k (mergeRetryOptions options)) <$> seqZ 1 (M - 1).
Proof.
  intros HM Hgiven Hop. unfold withRetry.
  rewrite (mergeRetryOptions_maxAttempts _ _ Hgiven).
  destruct (Z.to_nat M) as [|n] eqn:Hn; [lia|].
  destruct (attempts_exhaust sleep operation (mergeRetryOptions options)
              n Hop 1 ThrownUndefined (fresh s))
    as (e & last & Hrun & Hcalls & Hslept & Hlast).
  - rewrite (mergeRetryOptions_maxAttempts _ _ Hgiven). lia.
  - exists e, last. rewrite Hrun. repeat split.
    + rewrite Hcalls. reflexivity.
    + exact Hlast.
    + rewrite Hslept. cbn. f_equal. f_equal. lia.
Qed.

Lemma withRetry_exhausts_attempts_witness :
  exists e last,
    withRetry (spySleep Mock.fakeTimer)
      (spyOn (Mock.mockRejectedValue (APIErr Mock.serverError)))
      (onlyMaxAttempts 3) (fresh 0%nat)
    = (Rejected (ThrownError e), last)
    /\ calls last = Z.to_nat 3
    /\ (exists before,
          Mock.mockRejectedValue (APIErr Mock.serverError) before
          = (Rejected e, inner last))
    /\ slept last
       = (fun k => calculateDelay k (mergeRetryOptions (onlyMaxAttempts 3))) <$> seqZ 1 (3 - 1).
Proof.
  apply (withRetry_exhausts_attempts Mock.fakeTimer
           (Mock.mockRejectedValue (APIErr Mock.serverError)) (onlyMaxAttempts 3) 3 0%nat).
  - lia.
  - reflexivity.
  - intros n. exists (APIErr Mock.serverError), (S n). split; reflexivity.
Defined.

(** The same run, computed: three invocations, delays of 1000 and 2000 ms. *)
Example withRetry_three_attempts :
  withRetry (spySleep Mock.fakeTimer)
    (spyOn (Mock.mockRejectedValue (APIErr Mock.serverError)))
    (onlyMaxAttempts 3) (fresh 0%nat)
  = (Rejected (ThrownError (APIErr Mock.serverError)),
     {| inner := 3%nat; calls := 3; slept := [1000; 2000] |}).
Proof. reflexivity. Qed.

(** The success path of the test suite: one retryable failure, then a value;
    the operation is invoked twice and not a third time. *)
Example withRetry_succeeds_on_second_attempt :
  withRetry (spySleep Mock.fakeTimer)
    (spyOn (Mock.mockRejectedOnce (APIErr Mock.serverError) (lit "success")))
    (onlyMaxAttempts 3) (fresh 0%nat)
  = (Resolved (lit "success"), {| inner := 2%nat; calls := 2; slept := [1000] |}).
Proof. reflexivity. Qed.

(** C4. With [maxAttempts = M >= 1], an operation whose first invocation
    fails with a non-retryable error is invoked exactly once and [withRetry]
    rejects with that error without sleeping, whatever [M] is. An [APIError]
    is retryable exactly when its [retryable] flag is set; any other error is
    retryable exactly when its message contains "network" or "fetch". *)
Theorem withRetry_stops_on_non_retryable {St T : Type} (sleep : Z -> St -> St)
    (operation : Async St JsError T) (options : PartialRetryOptions) (M : Z)
    (s s' : St) (e : JsError) :
  1 <= M ->
  maxAttempts_given options = Some M ->
  operation s = (Rejected e, s') ->
  isRetryableError e = false ->
  withRetry (spySleep sleep) (spyOn operation) options (fresh s)
  = (Rejected (ThrownError e), {| inner := s'; calls := 1; slept := [] |})
  /\ (forall a : APIError, isRetryableError (APIErr a) = retryable a)
  /\ (forall msg : jsstring,
        isRetryableError (OtherError msg) = true
        <-> (exists l r, msg = l ++ lit "network" ++ r)
            \/ (exists l r, msg = l ++ lit "fetch" ++ r)).
Proof.
  intros HM Hgiven Hcall Hretry. split; [|split].
  - unfold withRetry. rewrite (mergeRetryOptions_maxAttempts _ _ Hgiven).
    destruct (Z.to_nat M) as [|n] eqn:Hn; [lia|].
    now rewrite (attempts_not_retryable sleep operation _ n 1 ThrownUndefined
                   (fresh s) e s' Hcall Hretry).
  - reflexivity.
  - intros msg. cbn [isRetryableError].
    rewrite <- !includes_spec, <- orb_true_iff.
    destruct (includes msg (lit "network") || includes msg (lit "fetch")); tauto.
Qed.

Lemma withRetry_stops_on_non_retryable_witness :
  withRetry (spySleep Mock.fakeTimer)
    (spyOn (Mock.mockRejectedValue (APIErr Mock.badRequest)))
    (onlyMaxAttempts 3) (fresh 0%nat)
  = (Rejected (ThrownError (APIErr Mock.badRequest)),
     {| inner := 1%nat; calls := 1; slept := [] |}).
Proof.
  apply (withRetry_stops_on_non_retryable Mock.fakeTimer
           (Mock.mockRejectedValue (APIErr Mock.badRequest)) (onlyMaxAttempts 3) 3
           0%nat 1%nat (APIErr Mock.badRequest)).
  - lia.
  - reflexivity.
  - reflexivity.
  - reflexivity.
Defined.

(** With no options given the defaults apply: three attempts at most, and a
    non-retryable error still ends the call after one invocation. *)
Example withRetry_defaults :
  withRetry (spySleep Mock.fakeTimer)
    (spyOn (Mock.mockRejectedValue (APIErr Mock.badRequest)))
    noRetryOptions (fresh 0%nat)
  = (Rejected (ThrownError (APIErr Mock.badRequest)),
     {| inner := 1%nat; calls := 1; slept := [] |})
  /\ calls (snd (withRetry (spySleep Mock.fakeTimer)
                   (spyOn (Mock.mockRejectedValue (APIErr Mock.serverError)))
                   noRetryOptions (fresh 0%nat))) = 3%nat.
Proof. split; reflexivity. Qed.

(** A plain error is classified by its message alone. *)
Example isRetryableError_by_message :
  isRetryableError (OtherError (lit "Failed to fetch")) = true
  /\ isRetryableError (OtherError (lit "a network error occurred")) = true
  /\ isRetryableError (OtherError (lit "Network down")) = false
  /\ isRetryableError (OtherError (lit "timeout")) = false.
Proof. repeat split. Qed.

(** C10. When the merged [maxAttempts] is below 1 the loop body never runs:
    the operation is not invoked, nothing is slept, and [withRetry] rejects
    with the unassigned [lastError], that is [undefined], which is not an
    [APIError]. *)
Theorem withRetry_without_attempts {St T : Type} (sleep : Z -> St -> St)
    (operation : Async St JsError T) (options : PartialRetryOptions) (s : St) :
  maxAttempts (mergeRetryOptions options) < 1 ->
  withRetry (spySleep sleep) (spyOn operation) options (fresh s)
  = (Rejected ThrownUndefined, fresh s)
  /\ calls (snd (withRetry (spySleep sleep) (spyOn operation) options (fresh s))) = 0%nat
  /\ forall e : APIError, ThrownUndefined <> ThrownError (APIErr e).
Proof.
  intros Hmax.
  assert (Hrun : withRetry (spySleep sleep) (spyOn operation) options (fresh s)
                 = (Rejected ThrownUndefined, fresh s)).
  { unfold withRetry. replace (Z.to_nat (maxAttempts (mergeRetryOptions options))) with 0%nat by lia.
    reflexivity. }
  rewrite Hrun. repeat split. discriminate.
Qed.

Lemma withRetry_without_attempts_witness :
  withRetry (spySleep Mock.fakeTimer)
    (spyOn (Mock.mockRejectedValue (APIErr Mock.serverError)))
    (onlyMaxAttempts 0) (fresh 0%nat)
  = (Rejected ThrownUndefined, fresh 0%nat).
Proof.
  apply (withRetry_without_attempts Mock.fakeTimer
           (Mock.mockRejectedValue (APIErr Mock.serverError)) (onlyMaxAttempts 0) 0%nat).
  cbn. lia.
Defined.

(** ** The backoff delay *)

Lemma pow2_from_16 (a : Z) : 5 <= a -> 16 <= 2 ^ (a - 1).
Proof.
  intros Ha. change 16 with (2 ^ 4). apply Z.pow_le_mono_r; lia.
Qed.

(** C5. The delay computed after attempt [a >= 1] fails, waited before
    attempt [a + 1], is [min (baseDelay * backoffFactor^(a-1)) maxDelay]. With
    a base of 1000 ms, a factor of 2 and a cap of 10000 ms the delays waited
    before attempts 2, 3, 4 and 5 are 1000, 2000, 4000 and 8000, and the
    delay before attempt 6 and before every later attempt is 10000. *)
Theorem calculateDelay_backoff (a : Z) (options : RetryOptions) :
  1 <= a ->
  calculateDelay a options
  = Z.min (baseDelay options * backoffFactor options ^ (a - 1)) (maxDelay options)
  /\ (baseDelay options = 1000 -> backoffFactor options = 2 ->
      maxDelay options = 10000 ->
      calculateDelay 1 options = 1000
      /\ calculateDelay 2 options = 2000
      /\ calculateDelay 3 options = 4000
      /\ calculateDelay 4 options = 8000
      /\ (5 <= a -> calculateDelay a options = 10000)).
Proof.
  intros Ha. split; [reflexivity|].
  intros Hbase Hfactor Hmax. unfold calculateDelay.
  rewrite Hbase, Hfactor, Hmax. repeat split.
  intros Ha5. pose proof (pow2_from_16 a Ha5). lia.
Qed.

Lemma calculateDelay_backoff_witness :
  calculateDelay 7 defaultRetryOptions
  = Z.min (baseDelay defaultRetryOptions * backoffFactor defaultRetryOptions ^ (7 - 1))
      (maxDelay defaultRetryOptions)
  /\ calculateDelay 1 defaultRetryOptions = 1000
  /\ calculateDelay 2 defaultRetryOptions = 2000
  /\ calculateDelay 3 defaultRetryOptions = 4000
  /\ calculateDelay 4 defaultRetryOptions = 8000
  /\ calculateDelay 7 defaultRetryOptions = 10000.
Proof.
  assert (Hattempt : 1 <= 7) by lia.
  destruct (calculateDelay_backoff 7 defaultRetryOptions Hattempt) as [Hformula Hscenario].
  destruct (Hscenario eq_refl eq_refl eq_refl) as (H1 & H2 & H3 & H4 & H5).
  exact (conj Hformula (conj H1 (conj H2 (conj H3 (conj H4 (H5 ltac:(lia))))))).
Defined.

(** The delays a run of eight failing attempts sleeps, with the default
    base, factor and cap. *)
Example withRetry_backoff_growth :
  slept (snd (withRetry (spySleep Mock.fakeTimer)
                (spyOn (Mock.mockRejectedValue (APIErr Mock.serverError)))
                (onlyMaxAttempts 8) (fresh 0%nat)))
  = [1000; 2000; 4000; 8000; 10000; 10000; 10000].
Proof. reflexivity. Qed.

(** ** The cache *)

Lemma Cache_get_fresh {T : Type} (now : Z) (key : jsstring) (entry : CacheEntry T)
    (c : gmap jsstring (CacheEntry T)) :
  c !! key = Some entry ->
  now - timestamp entry <= ttl entry ->
  Cache.get now key c = (Some (data entry), c).
Proof.
  intros Hkey Hfresh. unfold Cache.get. rewrite Hkey.
  destruct (now - timestamp entry >? ttl entry) eqn:Hgt; [lia | reflexivity].
Qed.

Lemma Cache_get_expired {T : Type} (now : Z) (key : jsstring) (entry : CacheEntry T)
    (c : gmap jsstring (CacheEntry T)) :
  c !! key = Some entry ->
  now - timestamp entry > ttl entry ->
  Cache.get now key c = (None, base.delete key c).
Proof.
  intros Hkey Hold. unfold Cache.get. rewrite Hkey.
  destruct (now - timestamp entry >? ttl entry) eqn:Hgt; [reflexivity | lia].
Qed.

Lemma Cache_get_absent {T : Type} (now : Z) (key : jsstring)
    (c : gmap jsstring (CacheEntry T)) :
  c !! key = None -> Cache.get now key c = (None, c).
Proof. intros Hkey. unfold Cache.get. now rewrite Hkey. Qed.

(** A read never adds an entry, and never changes one it keeps. *)
Lemma Cache_get_subset {T : Type} (now : Z) (key : jsstring)
    (c : gmap jsstring (CacheEntry T)) :
  snd (Cache.get now key c) ⊆ c.
Proof.
  unfold Cache.get. destruct (c !! key) as [entry|]; [|done].
  destruct (now - timestamp entry >? ttl entry); [apply delete_subseteq | done].
Qed.

(** C6. For [ttl > 0], [set(k, v, ttl)] followed by [get(k)] at the same time
    returns [v] and leaves the cache as it is; once [now - storedAt > ttl],
    [get(k)] returns [null] and the entry is gone from the cache, the other
    entries being kept; [get] returns on every cache, key and time. *)
Theorem cache_set_get_ttl {T : Type} (k : jsstring) (v : T) (ttl_ms now : Z)
    (c : gmap jsstring (CacheEntry T)) :
  0 < ttl_ms ->
  Cache.get now k (Cache.set now k v ttl_ms c) = (Some v, Cache.set now k v ttl_ms c)
  /\ (forall later : Z,
        later - now > ttl_ms ->
        Cache.get later k (Cache.set now k v ttl_ms c)
        = (None, base.delete k (Cache.set now k v ttl_ms c))
        /\ snd (Cache.get later k (Cache.set now k v ttl_ms c)) !! k = None
        /\ forall k', k' <> k ->
             snd (Cache.get later k (Cache.set now k v ttl_ms c)) !! k' = c !! k')
  /\ (forall (t : Z) (k' : jsstring) (c' : gmap jsstring (CacheEntry T)),
        exists r c'', Cache.get t k' c' = (r, c'')).
Proof.
  intros Httl.
  assert (Hstored : Cache.set now k v ttl_ms c !! k
                    = Some {| data := v; timestamp := now; ttl := ttl_ms |}).
  { unfold Cache.set. apply lookup_insert_eq. }
  split; [|split].
  - rewrite (Cache_get_fresh now k _ _ Hstored); [reflexivity | cbn; lia].
  - intros later Hlater.
    rewrite (Cache_get_expired later k _ _ Hstored) by (cbn; lia).
    cbn [snd]. split; [reflexivity|]. split.
    + apply lookup_delete_eq.
    + intros k' Hk'. unfold Cache.set.
      rewrite lookup_delete_ne by congruence. now rewrite lookup_insert_ne by congruence.
  - intros t k' c'. destruct (Cache.get t k' c') as [r c'']. now exists r, c''.
Qed.

Lemma cache_set_get_ttl_witness :
  Cache.get 5000 (lit "key1") (Cache.set 5000 (lit "key1") (lit "value1") 1000 ∅)
  = (Some (lit "value1"), Cache.set 5000 (lit "key1") (lit "value1") 1000 ∅)
  /\ fst (Cache.get 6001 (lit "key1") (Cache.set 5000 (lit "key1") (lit "value1") 1000 ∅))
     = None.
Proof.
  assert (Httl : 0 < 1000) by lia.
  destruct (cache_set_get_ttl (lit "key1") (lit "value1") 1000 5000 ∅ Httl)
    as (Hget & Hexpire & _).
  destruct (Hexpire 6001 ltac:(lia)) as (Hlater & _).
  split; [exact Hget | now rewrite Hlater].
Defined.

(** The cases of the test suite: the default time to live of five minutes,
    a key that was never set, and [clear]. *)
Example cache_default_ttl :
  fst (Cache.get 300000 (lit "key1") (Cache.set_default 0 (lit "key1") (lit "value1") ∅))
  = Some (lit "value1")
  /\ fst (Cache.get 300001 (lit "key1") (Cache.set_default 0 (lit "key1") (lit "value1") ∅))
     = None
  /\ fst (Cache.get 0 (lit "nonexistent") (∅ : gmap jsstring (CacheEntry jsstring))) = None
  /\ fst (Cache.get 0 (lit "key1")
            (Cache.clear (Cache.set_default 0 (lit "key1") (lit "value1") ∅)))
     = None.
Proof. split; [evaluate | split; [evaluate | split; evaluate]]. Qed.

(** At exactly [ttl] milliseconds the entry is still served. *)
Example cache_boundary :
  fst (Cache.get 6000 (lit "key1") (Cache.set 5000 (lit "key1") (lit "value1") 1000 ∅))
  = Some (lit "value1").
Proof. evaluate. Qed.

(** ** The rate limiter *)


Lemma filter_keeps_all (P : Z -> Prop) `{!forall t, Decision (P t)} (l : list Z) :
  Forall P l -> filter P l = l.
Proof.
  induction 1 as [|t l Ht _ IH]; [reflexivity|].
  rewrite filter_cons_True by exact Ht. now rewrite IH.
Qed.








(** One millisecond before the first request leaves the window the limiter
    still refuses. *)
Example rateLimiter_boundary :
  fst (canMakeRequest 60999
         {| requests := [1000; 2000; 3000]; maxRequests := 3; windowMs := 60000 |}) = false
  /\ canMakeRequest 61000
       {| requests := [1000; 2000; 3000]; maxRequests := 3; windowMs := 60000 |}
     = (true, {| requests := [2000; 3000]; maxRequests := 3; windowMs := 60000 |}).
Proof. split; reflexivity. Qed.

(** ** The cache key *)

Lemma btoa_Some (s e : jsstring) : btoa s = Some e -> e = base64 s.
Proof.
  unfold btoa. destruct (forallb _ s); [|discriminate]. now intros [= <-].
Qed.

(** The first twenty base64 characters encode the first fifteen code units. *)
Lemma base64_first_fifteen (s1 s2 rest : jsstring) :
  length s1 = 15%nat ->
  take 20 (base64 (s1 ++ rest)) = take 20 (base64 (s1 ++ s2)).
Proof.
  intros Hlen.
  do 15 (destruct s1 as [|? s1]; [discriminate Hlen|]).
  destruct s1; [reflexivity | discriminate Hlen].
Qed.

Lemma optimizedPrompt_fingerprint (userPrompt e : jsstring) :
  btoa (OpenRouter.createOptimizedPrompt userPrompt) = Some e ->
  substring e 0 20 = lit "VHJhbnNmb3JtIHRoaXMg".
Proof.
  intros He. rewrite (btoa_Some _ _ He).
  change (substring (base64 (OpenRouter.createOptimizedPrompt userPrompt)) 0 20)
    with (take 20 (base64 (lit "Transform this "
            ++ (lit "room with: " ++ substring userPrompt 0 100
                ++ lit ". Keep layout, change style only.")))).
  rewrite (base64_first_fifteen (lit "Transform this ") [] _ eq_refl).
  reflexivity.
Qed.

(** C2. The cache key of the OpenRouter client does not depend on the prompt:
    whenever it is defined it is the image hash followed by the constant
    fingerprint of "Transform this ", so two different prompts for the same
    image always collide; in the Firebase client two prompts that agree on
    their first fifteen characters collide. *)
Theorem cacheKey_prompt_collisions :
  (forall image userPrompt : jsstring,
      OpenRouter.cacheKey image userPrompt = None
      \/ OpenRouter.cacheKey image userPrompt
         = Some (createCacheKey (lit "room-redesign")
                   [OpenRouter.generateImageHash image; lit "VHJhbnNmb3JtIHRoaXMg"]))
  /\ (forall image : jsstring,
        OpenRouter.cacheKey image (lit "modern minimalist")
        = OpenRouter.cacheKey image (lit "rustic farmhouse")
        /\ OpenRouter.cacheKey image (lit "modern minimalist") <> None)
  /\ (forall image : jsstring,
        Firebase.cacheKey image (lit "Make this room modern")
        = Firebase.cacheKey image (lit "Make this room rustic")
        /\ Firebase.cacheKey image (lit "Make this room modern") <> None).
Proof.
  split; [|split].
  - intros image userPrompt. unfold OpenRouter.cacheKey.
    destruct (btoa (OpenRouter.createOptimizedPrompt userPrompt)) as [e|] eqn:He;
      [right | now left].
    cbn [mbind option_bind]. now rewrite (optimizedPrompt_fingerprint _ _ He).
  - intros image. split; [reflexivity | discriminate].
  - intros image. split; [reflexivity | discriminate].
Qed.

(** In the Firebase client the key is decided by the image and the first
    fifteen code units of the prompt. *)
Lemma Firebase_cacheKey_first_fifteen (image p1 p2 k1 k2 : jsstring) :
  (15 <= length p1)%nat ->
  take 15 p1 = take 15 p2 ->
  Firebase.cacheKey image p1 = Some k1 ->
  Firebase.cacheKey image p2 = Some k2 ->
  k1 = k2.
Proof.
  intros Hlen Hprefix H1 H2. unfold Firebase.cacheKey in *.
  destruct (btoa p1) as [e1|] eqn:He1; [|discriminate].
  destruct (btoa p2) as [e2|] eqn:He2; [|discriminate].
  cbn [mbind option_bind] in *. injection H1 as <-. injection H2 as <-.
  rewrite (btoa_Some _ _ He1), (btoa_Some _ _ He2).
  do 3 f_equal.
  change (take 20 (base64 p1) = take 20 (base64 p2)).
  rewrite <- (take_drop 15 p1), <- (take_drop 15 p2), <- Hprefix.
  apply base64_first_fifteen. rewrite length_take. lia.
Qed.

(** The keys of the two clients on a sample photo. *)
Example cacheKey_samples :
  OpenRouter.cacheKey Mock.photo (lit "cozy reading nook")
  = Some (lit "room-redesign:f9fea128f351000d:VHJhbnNmb3JtIHRoaXMg")
  /\ Firebase.cacheKey Mock.photo (lit "cozy reading nook")
     = Some (lit "room-redesign:iVBORw0KGgoAAAANSUhEUgAAAAEAAAABCAYAAAAfFcSJAAAADUlEQVR42mNk:Y296eSByZWFkaW5nIG5v").
Proof. split; evaluate. Qed.

(** A prompt with a character outside Latin-1 has no key: [btoa] throws. *)
Example cacheKey_undefined :
  OpenRouter.cacheKey Mock.photo (lit "caf" ++ [0x2615%N]) = None
  /\ Firebase.cacheKey Mock.photo (lit "caf" ++ [0x2615%N]) = None.
Proof. split; reflexivity. Qed.

(** ** The daily quota *)

Lemma withCache_same (st : Runtime) : withCache (cache st) st = st.
Proof. now destruct st. Qed.

Lemma getDailyUsage_frame (st : Runtime) :
  clock (snd (OpenRouter.getDailyUsage st)) = clock st
  /\ cache (snd (OpenRouter.getDailyUsage st)) = cache st
  /\ rateLimiter (snd (OpenRouter.getDailyUsage st)) = rateLimiter st
  /\ netCalls (snd (OpenRouter.getDailyUsage st)) = netCalls st.
Proof.
  unfold OpenRouter.getDailyUsage.
  destruct (storedUsage st) as [usage|]; [|now cbn].
  destruct (decide (date usage = Web.isoDate (clock st))); now cbn.
Qed.

(** After the read, the stored item is the usage the read returned. *)
Lemma getDailyUsage_stored (st : Runtime) :
  storedUsage (snd (OpenRouter.getDailyUsage st)) = Some (fst (OpenRouter.getDailyUsage st)).
Proof.
  unfold OpenRouter.getDailyUsage.
  destruct (storedUsage st) as [usage|] eqn:Hst; [|now cbn].
  destruct (decide (date usage = Web.isoDate (clock st))); now cbn.
Qed.

Lemma getDailyUsage_today (st : Runtime) :
  date (fst (OpenRouter.getDailyUsage st)) = Web.isoDate (clock st).
Proof.
  unfold OpenRouter.getDailyUsage.
  destruct (storedUsage st) as [usage|]; [|now cbn].
  destruct (decide (date usage = Web.isoDate (clock st))); now cbn.
Qed.

Lemma getDailyUsage_same_day (st : Runtime) (usage : DailyUsage) :
  storedUsage st = Some usage ->
  date usage = Web.isoDate (clock st) ->
  OpenRouter.getDailyUsage st = (usage, st).
Proof.
  intros Hst Hday. unfold OpenRouter.getDailyUsage. rewrite Hst.
  now destruct (decide (date usage = Web.isoDate (clock st))).
Qed.

Lemma getDailyUsage_count (st : Runtime) :
  (forall u, storedUsage st = Some u -> 0 <= count u) ->
  0 <= count (fst (OpenRouter.getDailyUsage st)).
Proof.
  intros Hst. unfold OpenRouter.getDailyUsage.
  destruct (storedUsage st) as [usage|]; [|now cbn].
  destruct (decide (date usage = Web.isoDate (clock st))); cbn; [now apply Hst | lia].
Qed.

Lemma checkDailyQuota_ok (env : OpenRouter.Environment) (st : Runtime) :
  count (fst (OpenRouter.getDailyUsage st)) < OpenRouter.DAILY_REQUEST_LIMIT env ->
  OpenRouter.checkDailyQuota env st = (Resolved tt, snd (OpenRouter.getDailyUsage st)).
Proof.
  intros Hlt. unfold OpenRouter.checkDailyQuota.
  destruct (OpenRouter.getDailyUsage st) as [usage st1]. cbn [fst snd] in *.
  destruct (count usage >=? OpenRouter.DAILY_REQUEST_LIMIT env) eqn:Hge; [lia | reflexivity].
Qed.

Lemma checkDailyQuota_exceeded (env : OpenRouter.Environment) (st : Runtime) :
  OpenRouter.DAILY_REQUEST_LIMIT env <= count (fst (OpenRouter.getDailyUsage st)) ->
  OpenRouter.checkDailyQuota env st
  = (Rejected (ThrownError (APIErr
       (OpenRouter.dailyQuotaExceeded (OpenRouter.DAILY_REQUEST_LIMIT env)))),
     snd (OpenRouter.getDailyUsage st)).
Proof.
  intros Hge. unfold OpenRouter.checkDailyQuota.
  destruct (OpenRouter.getDailyUsage st) as [usage st1]. cbn [fst snd] in *.
  destruct (count usage >=? OpenRouter.DAILY_REQUEST_LIMIT env) eqn:Hlt; [reflexivity | lia].
Qed.

(** The quota check either passes or rejects; in both cases it leaves the
    state its read of the usage produced. *)
Lemma checkDailyQuota_cases (env : OpenRouter.Environment) (st : Runtime) :
  (count (fst (OpenRouter.getDailyUsage st)) < OpenRouter.DAILY_REQUEST_LIMIT env
   /\ OpenRouter.checkDailyQuota env st = (Resolved tt, snd (OpenRouter.getDailyUsage st)))
  \/ (OpenRouter.DAILY_REQUEST_LIMIT env <= count (fst (OpenRouter.getDailyUsage st))
      /\ OpenRouter.checkDailyQuota env st
         = (Rejected (ThrownError (APIErr
              (OpenRouter.dailyQuotaExceeded (OpenRouter.DAILY_REQUEST_LIMIT env)))),
            snd (OpenRouter.getDailyUsage st))).
Proof.
  destruct (Z_lt_le_dec (count (fst (OpenRouter.getDailyUsage st)))
              (OpenRouter.DAILY_REQUEST_LIMIT env)) as [Hlt|Hge].
  - left. split; [exact Hlt | now apply checkDailyQuota_ok].
  - right. split; [exact Hge | now apply checkDailyQuota_exceeded].
Qed.

(** ** A cache hit *)

Lemma cachedResult_hit (key : jsstring) (entry : CacheEntry jsstring) (st : Runtime) :
  cache st !! key = Some entry ->
  clock st - timestamp entry <= ttl entry ->
  truthy (data entry) = true ->
  cachedResult key st = (Resolved (Some (data entry)), st).
Proof.
  intros Hkey Hfresh Htruthy. unfold cachedResult.
  rewrite (Cache_get_fresh _ _ _ _ Hkey Hfresh), Htruthy. now rewrite withCache_same.
Qed.

(** C1, as the code has it. With caching enabled, a fresh and non-empty
    artifact cached under the derived key, and the day's quota not yet
    reached, [redesignRoom] of the OpenRouter client resolves with exactly the
    cached artifact; no network call is made, the limiter, the cache and the
    clock are as before, and the only write is the day rollover of the usage
    item that the quota check performs. *)
Theorem redesignRoom_cache_hit (env : OpenRouter.Environment)
    (base64ImageData mimeType prompt : jsstring) (options : RedesignOptions)
    (st : Runtime) (key : jsstring) (entry : CacheEntry jsstring) :
  config_useCache (spread OpenRouter.DEFAULT_REDESIGN_OPTIONS options) = true ->
  OpenRouter.cacheKey base64ImageData prompt = Some key ->
  cache st !! key = Some entry ->
  clock st - timestamp entry <= ttl entry ->
  truthy (data entry) = true ->
  count (fst (OpenRouter.getDailyUsage st)) < OpenRouter.DAILY_REQUEST_LIMIT env ->
  exists st',
    OpenRouter.redesignRoom env base64ImageData mimeType prompt options st
    = (Resolved (data entry), st')
    /\ st' = snd (OpenRouter.getDailyUsage st)
    /\ netCalls st' = netCalls st
    /\ rateLimiter st' = rateLimiter st
    /\ cache st' = cache st
    /\ clock st' = clock st.
Proof.
  intros Huse Hkey Hentry Hfresh Htruthy Hquota.
  destruct (getDailyUsage_frame st) as (Hclock & Hcache & Hlimiter & Hnet).
  exists (snd (OpenRouter.getDailyUsage st)). split; [|now repeat split].
  unfold OpenRouter.redesignRoom, bind.
  rewrite (checkDailyQuota_ok env st Hquota), Hkey, Huse.
  rewrite (cachedResult_hit key entry); [reflexivity | | |].
  - now rewrite Hcache.
  - now rewrite Hclock.
  - exact Htruthy.
Qed.

Lemma redesignRoom_cache_hit_witness :
  exists st',
    OpenRouter.redesignRoom (Mock.openRouterUp 5 (lit "iVBORw0KGgo")) Mock.photo
      (lit "image/png") (lit "cozy reading nook") noOptions
      (Mock.dayWithCached 2 Mock.photoKey)
    = (Resolved Mock.artifactA, st')
    /\ netCalls st' = 0%nat
    /\ rateLimiter st' = rateLimiter0.
Proof.
  destruct (redesignRoom_cache_hit (Mock.openRouterUp 5 (lit "iVBORw0KGgo")) Mock.photo
              (lit "image/png") (lit "cozy reading nook") noOptions
              (Mock.dayWithCached 2 Mock.photoKey) Mock.photoKey
              {| data := Mock.artifactA; timestamp := Mock.morning - 3600000;
                 ttl := 86400000 |})
    as (st' & Hrun & _ & Hnet & Hlimiter & _).
  - reflexivity.
  - evaluate.
  - evaluate.
  - vm_compute. discriminate.
  - reflexivity.
  - vm_compute. reflexivity.
  - exists st'. exact (conj Hrun (conj Hnet Hlimiter)).
Defined.

(** The claim as the specification states it fails once the day's quota is
    spent: the artifact is cached and fresh under the derived key, and the
    call still rejects with [DAILY_QUOTA_EXCEEDED], because the quota check
    runs before the cache lookup. *)
Lemma redesignRoom_cache_hit_counterexample :
  config_useCache (spread OpenRouter.DEFAULT_REDESIGN_OPTIONS noOptions) = true
  /\ OpenRouter.cacheKey Mock.photo (lit "cozy reading nook") = Some Mock.photoKey
  /\ Cache.get (clock (Mock.dayWithCached 5 Mock.photoKey)) Mock.photoKey
       (cache (Mock.dayWithCached 5 Mock.photoKey))
     = (Some Mock.artifactA, cache (Mock.dayWithCached 5 Mock.photoKey))
  /\ OpenRouter.redesignRoom (Mock.openRouterUp 5 (lit "iVBORw0KGgo")) Mock.photo
       (lit "image/png") (lit "cozy reading nook") noOptions
       (Mock.dayWithCached 5 Mock.photoKey)
     = (Rejected (ThrownError (APIErr (OpenRouter.dailyQuotaExceeded 5))),
        Mock.dayWithCached 5 Mock.photoKey)
  /\ fst (OpenRouter.redesignRoom (Mock.openRouterUp 5 (lit "iVBORw0KGgo")) Mock.photo
            (lit "image/png") (lit "cozy reading nook") noOptions
            (Mock.dayWithCached 5 Mock.photoKey))
     <> Resolved Mock.artifactA.
Proof.
  assert (Hrun :
    OpenRouter.redesignRoom (Mock.openRouterUp 5 (lit "iVBORw0KGgo")) Mock.photo
      (lit "image/png") (lit "cozy reading nook") noOptions
      (Mock.dayWithCached 5 Mock.photoKey)
    = (Rejected (ThrownError (APIErr (OpenRouter.dailyQuotaExceeded 5))),
       Mock.dayWithCached 5 Mock.photoKey)) by evaluate.
  split; [reflexivity|]. split; [evaluate|].
  split; [evaluate|]. split; [exact Hrun|].
  rewrite Hrun. discriminate.
Qed.

(** The Firebase client keeps no quota and no limiter in the browser: there a
    fresh, non-empty cached artifact is returned with the state untouched. *)
Lemma Firebase_redesignRoom_cache_hit (env : Firebase.Environment)
    (base64ImageData mimeType prompt : jsstring) (options : RedesignOptions)
    (st : Runtime) (key : jsstring) (entry : CacheEntry jsstring) :
  config_useCache (spread Firebase.DEFAULT_REDESIGN_OPTIONS options) = true ->
  Firebase.cacheKey base64ImageData prompt = Some key ->
  cache st !! key = Some entry ->
  clock st - timestamp entry <= ttl entry ->
  truthy (data entry) = true ->
  Firebase.redesignRoom env base64ImageData mimeType prompt options st
  = (Resolved (data entry), st).
Proof.
  intros Huse Hkey Hentry Hfresh Htruthy.
  unfold Firebase.redesignRoom, bind. rewrite Hkey, Huse.
  now rewrite (cachedResult_hit key entry st Hentry Hfresh Htruthy).
Qed.

(** ** What the retried operation leaves alone *)

Section RetryFrame.
Context {St T X : Type}.
Variable view : St -> X.
Variable timer : Z -> St -> St.
Variable operation : Async St JsError T.
Variable config : RetryOptions.
Hypothesis operation_frame : forall s, view (snd (operation s)) = view s.
Hypothesis timer_frame : forall ms s, view (timer ms s) = view s.

Lemma attempts_frame (n : nat) :
  forall (a : Z) (lastError : JsThrown) (s : St),
    view (snd (attempts timer operation config n a lastError s)) = view s.
Proof.
  induction n as [|n IH]; intros a lastError s; [reflexivity|].
  cbn [attempts]. pose proof (operation_frame s) as Hop.
  destruct (operation s) as [[v|e] s1]; cbn [snd] in *; [exact Hop|].
  destruct (negb (isRetryableError e) || (a =? maxAttempts config)); [exact Hop|].
  now rewrite IH, timer_frame.
Qed.

(** A rejection of the loop with at least one attempt left carries the
    error of the invocation that ran last, and the state that invocation
    left. *)
Lemma attempts_rejected_last (n : nat) :
  forall (a : Z) (lastError x : JsThrown) (s s' : St),
    maxAttempts config = a + Z.of_nat n ->
    attempts timer operation config (S n) a lastError s = (Rejected x, s') ->
    exists e before, x = ThrownError e /\ operation before = (Rejected e, s').
Proof.
  induction n as [|n IH]; intros a lastError x s s' Hmax Hrun.
  - cbn [attempts] in Hrun. destruct (operation s) as [[v|e] s1] eqn:Hop; [discriminate|].
    replace (a =? maxAttempts config) with true in Hrun
      by (symmetry; apply Z.eqb_eq; lia).
    rewrite orb_true_r in Hrun. injection Hrun as <- <-. now exists e, s.
  - change (attempts timer operation config (S (S n)) a lastError s)
      with (match operation s with
            | (Resolved v, s1) => (Resolved v, s1)
            | (Rejected e0, s1) =>
                if negb (isRetryableError e0) || (a =? maxAttempts config)
                then (Rejected (ThrownError e0), s1)
                else attempts timer operation config (S n) (a + 1)
                       (ThrownError e0) (timer (calculateDelay a config) s1)
            end) in Hrun.
    destruct (operation s) as [[v|e] s1] eqn:Hop; [discriminate|].
    destruct (negb (isRetryableError e) || (a =? maxAttempts config)).
    + injection Hrun as <- <-. now exists e, s.
    + eapply IH; [|exact Hrun]. lia.
Qed.
End RetryFrame.

Lemma withRetry_frame {St T X : Type} (view : St -> X) (timer : Z -> St -> St)
    (operation : Async St JsError T) (options : PartialRetryOptions) (s : St) :
  (forall s0, view (snd (operation s0)) = view s0) ->
  (forall ms s0, view (timer ms s0) = view s0) ->
  view (snd (withRetry timer operation options s)) = view s.
Proof. intros Hop Htimer. unfold withRetry. now apply attempts_frame. Qed.

Lemma withRetry_rejected_last {St T : Type} (timer : Z -> St -> St)
    (operation : Async St JsError T) (M : Z) (s s' : St) (x : JsThrown) :
  1 <= M ->
  withRetry timer operation (onlyMaxAttempts M) s = (Rejected x, s') ->
  exists e before, x = ThrownError e /\ operation before = (Rejected e, s').
Proof.
  intros HM Hrun. unfold withRetry in Hrun.
  change (maxAttempts (mergeRetryOptions (onlyMaxAttempts M))) with M in Hrun.
  destruct (Z.to_nat M) as [|n] eqn:Hn; [lia|].
  eapply (attempts_rejected_last timer operation _ n); [|exact Hrun].
  change (maxAttempts (mergeRetryOptions (onlyMaxAttempts M))) with M. lia.
Qed.

Lemma sleep_persisted (ms : Z) (st : Runtime) : persisted (sleep ms st) = persisted st.
Proof. reflexivity. Qed.

Lemma generateImage_persisted (env : OpenRouter.Environment)
    (base64ImageData mimeType optimizedPrompt : jsstring) (st : Runtime) :
  persisted (snd (OpenRouter.generateImage env base64ImageData mimeType optimizedPrompt st))
  = persisted st.
Proof.
  unfold OpenRouter.generateImage, OpenRouter.requestImage.
  destruct (OpenRouter.getApiKey env) as [apiKey|e]; [|reflexivity].
  destruct (OpenRouter.response _) as [msg| |httpStatus errorMessage|content picture];
    try reflexivity.
  destruct content as [[|c content]|]; try reflexivity.
  destruct picture; reflexivity.
Qed.

(** Whatever [generateImage] rejects with is an [APIError]. *)
Lemma generateImage_rejects_APIError (env : OpenRouter.Environment)
    (base64ImageData mimeType optimizedPrompt : jsstring) (st st' : Runtime) (e : JsError) :
  OpenRouter.generateImage env base64ImageData mimeType optimizedPrompt st = (Rejected e, st') ->
  exists a : APIError, e = APIErr a.
Proof.
  unfold OpenRouter.generateImage.
  destruct (OpenRouter.requestImage _ _ _ _ st) as [[v|error] st1]; [discriminate|].
  intros [= <- _]. now eexists.
Qed.

Lemma generateDesign_persisted (env : Firebase.Environment)
    (base64ImageData mimeType userPrompt : jsstring) (st : Runtime) :
  persisted (snd (Firebase.generateDesign env base64ImageData mimeType userPrompt st))
  = persisted st.
Proof.
  unfold Firebase.generateDesign, Firebase.requestDesign.
  destruct (Firebase.result _) as [errorCode|success suggestions picture]; [reflexivity|].
  destruct (negb success || negb (truthy suggestions)); [reflexivity|].
  destruct picture; reflexivity.
Qed.

Lemma generateDesign_rejects_APIError (env : Firebase.Environment)
    (base64ImageData mimeType userPrompt : jsstring) (st st' : Runtime) (e : JsError) :
  Firebase.generateDesign env base64ImageData mimeType userPrompt st = (Rejected e, st') ->
  exists a : APIError, e = APIErr a.
Proof.
  unfold Firebase.generateDesign.
  destruct (Firebase.requestDesign _ _ _ _ st) as [[v|error] st1]; [discriminate|].
  intros [= <- _]. now eexists.
Qed.

Lemma awaitRateLimit_frame (st : Runtime) :
  cache (snd (OpenRouter.awaitRateLimit st)) = cache st
  /\ storedUsage (snd (OpenRouter.awaitRateLimit st)) = storedUsage st
  /\ netCalls (snd (OpenRouter.awaitRateLimit st)) = netCalls st
  /\ clock (snd (OpenRouter.awaitRateLimit st)) = clock st.
Proof.
  unfold OpenRouter.awaitRateLimit.
  destruct (checkRateLimit (clock st) (rateLimiter st)) as [[u|e] rl]; now cbn.
Qed.

(** The cache lookup of [redesignRoom] adds nothing to the cache and touches
    nothing else. *)
Lemma lookup_frame (useIt : bool) (key : jsstring) (st : Runtime) :
  cache (snd ((if useIt then cachedResult key else ret None) st)) ⊆ cache st
  /\ storedUsage (snd ((if useIt then cachedResult key else ret None) st)) = storedUsage st
  /\ rateLimiter (snd ((if useIt then cachedResult key else ret None) st)) = rateLimiter st
  /\ netCalls (snd ((if useIt then cachedResult key else ret None) st)) = netCalls st
  /\ clock (snd ((if useIt then cachedResult key else ret None) st)) = clock st.
Proof.
  destruct useIt; [|now cbn].
  unfold cachedResult. pose proof (Cache_get_subset (clock st) key (cache st)) as Hsub.
  destruct (Cache.get (clock st) key (cache st)) as [r c]. now cbn in *.
Qed.

(** ** Failure of the retried operation *)

Lemma persisted_fields (st st' : Runtime) :
  persisted st' = persisted st ->
  cache st' = cache st /\ rateLimiter st' = rateLimiter st
  /\ storedUsage st' = storedUsage st.
Proof. unfold persisted. now intros [= -> -> ->]. Qed.

(** C9. When the quota check, the cache lookup and the rate limit let the
    call through and the retried [generateImage] finally rejects,
    [redesignRoom] rejects with the very value [withRetry] rejected with, in
    the state [withRetry] left; the cache has gained no entry, and the stored
    usage is the one the quota check read, not incremented. With at least one
    attempt allowed that value is the [APIError] of the attempt that ran
    last. *)
Theorem redesignRoom_failure_propagates (env : OpenRouter.Environment)
    (base64ImageData mimeType prompt : jsstring) (options : RedesignOptions)
    (key : jsstring) (st st1 st2 st3 st4 : Runtime) (x : JsThrown) :
  let config := spread OpenRouter.DEFAULT_REDESIGN_OPTIONS options in
  let operation :=
    OpenRouter.generateImage env base64ImageData mimeType
      (OpenRouter.createOptimizedPrompt prompt) in
  OpenRouter.cacheKey base64ImageData prompt = Some key ->
  OpenRouter.checkDailyQuota env st = (Resolved tt, st1) ->
  (if config_useCache config then cachedResult key else ret None) st1
  = (Resolved None, st2) ->
  OpenRouter.awaitRateLimit st2 = (Resolved tt, st3) ->
  withRetry sleep operation (onlyMaxAttempts (config_maxRetries config)) st3
  = (Rejected x, st4) ->
  OpenRouter.redesignRoom env base64ImageData mimeType prompt options st
  = (Rejected x, st4)
  /\ cache st4 ⊆ cache st
  /\ storedUsage st4 = Some (fst (OpenRouter.getDailyUsage st))
  /\ (1 <= config_maxRetries config ->
      exists (e : APIError) (before : Runtime),
        x = ThrownError (APIErr e)
        /\ operation before = (Rejected (APIErr e), st4)).
Proof.
  intros config operation Hkey Hquota Hlookup Hlimit Hretry.
  assert (Hst1 : st1 = snd (OpenRouter.getDailyUsage st)).
  { destruct (checkDailyQuota_cases env st) as [[_ H]|[_ H]];
      rewrite H in Hquota; [now injection Hquota | discriminate]. }
  destruct (getDailyUsage_frame st) as (_ & Hcache1 & _ & _).
  pose proof (getDailyUsage_stored st) as Hstored1.
  rewrite <- Hst1 in Hcache1, Hstored1.
  destruct (lookup_frame (config_useCache config) key st1) as (Hcache2 & Hstored2 & _).
  rewrite Hlookup in Hcache2, Hstored2. cbn [snd] in Hcache2, Hstored2.
  destruct (awaitRateLimit_frame st2) as (Hcache3 & Hstored3 & _).
  rewrite Hlimit in Hcache3, Hstored3. cbn [snd] in Hcache3, Hstored3.
  destruct (persisted_fields st3 st4) as (Hcache4 & _ & Hstored4).
  { pose proof (withRetry_frame persisted sleep operation
                  (onlyMaxAttempts (config_maxRetries config)) st3
                  (generateImage_persisted env base64ImageData mimeType
                     (OpenRouter.createOptimizedPrompt prompt))
                  sleep_persisted) as Hframe.
    now rewrite Hretry in Hframe. }
  split; [|split; [|split]].
  - unfold OpenRouter.redesignRoom, bind. rewrite Hquota, Hkey.
    fold config. rewrite Hlookup, Hlimit. fold operation. now rewrite Hretry.
  - rewrite Hcache4, Hcache3, <- Hcache1. exact Hcache2.
  - now rewrite Hstored4, Hstored3, Hstored2.
  - intros Hattempts.
    destruct (withRetry_rejected_last sleep operation _ st3 st4 x Hattempts Hretry)
      as (e & before & -> & Hlast).
    destruct (generateImage_rejects_APIError _ _ _ _ _ _ _ Hlast) as [a ->].
    now exists a, before.
Qed.

Lemma redesignRoom_failure_propagates_witness :
  OpenRouter.redesignRoom (Mock.openRouterDown 5) Mock.photo (lit "image/png")
    (lit "cozy reading nook")
    {| useCache := None; cacheTimeMs := None; maxRetries := Some 2 |}
    (Mock.loaded Mock.morning)
  = (Rejected (ThrownError (APIErr
       {| message := lit "API request failed with status 503";
          status := Some 503;
          code := Some (lit "OPENROUTER_API_ERROR");
          retryable := true |})),
     {| clock := Mock.morning + 1600;
        cache := ∅;
        rateLimiter :=
          {| requests := [Mock.morning]; maxRequests := 10; windowMs := 60000 |};
        storedUsage := Some {| date := lit "2026-11-02"; count := 0 |};
        netCalls := 2 |}).
Proof.
  refine (proj1 (redesignRoom_failure_propagates (Mock.openRouterDown 5) Mock.photo
                   (lit "image/png") (lit "cozy reading nook")
                   {| useCache := None; cacheTimeMs := None; maxRetries := Some 2 |}
                   Mock.photoKey
                   (Mock.loaded Mock.morning)
                   {| clock := Mock.morning; cache := ∅; rateLimiter := rateLimiter0;
                      storedUsage := Some {| date := lit "2026-11-02"; count := 0 |};
                      netCalls := 0 |}
                   {| clock := Mock.morning; cache := ∅; rateLimiter := rateLimiter0;
                      storedUsage := Some {| date := lit "2026-11-02"; count := 0 |};
                      netCalls := 0 |}
                   {| clock := Mock.morning; cache := ∅;
                      rateLimiter :=
                        {| requests := [Mock.morning]; maxRequests := 10; windowMs := 60000 |};
                      storedUsage := Some {| date := lit "2026-11-02"; count := 0 |};
                      netCalls := 0 |}
                   _ _ _ _ _ _ _)).
  - evaluate.
  - evaluate.
  - evaluate.
  - evaluate.
  - evaluate.
Defined.

(** The Firebase client has the same shape without the quota and the limiter:
    the rejection of [withRetry] is the rejection of [redesignRoom], and the
    cache, the limiter and the usage item are left as the lookup left them. *)
Lemma Firebase_redesignRoom_failure_propagates (env : Firebase.Environment)
    (base64ImageData mimeType prompt : jsstring) (options : RedesignOptions)
    (key : jsstring) (st st2 st4 : Runtime) (x : JsThrown) :
  let config := spread Firebase.DEFAULT_REDESIGN_OPTIONS options in
  let operation := Firebase.generateDesign env base64ImageData mimeType prompt in
  Firebase.cacheKey base64ImageData prompt = Some key ->
  (if config_useCache config then cachedResult key else ret None) st
  = (Resolved None, st2) ->
  withRetry sleep operation (onlyMaxAttempts (config_maxRetries config)) st2
  = (Rejected x, st4) ->
  Firebase.redesignRoom env base64ImageData mimeType prompt options st = (Rejected x, st4)
  /\ cache st4 ⊆ cache st
  /\ rateLimiter st4 = rateLimiter st
  /\ storedUsage st4 = storedUsage st
  /\ (1 <= config_maxRetries config ->
      exists (e : APIError) (before : Runtime),
        x = ThrownError (APIErr e)
        /\ operation before = (Rejected (APIErr e), st4)).
Proof.
  intros config operation Hkey Hlookup Hretry.
  destruct (lookup_frame (config_useCache config) key st) as (Hcache2 & Hstored2 & Hlimiter2 & _).
  rewrite Hlookup in Hcache2, Hstored2, Hlimiter2. cbn [snd] in Hcache2, Hstored2, Hlimiter2.
  destruct (persisted_fields st2 st4) as (Hcache4 & Hlimiter4 & Hstored4).
  { pose proof (withRetry_frame persisted sleep operation
                  (onlyMaxAttempts (config_maxRetries config)) st2
                  (generateDesign_persisted env base64ImageData mimeType prompt)
                  sleep_persisted) as Hframe.
    now rewrite Hretry in Hframe. }
  split; [|split; [|split; [|split]]].
  - unfold Firebase.redesignRoom, bind. rewrite Hkey. fold config.
    rewrite Hlookup. fold operation. now rewrite Hretry.
  - now rewrite Hcache4.
  - now rewrite Hlimiter4.
  - now rewrite Hstored4.
  - intros Hattempts.
    destruct (withRetry_rejected_last sleep operation _ st2 st4 x Hattempts Hretry)
      as (e & before & -> & Hlast).
    destruct (generateDesign_rejects_APIError _ _ _ _ _ _ _ Hlast) as [a ->].
    now exists a, before.
Qed.

Example Firebase_redesignRoom_backend_down :
  Firebase.redesignRoom Mock.firebaseDown Mock.photo (lit "image/png")
    (lit "cozy reading nook") noOptions (Mock.loaded Mock.morning)
  = (Rejected (ThrownError (APIErr
       {| message := lit "An unexpected error occurred while generating the design";
          status := Some 500;
          code := Some (lit "UNKNOWN_ERROR");
          retryable := true |})),
     {| clock := Mock.morning + 1600; cache := ∅; rateLimiter := rateLimiter0;
        storedUsage := None; netCalls := 2 |}).
Proof. evaluate. Qed.

(** ** Exhaustion of the daily quota *)

Lemma cacheResult_frame (config : RedesignConfig) (key v : jsstring) (st : Runtime) :
  storedUsage (snd (cacheResult config key v st)) = storedUsage st
  /\ clock (snd (cacheResult config key v st)) = clock st.
Proof.
  unfold cacheResult.
  destruct (config_useCache config && negb (config_cacheTimeMs config =? 0)); now cbn.
Qed.

Lemma lookup_empty_cache (useIt : bool) (key : jsstring) (st : Runtime) :
  cache st = ∅ ->
  fst ((if useIt then cachedResult key else ret None) st) = Resolved None.
Proof.
  intros Hempty. destruct useIt; [|reflexivity].
  unfold cachedResult. rewrite Cache_get_absent; [reflexivity|].
  rewrite Hempty. apply lookup_empty.
Qed.

(** A request that went to the network and succeeded leaves a usage item of
    the current day with a positive count. *)
Lemma redesignRoom_resolved_counts (env : OpenRouter.Environment)
    (base64ImageData mimeType prompt : jsstring) (options : RedesignOptions)
    (st st' : Runtime) (r : jsstring) :
  cache st = ∅ ->
  (forall u, storedUsage st = Some u -> 0 <= count u) ->
  OpenRouter.redesignRoom env base64ImageData mimeType prompt options st = (Resolved r, st') ->
  exists u, storedUsage st' = Some u
            /\ date u = Web.isoDate (clock st') /\ 1 <= count u.
Proof.
  intros Hempty Hcount Hrun. unfold OpenRouter.redesignRoom, bind in Hrun.
  destruct (checkDailyQuota_cases env st) as [[_ Hq]|[_ Hq]];
    rewrite Hq in Hrun; [|discriminate].
  destruct (OpenRouter.cacheKey base64ImageData prompt) as [key|]; [|discriminate].
  set (config := spread OpenRouter.DEFAULT_REDESIGN_OPTIONS options) in *.
  set (st1 := snd (OpenRouter.getDailyUsage st)) in *.
  destruct (getDailyUsage_frame st) as (_ & Hcache1 & _ & _). fold st1 in Hcache1.
  pose proof (getDailyUsage_stored st) as Hstored1. fold st1 in Hstored1.
  pose proof (lookup_empty_cache (config_useCache config) key st1
                ltac:(now rewrite Hcache1)) as Hmiss.
  destruct (lookup_frame (config_useCache config) key st1) as (_ & Hstored2 & _).
  destruct ((if config_useCache config then cachedResult key else ret None) st1)
    as [hit st2]. cbn [fst snd] in Hmiss, Hstored2. subst hit.
  destruct (awaitRateLimit_frame st2) as (_ & Hstored3 & _).
  destruct (OpenRouter.awaitRateLimit st2) as [[u3|e3] st3]; [|discriminate].
  cbn [snd] in Hstored3.
  pose proof (withRetry_frame persisted sleep
                (OpenRouter.generateImage env base64ImageData mimeType
                   (OpenRouter.createOptimizedPrompt prompt))
                (onlyMaxAttempts (config_maxRetries config)) st3
                (generateImage_persisted env base64ImageData mimeType
                   (OpenRouter.createOptimizedPrompt prompt))
                sleep_persisted) as Hframe.
  destruct (withRetry sleep _ _ st3) as [[v|x] st4]; [|discriminate].
  cbn [snd] in Hframe. apply persisted_fields in Hframe as (_ & _ & Hstored4).
  unfold OpenRouter.incrementDailyUsage in Hrun.
  pose proof (getDailyUsage_today st4) as Htoday.
  destruct (getDailyUsage_frame st4) as (Hclock5 & _).
  assert (Hpositive : 0 <= count (fst (OpenRouter.getDailyUsage st4))).
  { apply getDailyUsage_count. intros u Hu.
    rewrite Hstored4, Hstored3, Hstored2, Hstored1 in Hu. injection Hu as <-.
    now apply getDailyUsage_count. }
  destruct (OpenRouter.getDailyUsage st4) as [usage st5]. cbn [fst snd] in *.
  set (st6 := withStoredUsage _ st5) in Hrun.
  destruct (cacheResult_frame config key v st6) as (Hstored7 & Hclock7).
  destruct (cacheResult config key v st6) as [[u7|e7] st7]; [|discriminate].
  cbn [snd] in Hstored7, Hclock7. unfold ret in Hrun. injection Hrun as _ <-.
  exists {| date := date usage; count := count usage + 1 |}.
  rewrite Hstored7, Hclock7. cbn. repeat split; [congruence | lia].
Qed.

(** C8. When the usage item of the current day has reached the daily limit,
    [redesignRoom] rejects at once with the [APIError] of code
    [DAILY_QUOTA_EXCEEDED], status 429 and [retryable = false], and the state
    is untouched: no limiter interaction, no network call, whether or not the
    inputs are cached. Under a daily limit of 1, after one request that went
    to the network and succeeded, any request made on the same day rejects
    this way. *)
Theorem redesignRoom_daily_quota :
  (forall (env : OpenRouter.Environment) (base64ImageData mimeType prompt : jsstring)
          (options : RedesignOptions) (st : Runtime) (usage : DailyUsage),
      storedUsage st = Some usage ->
      date usage = Web.isoDate (clock st) ->
      OpenRouter.DAILY_REQUEST_LIMIT env <= count usage ->
      OpenRouter.redesignRoom env base64ImageData mimeType prompt options st
      = (Rejected (ThrownError (APIErr
           (OpenRouter.dailyQuotaExceeded (OpenRouter.DAILY_REQUEST_LIMIT env)))), st)
      /\ code (OpenRouter.dailyQuotaExceeded (OpenRouter.DAILY_REQUEST_LIMIT env))
         = Some (lit "DAILY_QUOTA_EXCEEDED")
      /\ retryable (OpenRouter.dailyQuotaExceeded (OpenRouter.DAILY_REQUEST_LIMIT env))
         = false)
  /\ (forall (env : OpenRouter.Environment)
             (image1 mime1 prompt1 image2 mime2 prompt2 : jsstring)
             (options1 options2 : RedesignOptions) (st st1 st2 : Runtime) (r : jsstring),
        OpenRouter.DAILY_REQUEST_LIMIT env = 1 ->
        cache st = ∅ ->
        (forall u, storedUsage st = Some u -> 0 <= count u) ->
        OpenRouter.redesignRoom env image1 mime1 prompt1 options1 st = (Resolved r, st1) ->
        storedUsage st2 = storedUsage st1 ->
        Web.isoDate (clock st2) = Web.isoDate (clock st1) ->
        OpenRouter.redesignRoom env image2 mime2 prompt2 options2 st2
        = (Rejected (ThrownError (APIErr (OpenRouter.dailyQuotaExceeded 1))), st2)).
Proof.
  assert (Hspent : forall env base64ImageData mimeType prompt options st usage,
    storedUsage st = Some usage ->
    date usage = Web.isoDate (clock st) ->
    OpenRouter.DAILY_REQUEST_LIMIT env <= count usage ->
    OpenRouter.redesignRoom env base64ImageData mimeType prompt options st
    = (Rejected (ThrownError (APIErr
         (OpenRouter.dailyQuotaExceeded (OpenRouter.DAILY_REQUEST_LIMIT env)))), st)).
  { intros env base64ImageData mimeType prompt options st usage Hstored Hday Hlimit.
    unfold OpenRouter.redesignRoom, bind.
    rewrite checkDailyQuota_exceeded;
      rewrite (getDailyUsage_same_day st usage Hstored Hday); [reflexivity | exact Hlimit]. }
  split.
  - intros env base64ImageData mimeType prompt options st usage Hstored Hday Hlimit.
    split; [now apply (Hspent env _ _ _ _ st usage) | split; reflexivity].
  - intros env image1 mime1 prompt1 image2 mime2 prompt2 options1 options2 st st1 st2 r
      Hone Hempty Hcount Hfirst Hsame Hday.
    destruct (redesignRoom_resolved_counts env image1 mime1 prompt1 options1 st st1 r
                Hempty Hcount Hfirst) as (u & Hu & Hdate & Hpositive).
    rewrite <- Hone. apply (Hspent env _ _ _ _ st2 u).
    + now rewrite Hsame.
    + now rewrite Hday.
    + lia.
Qed.

Lemma redesignRoom_daily_quota_witness :
  OpenRouter.redesignRoom (Mock.openRouterUp 5 Mock.drawing) Mock.photo (lit "image/png")
    (lit "cozy reading nook") noOptions (Mock.dayWithCached 5 Mock.photoKey)
  = (Rejected (ThrownError (APIErr (OpenRouter.dailyQuotaExceeded 5))),
     Mock.dayWithCached 5 Mock.photoKey)
  /\ OpenRouter.redesignRoom (Mock.openRouterUp 1 Mock.drawing) Mock.otherPhoto
       (lit "image/jpeg") (lit "rustic farmhouse") noOptions
       (Mock.afterFirstRequest)
     = (Rejected (ThrownError (APIErr (OpenRouter.dailyQuotaExceeded 1))),
        Mock.afterFirstRequest).
Proof.
  split.
  - refine (proj1 (proj1 redesignRoom_daily_quota (Mock.openRouterUp 5 Mock.drawing)
                     Mock.photo (lit "image/png") (lit "cozy reading nook") noOptions
                     (Mock.dayWithCached 5 Mock.photoKey)
                     {| date := lit "2026-11-02"; count := 5 |} _ _ _)).
    + reflexivity.
    + evaluate.
    + cbn. lia.
  - refine (proj2 redesignRoom_daily_quota (Mock.openRouterUp 1 Mock.drawing)
              Mock.photo (lit "image/png") (lit "cozy reading nook")
              Mock.otherPhoto (lit "image/jpeg") (lit "rustic farmhouse")
              noOptions noOptions (Mock.loaded Mock.morning)
              Mock.afterFirstRequest Mock.afterFirstRequest Mock.drawing
              _ _ _ _ _ _).
    + reflexivity.
    + reflexivity.
    + intros u Hu. discriminate Hu.
    + evaluate.
    + reflexivity.
    + reflexivity.
Defined.

(** The first request of that day, computed: one network call, the request
    recorded by the limiter, the usage counted and the drawing cached. *)
Example redesignRoom_first_request :
  OpenRouter.redesignRoom (Mock.openRouterUp 1 Mock.drawing) Mock.photo
    (lit "image/png") (lit "cozy reading nook") noOptions (Mock.loaded Mock.morning)
  = (Resolved Mock.drawing, Mock.afterFirstRequest).
Proof. evaluate. Qed.

(** On the next day the counter starts again and the request goes through. *)
Example redesignRoom_next_day :
  fst (OpenRouter.redesignRoom (Mock.openRouterUp 5 Mock.drawing) Mock.otherPhoto
         (lit "image/jpeg") (lit "rustic farmhouse") noOptions
         {| clock := Mock.morning + 86400000; cache := ∅; rateLimiter := rateLimiter0;
            storedUsage := Some {| date := lit "2026-11-02"; count := 5 |};
            netCalls := 0 |})
  = Resolved Mock.drawing.
Proof. evaluate. Qed.

(** What the collision of keys means for a user of the OpenRouter client:
    after a design for one prompt, a different prompt for the same photo is
    answered from the cache with the first design, without a network call. *)
Example redesignRoom_serves_other_prompt :
  OpenRouter.redesignRoom (Mock.openRouterUp 5 (lit "another-drawing")) Mock.photo
    (lit "image/png") (lit "rustic farmhouse") noOptions
    (snd (OpenRouter.redesignRoom (Mock.openRouterUp 5 Mock.drawing) Mock.photo
            (lit "image/png") (lit "modern minimalist") noOptions
            (Mock.loaded Mock.morning)))
  = (Resolved Mock.drawing, Mock.afterFirstRequest).
Proof. evaluate. Qed.

(** An empty string in the cache is not served: [if (cachedResult)] is false
    for it, and the call goes to the network. *)
Example redesignRoom_empty_artifact :
  fst (Cache.get Mock.morning Mock.photoKey
         (Cache.set Mock.morning Mock.photoKey ([] : jsstring) 86400000 ∅)) = Some []
  /\ OpenRouter.redesignRoom (Mock.openRouterUp 5 Mock.drawing) Mock.photo
       (lit "image/png") (lit "cozy reading nook") noOptions
       {| clock := Mock.morning;
          cache := Cache.set Mock.morning Mock.photoKey ([] : jsstring) 86400000 ∅;
          rateLimiter := rateLimiter0; storedUsage := None; netCalls := 0 |}
     = (Resolved Mock.drawing, Mock.afterFirstRequest).
Proof. split; evaluate. Qed.

(** The limiter refuses the eleventh request of a minute with a retryable
    [RATE_LIMIT_EXCEEDED]. *)
Example redesignRoom_rate_limited :
  fst (OpenRouter.redesignRoom (Mock.openRouterUp 50 Mock.drawing) Mock.photo
         (lit "image/png") (lit "cozy reading nook") noOptions
         {| clock := Mock.morning + 30000; cache := ∅;
            rateLimiter :=
              {| requests := replicate 10 Mock.morning; maxRequests := 10; windowMs := 60000 |};
            storedUsage := None; netCalls := 10 |})
  = Rejected (ThrownError (APIErr
      {| message := lit "Rate limit exceeded. Please wait 30 seconds before trying again.";
         status := Some 429;
         code := Some (lit "RATE_LIMIT_EXCEEDED");
         retryable := true |})).
Proof. evaluate. Qed.

(** * Further properties of the code *)

(** ** The retry loop on any operation *)

Section RetryProfile.
Context {St T : Type}.
Variable timer : Z -> St -> St.
Variable operation : Async St JsError T.
Variable config : RetryOptions.


End RetryProfile.


(** ** Retrying until the operation settles for good *)

Lemma attempts_plays_script {T : Type} (config : RetryOptions)
    (failures : list JsError) :
  forall (final : Settled JsError T) (rest : list (Settled JsError T))
         (n : nat) (a : Z) (lastError : JsThrown) (p : Spy (list (Settled JsError T))),
    inner p = (Rejected <$> failures) ++ final :: rest ->
    Forall (fun e => isRetryableError e = true) failures ->
    maxAttempts config = a + Z.of_nat n - 1 ->
    (length failures < n)%nat ->
    match final with
    | Resolved _ => True
    | Rejected e => isRetryableError e = false
    end ->
    attempts (spySleep stillTimer) (spyOn scripted) config n a lastError p
    = (match final with
       | Resolved v => Resolved v
       | Rejected e => Rejected (ThrownError e)
       end,
       {| inner := rest;
          calls := (calls p + S (length failures))%nat;
          slept := slept p
                   ++ ((fun i => calculateDelay i config)
                         <$> seqZ a (Z.of_nat (length failures))) |}).
Proof.
  induction failures as [|e failures IH];
    intros final rest n a lastError p Hscript Hretry Hmax Hlen Hfinal;
    (destruct n as [|n]; [cbn in Hlen; lia|]); cbn [attempts]; unfold spyOn at 1;
    rewrite Hscript; cbn [fmap list_fmap app scripted length].
  - rewrite app_nil_r. replace (calls p + 1)%nat with (S (calls p)) by lia.
    destruct final as [v|e]; [reflexivity|]. now rewrite Hfinal.
  - apply Forall_cons in Hretry as [He Hretry]. rewrite He.
    replace (a =? maxAttempts config) with false
      by (symmetry; apply Z.eqb_neq; cbn in Hlen; lia).
    cbn [negb orb].
    rewrite (IH final rest n (a + 1) (ThrownError e)); cbn in *; try (reflexivity || lia || assumption).
    rewrite (seqZ_cons a) by lia.
    replace (Z.succ a) with (a + 1) by lia.
    rewrite fmap_cons, <- app_assoc. cbn [app].
    f_equal. f_equal; [lia|]. do 4 f_equal. lia.
Qed.

(** X2. An operation that fails retryably [k] times, with [k < maxAttempts],
    and then either succeeds or fails with a non-retryable error: [withRetry]
    settles with that last settlement after exactly [k + 1] invocations,
    having slept [calculateDelay 1 .. calculateDelay k]; what follows in the
    script is never run. *)
Theorem withRetry_plays_script {T : Type} (options : PartialRetryOptions) (M : Z)
    (failures : list JsError) (final : Settled JsError T)
    (rest : list (Settled JsError T)) :
  maxAttempts_given options = Some M ->
  Z.of_nat (length failures) < M ->
  Forall (fun e => isRetryableError e = true) failures ->
  match final with
  | Resolved _ => True
  | Rejected e => isRetryableError e = false
  end ->
  withRetry (spySleep stillTimer) (spyOn scripted) options
    (fresh ((Rejected <$> failures) ++ final :: rest))
  = (match final with
     | Resolved v => Resolved v
     | Rejected e => Rejected (ThrownError e)
     end,
     {| inner := rest;
        calls := S (length failures);
        slept := (fun i => calculateDelay i (mergeRetryOptions options))
                   <$> seqZ 1 (Z.of_nat (length failures)) |}).
Proof.
  intros Hgiven Hlen Hretry Hfinal. unfold withRetry.
  rewrite (attempts_plays_script _ failures final rest); try assumption.
  - reflexivity.
  - reflexivity.
  - rewrite (mergeRetryOptions_maxAttempts _ _ Hgiven). lia.
  - rewrite (mergeRetryOptions_maxAttempts _ _ Hgiven). lia.
Qed.

Lemma withRetry_plays_script_witness :
  withRetry (spySleep stillTimer) (spyOn scripted) (onlyMaxAttempts 5)
    (fresh [Rejected (APIErr Mock.serverError);
            Rejected (OtherError (lit "Failed to fetch"));
            Resolved (lit "success");
            Rejected (APIErr Mock.badRequest)])
  = (Resolved (lit "success"),
     {| inner := [Rejected (APIErr Mock.badRequest)];
        calls := 3;
        slept := [1000; 2000] |}).
Proof.
  refine (withRetry_plays_script (onlyMaxAttempts 5) 5
            [APIErr Mock.serverError; OtherError (lit "Failed to fetch")]
            (Resolved (lit "success")) [Rejected (APIErr Mock.badRequest)] _ _ _ _).
  - reflexivity.
  - cbn. lia.
  - repeat constructor.
  - exact I.
Defined.

(** ** One cache key never disturbs another *)

Lemma Cache_get_other {T : Type} (t : Z) (k' : jsstring)
    (c c' : gmap jsstring (CacheEntry T)) :
  c' !! k' = c !! k' ->
  fst (Cache.get t k' c') = fst (Cache.get t k' c).
Proof.
  intros Hsame. unfold Cache.get. rewrite Hsame.
  destruct (c !! k') as [entry|]; [|reflexivity].
  now destruct (t - timestamp entry >? ttl entry).
Qed.

(** X3. Whatever is done under one key of the cache (a [set], a [delete], a
    [get] that purges an expired entry) leaves what [get] returns for every
    other key unchanged; and a second [set] under the same key replaces the
    first, value and expiry together. *)
Theorem cache_keys_are_independent {T : Type} (k k' : jsstring) (v v' : T)
    (ttl_ms ttl_ms' now now' t : Z) (c : gmap jsstring (CacheEntry T)) :
  k' <> k ->
  fst (Cache.get t k' (Cache.set now k v ttl_ms c)) = fst (Cache.get t k' c)
  /\ fst (Cache.get t k' (snd (Cache.delete k c))) = fst (Cache.get t k' c)
  /\ fst (Cache.get t k' (snd (Cache.get now k c))) = fst (Cache.get t k' c)
  /\ Cache.set now' k v' ttl_ms' (Cache.set now k v ttl_ms c) = Cache.set now' k v' ttl_ms' c
  /\ fst (Cache.get t k (Cache.set now' k v' ttl_ms' (Cache.set now k v ttl_ms c)))
     = (if t - now' >? ttl_ms' then None else Some v').
Proof.
  intros Hne. split; [|split; [|split; [|split]]].
  - apply Cache_get_other. unfold Cache.set. now apply lookup_insert_ne.
  - apply Cache_get_other. cbn. now apply lookup_delete_ne.
  - apply Cache_get_other. unfold Cache.get.
    destruct (c !! k) as [entry|]; [|reflexivity].
    destruct (now - timestamp entry >? ttl entry); [|reflexivity].
    cbn. now apply lookup_delete_ne.
  - unfold Cache.set. apply insert_insert_eq.
  - unfold Cache.get, Cache.set. rewrite lookup_insert_eq. cbn.
    now destruct (t - now' >? ttl_ms').
Qed.

Lemma cache_keys_are_independent_witness :
  fst (Cache.get 10 (lit "key2")
         (Cache.set 5 (lit "key1") (lit "value1") 1000
            (Cache.set 0 (lit "key2") (lit "value2") 1000 ∅)))
  = fst (Cache.get 10 (lit "key2") (Cache.set 0 (lit "key2") (lit "value2") 1000 ∅)).
Proof.
  refine (proj1 (cache_keys_are_independent (lit "key1") (lit "key2")
                   (lit "value1") (lit "value1") 1000 1000 5 5 10
                   (Cache.set 0 (lit "key2") (lit "value2") 1000 ∅) _)).
  discriminate.
Defined.

(** X4. [delete] reports whether an entry was stored under the key, expired
    or not, and removes it: [get] then returns [null] at any time. Once [get]
    has returned [null] for a key, nothing is stored under it any more and
    [delete] reports [false]. *)
Theorem cache_delete_reports {T : Type} (k : jsstring) (t t' : Z)
    (c : gmap jsstring (CacheEntry T)) :
  (fst (Cache.delete k c) = true <-> is_Some (c !! k))
  /\ fst (Cache.get t k (snd (Cache.delete k c))) = None
  /\ (fst (Cache.get t k c) = None ->
      fst (Cache.delete k (snd (Cache.get t k c))) = false
      /\ fst (Cache.get t' k (snd (Cache.get t k c))) = None).
Proof.
  split; [|split].
  - cbn. apply bool_decide_eq_true.
  - cbn. unfold Cache.get. now rewrite lookup_delete_eq.
  - intros Hnull.
    assert (Hgone : snd (Cache.get t k c) !! k = None).
    { unfold Cache.get in *. destruct (c !! k) as [entry|] eqn:Hk; [|exact Hk].
      destruct (t - timestamp entry >? ttl entry); [|discriminate Hnull].
      cbn. apply lookup_delete_eq. }
    split.
    + cbn. apply bool_decide_eq_false. rewrite Hgone. now apply is_Some_None.
    + unfold Cache.get at 1. now rewrite Hgone.
Qed.

Lemma cache_delete_reports_witness :
  fst (Cache.delete (lit "key1")
         (snd (Cache.get 2000 (lit "key1") (Cache.set 0 (lit "key1") (lit "value1") 1000 ∅))))
  = false.
Proof.
  refine (proj1 (proj2 (proj2 (cache_delete_reports (lit "key1") 2000 2000
                                 (Cache.set 0 (lit "key1") (lit "value1") 1000 ∅))) _)).
  evaluate.
Defined.

(** An expired entry that was never read is still stored: [delete] reports
    [true] for it although [get] would return [null]. *)
Example cache_delete_expired :
  fst (Cache.delete (lit "key1") (Cache.set 0 (lit "key1") (lit "value1") 1000 ∅)) = true
  /\ fst (Cache.get 2000 (lit "key1") (Cache.set 0 (lit "key1") (lit "value1") 1000 ∅)) = None.
Proof. split; evaluate. Qed.

(** ** Cache keys *)

(** ** Cache keys *)

Lemma colon_split (p q r r' : jsstring) :
  colonFree p -> colonFree q ->
  p ++ 58%N :: r = q ++ 58%N :: r' ->
  p = q /\ r = r'.
Proof.
  unfold colonFree. revert q. induction p as [|a p IH]; intros [|b q] Hp Hq Heq; cbn in Heq.
  - now injection Heq as ->.
  - injection Heq as <- _. exfalso. apply Hq. left.
  - injection Heq as -> _. exfalso. apply Hp. left.
  - injection Heq as -> Heq.
    destruct (IH q) as [-> ->]; [| |exact Heq|now split].
    + intros Hin. apply Hp. now right.
    + intros Hin. apply Hq. now right.
Qed.

Lemma join_injective (ps : list jsstring) :
  forall qs : list jsstring,
    length ps = length qs ->
    Forall colonFree ps -> Forall colonFree qs ->
    join (lit ":") ps = join (lit ":") qs ->
    ps = qs.
Proof.
  induction ps as [|p ps IH]; intros [|q qs] Hlen Hps Hqs Heq; try discriminate Hlen;
    [reflexivity|].
  apply Forall_cons in Hps as [Hp Hps]. apply Forall_cons in Hqs as [Hq Hqs].
  destruct ps as [|p2 ps]; destruct qs as [|q2 qs]; try discriminate Hlen.
  - cbn in Heq. now subst.
  - change (p ++ 58%N :: join (lit ":") (p2 :: ps) = q ++ 58%N :: join (lit ":") (q2 :: qs))
      in Heq.
    destruct (colon_split _ _ _ _ Hp Hq Heq) as [-> Hrest].
    f_equal. apply IH; [cbn in *; lia | assumption | assumption | exact Hrest].
Qed.



(** A colon inside a part makes keys collide. *)
Example createCacheKey_collision :
  createCacheKey (lit "test") [lit "a:b"; lit "c"]
  = createCacheKey (lit "test") [lit "a"; lit "b:c"].
Proof. reflexivity. Qed.

Lemma hexByte_colonFree (bytes : list N) : colonFree (bytes ≫= Web.hexByte).
Proof.
  unfold colonFree. induction bytes as [|b bytes IH]; cbn.
  - apply not_elem_of_nil.
  - intros Hin. apply elem_of_cons in Hin as [Hin|Hin].
    + revert Hin. unfold Web.hexDigit. destruct (b / 16 <? 10)%N eqn:Hd; intros Hin.
      * apply N.ltb_lt in Hd. lia.
      * apply N.ltb_ge in Hd. lia.
    + apply elem_of_cons in Hin as [Hin|Hin]; [|now apply IH].
      revert Hin. unfold Web.hexDigit. destruct (b mod 16 <? 10)%N eqn:Hd; intros Hin.
      * apply N.ltb_lt in Hd. lia.
      * apply N.ltb_ge in Hd. lia.
Qed.

Lemma take_colonFree (n : nat) (s : jsstring) : colonFree s -> colonFree (take n s).
Proof.
  unfold colonFree. intros Hs Hin. apply Hs.
  apply elem_of_take in Hin as (i & Hi & _). apply list_elem_of_lookup. now exists i.
Qed.

Lemma b64char_not_colon (i : N) : b64char i <> 58%N.
Proof.
  unfold b64char.
  destruct (i <? 26)%N eqn:H1; [lia|].
  destruct (i <? 52)%N eqn:H2; [lia|].
  destruct (i <? 62)%N eqn:H3; [apply N.ltb_lt in H3; apply N.ltb_ge in H2; lia|].
  destruct (i =? 62)%N; discriminate.
Qed.

Lemma colonFree_cons (c : N) (s : jsstring) :
  c <> 58%N -> colonFree s -> colonFree (c :: s).
Proof.
  unfold colonFree. intros Hc Hs Hin. apply elem_of_cons in Hin as [Hin|Hin]; auto.
Qed.

Lemma base64_colonFree (s : jsstring) :
  forall a b : N,
    colonFree (base64 s) /\ colonFree (base64 (a :: s)) /\ colonFree (base64 (a :: b :: s)).
Proof.
  assert (Hnil : colonFree []) by apply not_elem_of_nil.
  induction s as [|c s IH]; intros a b.
  - cbn. repeat split;
      repeat (apply colonFree_cons; [first [apply b64char_not_colon | discriminate]|]);
      exact Hnil.
  - destruct (IH a b) as (H0 & _ & _).
    destruct (IH c c) as (_ & H1 & _).
    destruct (IH a c) as (_ & _ & H2).
    split; [exact H1|]. split; [exact H2|].
    cbn [base64 app].
    repeat (apply colonFree_cons; [apply b64char_not_colon|]). exact H0.
Qed.

(** X6. In the OpenRouter client the cache key is decided by the first 1000
    characters of the image data alone: two calls whose keys are defined
    have the same key exactly when the 16 hex digits hashed from that prefix
    agree, whatever the prompts and whatever follows in the images. *)
Theorem OpenRouter_cacheKey_by_image_prefix (image1 image2 prompt1 prompt2 k1 k2 : jsstring) :
  OpenRouter.cacheKey image1 prompt1 = Some k1 ->
  OpenRouter.cacheKey image2 prompt2 = Some k2 ->
  (k1 = k2 <-> OpenRouter.generateImageHash image1 = OpenRouter.generateImageHash image2)
  /\ (take 1000 image1 = take 1000 image2 -> k1 = k2).
Proof.
  intros H1 H2. unfold OpenRouter.cacheKey in *.
  destruct (btoa (OpenRouter.createOptimizedPrompt prompt1)) as [e1|] eqn:He1; [|discriminate].
  destruct (btoa (OpenRouter.createOptimizedPrompt prompt2)) as [e2|] eqn:He2; [|discriminate].
  cbn [mbind option_bind] in *.
  rewrite (optimizedPrompt_fingerprint _ _ He1) in H1.
  rewrite (optimizedPrompt_fingerprint _ _ He2) in H2.
  injection H1 as <-. injection H2 as <-.
  assert (Hiff : createCacheKey (lit "room-redesign")
                   [OpenRouter.generateImageHash image1; lit "VHJhbnNmb3JtIHRoaXMg"]
                 = createCacheKey (lit "room-redesign")
                     [OpenRouter.generateImageHash image2; lit "VHJhbnNmb3JtIHRoaXMg"]
                 <-> OpenRouter.generateImageHash image1 = OpenRouter.generateImageHash image2).
  { split; [|now intros ->].
    intros Heq. unfold createCacheKey in Heq.
    apply app_inv_head in Heq. apply app_inv_head in Heq.
    apply join_injective in Heq; [now injection Heq | reflexivity | |].
    - repeat constructor.
      + apply take_colonFree, hexByte_colonFree.
      + intros Hin. vm_compute in Hin.
        repeat (apply elem_of_cons in Hin as [Hin|Hin]; [discriminate Hin|]).
        now apply elem_of_nil in Hin.
    - repeat constructor.
      + apply take_colonFree, hexByte_colonFree.
      + intros Hin. vm_compute in Hin.
        repeat (apply elem_of_cons in Hin as [Hin|Hin]; [discriminate Hin|]).
        now apply elem_of_nil in Hin. }
  split; [exact Hiff|].
  intros Hprefix. apply Hiff. unfold OpenRouter.generateImageHash.
  change (substring image1 0 1000) with (take 1000 image1).
  change (substring image2 0 1000) with (take 1000 image2).
  now rewrite Hprefix.
Qed.

Lemma OpenRouter_cacheKey_by_image_prefix_witness :
  (Mock.photoKey = Mock.photoKey
   <-> OpenRouter.generateImageHash Mock.photo = OpenRouter.generateImageHash Mock.photo)
  /\ (take 1000 Mock.photo = take 1000 Mock.photo -> Mock.photoKey = Mock.photoKey).
Proof.
  refine (OpenRouter_cacheKey_by_image_prefix Mock.photo Mock.photo
            (lit "modern minimalist") (lit "rustic farmhouse")
            Mock.photoKey Mock.photoKey _ _); evaluate.
Defined.

(** X7. In the Firebase client the cache key of a call is decided by the
    first 100 characters of the image data and the first 20 base64
    characters of the prompt: for image data without a colon in that prefix
    (base64 has none), two defined keys are equal exactly when both prefixes
    agree. *)
Theorem Firebase_cacheKey_by_prefixes (image1 image2 prompt1 prompt2 k1 k2 : jsstring) :
  colonFree (take 100 image1) ->
  colonFree (take 100 image2) ->
  Firebase.cacheKey image1 prompt1 = Some k1 ->
  Firebase.cacheKey image2 prompt2 = Some k2 ->
  (k1 = k2
   <-> take 100 image1 = take 100 image2
       /\ take 20 (base64 prompt1) = take 20 (base64 prompt2)).
Proof.
  intros Hc1 Hc2 H1 H2. unfold Firebase.cacheKey in *.
  destruct (btoa prompt1) as [e1|] eqn:He1; [|discriminate].
  destruct (btoa prompt2) as [e2|] eqn:He2; [|discriminate].
  cbn [mbind option_bind] in *. injection H1 as <-. injection H2 as <-.
  rewrite (btoa_Some _ _ He1), (btoa_Some _ _ He2).
  unfold Firebase.generateImageHash.
  change (substring image1 0 100) with (take 100 image1).
  change (substring image2 0 100) with (take 100 image2).
  change (substring (base64 prompt1) 0 20) with (take 20 (base64 prompt1)).
  change (substring (base64 prompt2) 0 20) with (take 20 (base64 prompt2)).
  split.
  - intros Heq. unfold createCacheKey in Heq.
    apply app_inv_head in Heq. apply app_inv_head in Heq.
    apply join_injective in Heq; [now injection Heq | reflexivity | |].
    + repeat constructor; [exact Hc1|].
      apply take_colonFree. apply (base64_colonFree prompt1 0%N 0%N).
    + repeat constructor; [exact Hc2|].
      apply take_colonFree. apply (base64_colonFree prompt2 0%N 0%N).
  - now intros [-> ->].
Qed.

Lemma Firebase_cacheKey_by_prefixes_witness :
  lit "room-redesign:iVBORw0KGgoAAAANSUhEUgAAAAEAAAABCAYAAAAfFcSJAAAADUlEQVR42mNk:TWFrZSB0aGlzIHJvb20g"
  = lit "room-redesign:iVBORw0KGgoAAAANSUhEUgAAAAEAAAABCAYAAAAfFcSJAAAADUlEQVR42mNk:TWFrZSB0aGlzIHJvb20g"
  <-> take 100 Mock.photo = take 100 Mock.photo
      /\ take 20 (base64 (lit "Make this room modern"))
         = take 20 (base64 (lit "Make this room rustic")).
Proof.
  refine (Firebase_cacheKey_by_prefixes Mock.photo Mock.photo
            (lit "Make this room modern") (lit "Make this room rustic") _ _ _ _ _ _).
  - apply take_colonFree. vm_compute. intros Hin.
    repeat (apply elem_of_cons in Hin as [Hin|Hin]; [discriminate Hin|]).
    now apply elem_of_nil in Hin.
  - apply take_colonFree. vm_compute. intros Hin.
    repeat (apply elem_of_cons in Hin as [Hin|Hin]; [discriminate Hin|]).
    now apply elem_of_nil in Hin.
  - evaluate.
  - evaluate.
Defined.

(** ** What the rate limiter guarantees *)

Lemma checkRateLimit_cases (now : Z) (rl : RateLimiter) :
  let kept := filter (fun t => now - t < windowMs rl) (requests rl) in
  (Z.of_nat (length kept) < maxRequests rl
   /\ checkRateLimit now rl
      = (Resolved tt,
         {| requests := kept ++ [now];
            maxRequests := maxRequests rl; windowMs := windowMs rl |}))
  \/ (maxRequests rl <= Z.of_nat (length kept)
      /\ checkRateLimit now rl
         = (Rejected (rateLimitError
              (getWaitTime now
                 {| requests := kept; maxRequests := maxRequests rl; windowMs := windowMs rl |})),
            {| requests := kept; maxRequests := maxRequests rl; windowMs := windowMs rl |})).
Proof.
  intros kept. unfold checkRateLimit, canMakeRequest. fold kept.
  destruct (bool_decide (Z.of_nat (length kept) < maxRequests rl)) eqn:Hok.
  - left. apply bool_decide_eq_true in Hok. now split.
  - right. apply bool_decide_eq_false in Hok. split; [lia | reflexivity].
Qed.

Lemma length_filter_impl (P Q : Z -> Prop) `{!forall t, Decision (P t)}
    `{!forall t, Decision (Q t)} (l : list Z) :
  Forall (fun t => P t -> Q t) l ->
  (length (filter P l) <= length (filter Q l))%nat.
Proof.
  induction 1 as [|t l Ht _ IH]; [reflexivity|].
  rewrite !filter_cons. destruct (decide (P t)) as [HP|HP].
  - destruct (decide (Q t)) as [HQ|HQ]; [cbn; lia | tauto].
  - destruct (decide (Q t)); cbn; lia.
Qed.

Lemma filter_window_twice (last now W : Z) (l : list Z) :
  last <= now ->
  filter (fun t => now - t < W) (filter (fun t => last - t < W) l)
  = filter (fun t => now - t < W) l.
Proof.
  intros Hle. induction l as [|t l IH]; [reflexivity|].
  rewrite !filter_cons. destruct (decide (last - t < W)) as [H1|H1].
  - rewrite filter_cons. destruct (decide (now - t < W)); now rewrite IH.
  - destruct (decide (now - t < W)); [lia | exact IH].
Qed.

Lemma last_cons_default (l : list Z) :
  forall x d : Z, List.last (x :: l) d = List.last l x.
Proof.
  induction l as [|y l IH]; intros x d; [reflexivity|].
  change (List.last (x :: y :: l) d) with (List.last (y :: l) d).
  now rewrite !IH.
Qed.

(** The invariant of a limiter that is only driven through
    [checkRateLimit], at times that do not decrease: it holds exactly the
    admitted requests still inside the window of the latest call, and no
    window of length [W] contains more than the limit of admitted requests. *)
Lemma serveAll_invariant (maxReq W : Z) (times : list Z) :
  0 < W ->
  forall (rl : RateLimiter) (passed : list Z) (last : Z),
    maxRequests rl = maxReq -> windowMs rl = W ->
    requests rl = filter (fun t => last - t < W) passed ->
    Forall (fun t => t <= last) passed ->
    (forall a, Z.of_nat (length (filter (fun t => a <= t < a + W) passed)) <= Z.max 0 maxReq) ->
    nonDecreasing last times ->
    let final := serveAll times rl passed in
    maxRequests (snd final) = maxReq /\ windowMs (snd final) = W
    /\ requests (snd final)
       = filter (fun t => List.last times last - t < W) (fst final)
    /\ Forall (fun t => t <= List.last times last) (fst final)
    /\ (forall a, Z.of_nat (length (filter (fun t => a <= t < a + W) (fst final)))
                  <= Z.max 0 maxReq).
Proof.
  intros HW. induction times as [|now times IH];
    intros rl passed last Hmax Hwin Hreq Hpast Hbound Hsorted final.
  - cbn. repeat split; assumption.
  - destruct Hsorted as [Hnow Hlater].
    assert (Hkept : filter (fun t => now - t < windowMs rl) (requests rl)
                    = filter (fun t => now - t < W) passed).
    { rewrite Hwin, Hreq. now apply filter_window_twice. }
    pose proof (last_cons_default times now last) as Hlast.
    unfold final. rewrite Hlast. cbn [serveAll].
    destruct (checkRateLimit_cases now rl) as [[Hroom ->]|[Hfull ->]].
    + apply IH; cbn [maxRequests windowMs requests]; try assumption.
      * rewrite Hkept, filter_app. f_equal.
        rewrite filter_cons_True by lia. reflexivity.
      * apply Forall_app. split; [|apply Forall_singleton; lia].
        eapply Forall_impl; [exact Hpast|]. cbn. intros t Ht. lia.
      * intros a. rewrite filter_app, length_app.
        destruct (decide (a <= now < a + W)) as [Hin|Hout].
        -- rewrite (filter_cons_True _ now []) by exact Hin. cbn [filter length].
           rewrite Hkept in Hroom.
           pose proof (length_filter_impl (fun t => a <= t < a + W) (fun t => now - t < W)
                         passed) as Hle.
           assert (Himpl : Forall (fun t => a <= t < a + W -> now - t < W) passed).
           { apply Forall_forall. intros t _ Ht. lia. }
           specialize (Hle Himpl). cbn. lia.
        -- rewrite (filter_cons_False _ now []) by exact Hout. cbn [filter length].
           specialize (Hbound a). rewrite Nat.add_0_r. exact Hbound.
    + apply IH; cbn [maxRequests windowMs requests]; try assumption.
      eapply Forall_impl; [exact Hpast|]. cbn. intros t Ht. lia.
Qed.

(** X8. A limiter that starts empty and is only driven through
    [checkRateLimit], under a clock that does not go back: among the requests
    it lets through, no more than [maxRequests] fall into any time window of
    length [windowMs]; and a request is let through exactly when fewer than
    [maxRequests] of the requests let through before it are less than
    [windowMs] old (refused requests do not count). *)
Theorem checkRateLimit_sliding_window (maxReq W t0 : Z) (times : list Z) (a now : Z) :
  0 < W ->
  nonDecreasing t0 times ->
  List.last times t0 <= now ->
  let served :=
    serveAll times {| requests := []; maxRequests := maxReq; windowMs := W |} [] in
  Z.of_nat (length (filter (fun t => a <= t < a + W) (fst served))) <= Z.max 0 maxReq
  /\ (fst (checkRateLimit now (snd served)) = Resolved tt
      <-> Z.of_nat (length (filter (fun t => now - t < W) (fst served))) < maxReq).
Proof.
  intros HW Hsorted Hnow served.
  destruct (serveAll_invariant maxReq W times HW
              {| requests := []; maxRequests := maxReq; windowMs := W |} [] t0)
    as (Hmax & Hwin & Hreq & _ & Hbound); try reflexivity.
  - constructor.
  - intros a'. cbn. lia.
  - exact Hsorted.
  - fold served in Hmax, Hwin, Hreq, Hbound. split; [apply Hbound|].
    assert (Hkept : filter (fun t => now - t < windowMs (snd served)) (requests (snd served))
                    = filter (fun t => now - t < W) (fst served)).
    { rewrite Hwin, Hreq. now apply filter_window_twice. }
    destruct (checkRateLimit_cases now (snd served)) as [[Hroom ->]|[Hfull ->]];
      rewrite Hkept, Hmax in *; cbn [fst]; split; try (intros; reflexivity || lia);
      try discriminate.
Qed.

Lemma checkRateLimit_sliding_window_witness :
  Z.of_nat (length (filter (fun t => 0 <= t < 0 + 1000)
                      (fst (serveAll [0; 100; 200; 1100]
                              {| requests := []; maxRequests := 2; windowMs := 1000 |} []))))
  <= Z.max 0 2.
Proof.
  refine (proj1 (checkRateLimit_sliding_window 2 1000 0 [0; 100; 200; 1100] 0 1100 _ _ _)).
  - lia.
  - cbn. lia.
  - cbn. lia.
Defined.

(** The run of the witness: the third request is refused; the fourth comes
    after the first two have left the window. *)
Example serveAll_run :
  fst (serveAll [0; 100; 200; 1100]
         {| requests := []; maxRequests := 2; windowMs := 1000 |} [])
  = [0; 100; 1100].
Proof. reflexivity. Qed.

(** ** The wait the limiter announces *)

Lemma oldest_is_least (t : Z) (ts : list Z) :
  foldr Z.min t ts <= t
  /\ Forall (fun x => foldr Z.min t ts <= x) ts
  /\ foldr Z.min t ts ∈ t :: ts.
Proof.
  induction ts as [|x ts (IH1 & IH2 & IH3)]; cbn.
  - repeat split; [lia | constructor | left].
  - split; [lia|]. split.
    + constructor; [lia|]. eapply Forall_impl; [exact IH2|]. cbn. intros y Hy. lia.
    + destruct (Z.min_spec x (foldr Z.min t ts)) as [[_ ->]|[_ ->]].
      * right. left.
      * apply elem_of_cons in IH3 as [->|IH3]; [left | right; now right].
Qed.

(** X9. When a limiter with [maxRequests >= 1] that holds at most
    [maxRequests] timestamps refuses a request, the request is not recorded,
    the error is the retryable [RATE_LIMIT_EXCEEDED] with status 429, and
    the wait it computes is exact: it is positive, the limiter keeps
    refusing at every time before it has elapsed, and lets a request through
    as soon as it has. *)
Theorem getWaitTime_is_exact (now : Z) (rl rl1 : RateLimiter) (e : APIError) :
  1 <= maxRequests rl ->
  Z.of_nat (length (requests rl)) <= maxRequests rl ->
  checkRateLimit now rl = (Rejected e, rl1) ->
  let wait := getWaitTime now rl1 in
  e = rateLimitError wait
  /\ code e = Some (lit "RATE_LIMIT_EXCEEDED") /\ status e = Some 429 /\ retryable e = true
  /\ requests rl1 = filter (fun t => now - t < windowMs rl) (requests rl)
  /\ 0 < wait
  /\ (forall t, now <= t < now + wait ->
        exists e', checkRateLimit t rl1 = (Rejected e', rl1))
  /\ fst (checkRateLimit (now + wait) rl1) = Resolved tt.
Proof.
  intros Hone Hheld Hrefused wait.
  destruct (checkRateLimit_cases now rl) as [[_ Hrun]|[Hfull Hrun]];
    rewrite Hrun in Hrefused; [discriminate|].
  injection Hrefused as <- <-.
  pose proof (length_filter (fun t => now - t < windowMs rl) (requests rl)) as Hshorter.
  assert (Hwithin : Forall (fun t => now - t < windowMs rl)
                      (filter (fun t => now - t < windowMs rl) (requests rl))).
  { apply Forall_forall. intros t Ht. now apply list_elem_of_filter in Ht as [Ht _]. }
  destruct (filter (fun t => now - t < windowMs rl) (requests rl)) as [|t0 ts] eqn:Hkept;
    [cbn in Hfull; lia|].
  destruct (oldest_is_least t0 ts) as (Hle0 & Hleast & Hmember).
  assert (Hall : Forall (fun x => foldr Z.min t0 ts <= x) (t0 :: ts))
    by (constructor; assumption).
  assert (Holdest : now - foldr Z.min t0 ts < windowMs rl).
  { rewrite Forall_forall in Hwithin. now apply Hwithin. }
  assert (Hwait : wait = windowMs rl - (now - foldr Z.min t0 ts)).
  { unfold wait, getWaitTime. cbn [requests windowMs]. lia. }
  split; [reflexivity|]. split; [reflexivity|]. split; [reflexivity|]. split; [reflexivity|].
  split; [reflexivity|]. split; [lia|]. split.
  - intros t Ht.
    destruct (checkRateLimit_cases t
                {| requests := t0 :: ts; maxRequests := maxRequests rl; windowMs := windowMs rl |})
      as [[Hroom _]|[_ Hagain]]; cbn [requests maxRequests windowMs] in *.
    + rewrite filter_keeps_all in Hroom; [cbn in *; lia|].
      eapply Forall_impl; [exact Hall|]. cbn. intros x Hx. lia.
    + rewrite filter_keeps_all in Hagain; [eexists; exact Hagain|].
      eapply Forall_impl; [exact Hall|]. cbn. intros x Hx. lia.
  - destruct (checkRateLimit_cases (now + wait)
                {| requests := t0 :: ts; maxRequests := maxRequests rl; windowMs := windowMs rl |})
      as [[_ ->]|[Hstill _]]; cbn [requests maxRequests windowMs] in *; [reflexivity|].
    pose proof (length_filter_lt (fun x => now + wait - x < windowMs rl) (t0 :: ts)
                  (foldr Z.min t0 ts) Hmember) as Hdrop.
    assert (Hgone : ~ now + wait - foldr Z.min t0 ts < windowMs rl) by lia.
    specialize (Hdrop Hgone). cbn in *. lia.
Qed.

Lemma getWaitTime_is_exact_witness :
  fst (checkRateLimit (30000 + getWaitTime 30000
                                 {| requests := [1000; 2000; 3000];
                                    maxRequests := 3; windowMs := 60000 |})
         {| requests := [1000; 2000; 3000]; maxRequests := 3; windowMs := 60000 |})
  = Resolved tt.
Proof.
  refine (proj2 (proj2 (proj2 (proj2 (proj2 (proj2 (proj2
            (getWaitTime_is_exact 30000
               {| requests := [1000; 2000; 3000]; maxRequests := 3; windowMs := 60000 |}
               {| requests := [1000; 2000; 3000]; maxRequests := 3; windowMs := 60000 |}
               (rateLimitError 31000) _ _ _)))))))).
  - cbn. lia.
  - cbn. lia.
  - reflexivity.
Defined.

(** The wait of that limiter is 31 seconds, and so says the message. *)
Example getWaitTime_sample :
  getWaitTime 30000 {| requests := [1000; 2000; 3000]; maxRequests := 3; windowMs := 60000 |}
  = 31000
  /\ message (rateLimitError 31000)
     = lit "Rate limit exceeded. Please wait 31 seconds before trying again.".
Proof. split; reflexivity. Qed.

(** ** The OpenRouter client without an API key *)

Lemma getApiKey_missing (env : OpenRouter.Environment) :
  VITE_API_KEY_missing env ->
  OpenRouter.getApiKey env = Rejected OpenRouter.missingApiKey.
Proof. unfold OpenRouter.getApiKey. now intros [-> | ->]. Qed.

Lemma generateImage_missing_key (env : OpenRouter.Environment)
    (base64ImageData mimeType optimizedPrompt : jsstring) (st : Runtime) :
  VITE_API_KEY_missing env ->
  OpenRouter.generateImage env base64ImageData mimeType optimizedPrompt st
  = (Rejected (APIErr OpenRouter.missingApiKey), st).
Proof.
  intros Hmissing. unfold OpenRouter.generateImage, OpenRouter.requestImage.
  now rewrite (getApiKey_missing env Hmissing).
Qed.

Lemma incrementDailyUsage_frame (st : Runtime) :
  cache (snd (OpenRouter.incrementDailyUsage st)) = cache st
  /\ rateLimiter (snd (OpenRouter.incrementDailyUsage st)) = rateLimiter st
  /\ netCalls (snd (OpenRouter.incrementDailyUsage st)) = netCalls st
  /\ clock (snd (OpenRouter.incrementDailyUsage st)) = clock st.
Proof.
  unfold OpenRouter.incrementDailyUsage.
  destruct (getDailyUsage_frame st) as (H1 & H2 & H3 & H4).
  destruct (OpenRouter.getDailyUsage st) as [usage st1]. now cbn in *.
Qed.

Lemma cacheResult_netCalls (config : RedesignConfig) (key v : jsstring) (st : Runtime) :
  netCalls (snd (cacheResult config key v st)) = netCalls st.
Proof.
  unfold cacheResult.
  now destruct (config_useCache config && negb (config_cacheTimeMs config =? 0)).
Qed.

(** [redesignRoom] makes network calls only inside the retried operation. *)
Lemma OpenRouter_netCalls_only_in_retry (env : OpenRouter.Environment)
    (base64ImageData mimeType prompt : jsstring) (options : RedesignOptions) (st : Runtime) :
  (forall s options', 
      netCalls (snd (withRetry sleep
                       (OpenRouter.generateImage env base64ImageData mimeType
                          (OpenRouter.createOptimizedPrompt prompt)) options' s))
      = netCalls s) ->
  netCalls (snd (OpenRouter.redesignRoom env base64ImageData mimeType prompt options st))
  = netCalls st.
Proof.
  intros Hretry. unfold OpenRouter.redesignRoom, bind.
  destruct (getDailyUsage_frame st) as (_ & _ & _ & Hnet1).
  destruct (checkDailyQuota_cases env st) as [[_ ->]|[_ ->]]; [|exact Hnet1].
  destruct (OpenRouter.cacheKey base64ImageData prompt) as [key|]; [|exact Hnet1].
  set (config := spread OpenRouter.DEFAULT_REDESIGN_OPTIONS options).
  destruct (lookup_frame (config_useCache config) key (snd (OpenRouter.getDailyUsage st)))
    as (_ & _ & _ & Hnet2 & _).
  destruct ((if config_useCache config then cachedResult key else ret None)
              (snd (OpenRouter.getDailyUsage st))) as [[hit|x] st2];
    cbn [snd] in *; [|congruence].
  destruct hit as [cached|]; [cbn; congruence|].
  destruct (awaitRateLimit_frame st2) as (_ & _ & Hnet3 & _).
  destruct (OpenRouter.awaitRateLimit st2) as [[u|x] st3]; cbn [snd] in *; [|congruence].
  specialize (Hretry st3 (onlyMaxAttempts (config_maxRetries config))).
  destruct (withRetry sleep _ _ st3) as [[v|x] st4]; cbn [snd] in *; [|congruence].
  destruct (incrementDailyUsage_frame st4) as (_ & _ & Hnet5 & _).
  destruct (OpenRouter.incrementDailyUsage st4) as [[u5|x5] st5]; cbn [snd] in *;
    [|congruence].
  pose proof (cacheResult_netCalls config key v st5) as Hnet6.
  destruct (cacheResult config key v st5) as [[u6|x6] st6]; cbn in *; congruence.
Qed.

(** X10. Without an API key ([VITE_API_KEY] unset or empty) the retried
    operation rejects at once with the non-retryable [MISSING_API_KEY] and
    leaves the state as it is, whatever the number of attempts allowed;
    [redesignRoom] never makes a network call, and on an empty cache it
    never resolves. *)
Theorem OpenRouter_without_api_key (env : OpenRouter.Environment)
    (base64ImageData mimeType prompt : jsstring) (options : RedesignOptions) (st : Runtime) :
  VITE_API_KEY_missing env ->
  (forall (R : Z) (s : Runtime),
      1 <= R ->
      withRetry sleep
        (OpenRouter.generateImage env base64ImageData mimeType
           (OpenRouter.createOptimizedPrompt prompt)) (onlyMaxAttempts R) s
      = (Rejected (ThrownError (APIErr OpenRouter.missingApiKey)), s))
  /\ netCalls (snd (OpenRouter.redesignRoom env base64ImageData mimeType prompt options st))
     = netCalls st
  /\ (cache st = ∅ ->
      exists x, fst (OpenRouter.redesignRoom env base64ImageData mimeType prompt options st)
                = Rejected x).
Proof.
  intros Hmissing.
  assert (Hop : forall s,
             OpenRouter.generateImage env base64ImageData mimeType
               (OpenRouter.createOptimizedPrompt prompt) s
             = (Rejected (APIErr OpenRouter.missingApiKey), s))
    by (intros s; now apply generateImage_missing_key).
  split; [|split].
  - intros R s HR. unfold withRetry.
    change (maxAttempts (mergeRetryOptions (onlyMaxAttempts R))) with R.
    destruct (Z.to_nat R) as [|n] eqn:Hn; [lia|].
    cbn [attempts]. now rewrite Hop.
  - apply OpenRouter_netCalls_only_in_retry. intros s options'.
    apply (withRetry_frame netCalls sleep); [|reflexivity].
    intros s0. now rewrite Hop.
  - intros Hempty.
    destruct (OpenRouter.redesignRoom env base64ImageData mimeType prompt options st)
      as [[r|x] st'] eqn:Hrun; [|now exists x].
    exfalso. unfold OpenRouter.redesignRoom, bind in Hrun.
    destruct (getDailyUsage_frame st) as (_ & Hcache1 & _ & _).
    destruct (checkDailyQuota_cases env st) as [[_ Hq]|[_ Hq]];
      rewrite Hq in Hrun; [|discriminate].
    destruct (OpenRouter.cacheKey base64ImageData prompt) as [key|]; [|discriminate].
    set (config := spread OpenRouter.DEFAULT_REDESIGN_OPTIONS options) in *.
    pose proof (lookup_empty_cache (config_useCache config) key
                  (snd (OpenRouter.getDailyUsage st)) ltac:(congruence)) as Hmiss.
    destruct ((if config_useCache config then cachedResult key else ret None)
                (snd (OpenRouter.getDailyUsage st))) as [hit st2].
    cbn [fst] in Hmiss. subst hit.
    destruct (OpenRouter.awaitRateLimit st2) as [[u|x] st3]; [|discriminate].
    unfold withRetry in Hrun.
    destruct (Z.to_nat _) as [|n] in Hrun; cbn [attempts] in Hrun; [discriminate|].
    rewrite Hop in Hrun. discriminate.
Qed.

Lemma OpenRouter_without_api_key_witness :
  VITE_API_KEY_missing (unconfigured 5)
  /\ netCalls (snd (OpenRouter.redesignRoom (unconfigured 5) Mock.photo (lit "image/png")
                      (lit "modern minimalist") noOptions (Mock.loaded Mock.morning)))
     = O.
Proof.
  assert (Hmissing : VITE_API_KEY_missing (unconfigured 5)) by (left; reflexivity).
  exact (conj Hmissing
           (proj1 (proj2 (OpenRouter_without_api_key (unconfigured 5) Mock.photo
                            (lit "image/png") (lit "modern minimalist") noOptions
                            (Mock.loaded Mock.morning) Hmissing)))).
Defined.

(** ** HTTP statuses and the number of requests sent *)

Section HttpStatus.
Variable env : OpenRouter.Environment.
Variable apiKey : jsstring.
Variables base64ImageData mimeType optimizedPrompt : jsstring.
Variable statusOf : nat -> Z.
Hypothesis key_set : OpenRouter.getApiKey env = Resolved apiKey.
Hypothesis answers :
  forall n request, exists errorMessage,
    OpenRouter.response (OpenRouter.openRouter env n request)
    = OpenRouter.NotOk (statusOf n) errorMessage.


End HttpStatus.



(** ** A request repeated after it succeeded *)

Lemma cachedResult_resolved_inv (key r : jsstring) (st st2 : Runtime) :
  cachedResult key st = (Resolved (Some r), st2) ->
  st2 = st
  /\ truthy r = true
  /\ exists entry, cache st !! key = Some entry /\ data entry = r
                   /\ clock st - timestamp entry <= ttl entry.
Proof.
  unfold cachedResult, Cache.get. intros Hrun.
  destruct (cache st !! key) as [entry|] eqn:Hkey; [|discriminate].
  destruct (clock st - timestamp entry >? ttl entry) eqn:Hold; [discriminate|].
  destruct (truthy (data entry)) eqn:Htruthy; [|discriminate].
  injection Hrun as <- <-. rewrite withCache_same.
  split; [reflexivity|]. split; [exact Htruthy|].
  exists entry. split; [reflexivity|]. split; [reflexivity | lia].
Qed.

Lemma cacheResult_stores (config : RedesignConfig) (key r : jsstring) (st : Runtime) :
  config_useCache config = true ->
  0 < config_cacheTimeMs config ->
  cacheResult config key r st
  = (Resolved tt,
     withCache (Cache.set (clock st) key r (config_cacheTimeMs config) (cache st)) st).
Proof.
  intros Huse Httl. unfold cacheResult. rewrite Huse.
  destruct (config_cacheTimeMs config =? 0) eqn:Hzero; [lia | reflexivity].
Qed.

(** What a resolved [redesignRoom] with caching leaves behind: the result
    cached, fresh, under the key of the request, and a usage item of the
    current day. *)
Lemma OpenRouter_resolved_leaves_cached (env : OpenRouter.Environment)
    (base64ImageData mimeType prompt key r : jsstring) (options : RedesignOptions)
    (st st1 : Runtime) :
  config_useCache (spread OpenRouter.DEFAULT_REDESIGN_OPTIONS options) = true ->
  0 < config_cacheTimeMs (spread OpenRouter.DEFAULT_REDESIGN_OPTIONS options) ->
  OpenRouter.cacheKey base64ImageData prompt = Some key ->
  OpenRouter.redesignRoom env base64ImageData mimeType prompt options st = (Resolved r, st1) ->
  (exists entry, cache st1 !! key = Some entry /\ data entry = r
                 /\ clock st1 - timestamp entry <= ttl entry)
  /\ (exists usage, storedUsage st1 = Some usage /\ date usage = Web.isoDate (clock st1)).
Proof.
  intros Huse Httl Hkey Hrun. unfold OpenRouter.redesignRoom, bind in Hrun.
  rewrite Hkey in Hrun.
  destruct (checkDailyQuota_cases env st) as [[_ Hq]|[_ Hq]];
    rewrite Hq in Hrun; [|discriminate].
  set (config := spread OpenRouter.DEFAULT_REDESIGN_OPTIONS options) in *.
  rewrite Huse in Hrun.
  destruct (cachedResult key (snd (OpenRouter.getDailyUsage st))) as [[hit|x] st2] eqn:Hlookup;
    [|discriminate].
  destruct hit as [cached|].
  - injection Hrun as <- <-.
    destruct (cachedResult_resolved_inv _ _ _ _ Hlookup) as (-> & _ & Hentry).
    split; [exact Hentry|].
    exists (fst (OpenRouter.getDailyUsage st)).
    split; [apply getDailyUsage_stored|].
    rewrite getDailyUsage_today. f_equal. symmetry. apply getDailyUsage_frame.
  - destruct (OpenRouter.awaitRateLimit st2) as [[u|x] st3]; [|discriminate].
    destruct (withRetry sleep _ _ st3) as [[v|x] st4]; [|discriminate].
    unfold OpenRouter.incrementDailyUsage in Hrun.
    pose proof (getDailyUsage_today st4) as Htoday.
    destruct (getDailyUsage_frame st4) as (Hclock & _).
    destruct (OpenRouter.getDailyUsage st4) as [usage st5]. cbn [fst snd] in *.
    rewrite (cacheResult_stores config key v _ Huse Httl) in Hrun.
    injection Hrun as <- <-. cbn. split.
    + eexists. split; [apply lookup_insert_eq|].
      split; [reflexivity|]. subst config. cbn in *. lia.
    + eexists. split; [reflexivity|]. cbn. congruence.
Qed.

(** X12. Once [redesignRoom] of the OpenRouter client has resolved with a
    non-empty result, caching being enabled with a positive [cacheTimeMs],
    the same request made again right away (same image and prompt; any MIME
    type, endpoint and retry setting) resolves with the same result and
    changes nothing: no network call, no request recorded by the limiter, no
    usage counted; provided the day's counter is still below the limit. *)
Theorem OpenRouter_repeat_is_served_from_cache (env env' : OpenRouter.Environment)
    (base64ImageData mimeType mimeType' prompt r : jsstring)
    (options options' : RedesignOptions) (st st1 : Runtime) :
  config_useCache (spread OpenRouter.DEFAULT_REDESIGN_OPTIONS options) = true ->
  0 < config_cacheTimeMs (spread OpenRouter.DEFAULT_REDESIGN_OPTIONS options) ->
  config_useCache (spread OpenRouter.DEFAULT_REDESIGN_OPTIONS options') = true ->
  OpenRouter.redesignRoom env base64ImageData mimeType prompt options st = (Resolved r, st1) ->
  truthy r = true ->
  (forall usage, storedUsage st1 = Some usage ->
                 count usage < OpenRouter.DAILY_REQUEST_LIMIT env') ->
  OpenRouter.redesignRoom env' base64ImageData mimeType' prompt options' st1
  = (Resolved r, st1).
Proof.
  intros Huse Httl Huse' Hrun Htruthy Hquota.
  destruct (OpenRouter.cacheKey base64ImageData prompt) as [key|] eqn:Hkey.
  2:{ unfold OpenRouter.redesignRoom, bind in Hrun. rewrite Hkey in Hrun.
      destruct (OpenRouter.checkDailyQuota env st) as [[u|x] s]; discriminate. }
  destruct (OpenRouter_resolved_leaves_cached _ _ _ _ _ _ _ _ _ Huse Httl Hkey Hrun)
    as ((entry & Hentry & Hdata & Hfresh) & (usage & Husage & Hday)).
  unfold OpenRouter.redesignRoom, bind. rewrite Hkey.
  pose proof (getDailyUsage_same_day st1 usage Husage Hday) as Hread.
  rewrite checkDailyQuota_ok; rewrite Hread; cbn [fst snd]; [|now apply Hquota].
  rewrite Huse'. subst r.
  now rewrite (cachedResult_hit key entry st1 Hentry Hfresh Htruthy).
Qed.

Lemma OpenRouter_repeat_is_served_from_cache_witness :
  OpenRouter.redesignRoom (Mock.openRouterDown 5) Mock.photo (lit "image/jpeg")
    (lit "modern minimalist") noOptions Mock.afterFirstRequest
  = (Resolved Mock.drawing, Mock.afterFirstRequest).
Proof.
  apply (OpenRouter_repeat_is_served_from_cache (Mock.openRouterUp 5 Mock.drawing)
           (Mock.openRouterDown 5) Mock.photo (lit "image/png") (lit "image/jpeg")
           (lit "modern minimalist") Mock.drawing noOptions noOptions
           (Mock.loaded Mock.morning) Mock.afterFirstRequest).
  - reflexivity.
  - reflexivity.
  - reflexivity.
  - evaluate.
  - reflexivity.
  - intros usage [= <-]. vm_compute. reflexivity.
Defined.

Lemma Firebase_resolved_leaves_cached (env : Firebase.Environment)
    (base64ImageData mimeType userPrompt key r : jsstring) (options : RedesignOptions)
    (st st1 : Runtime) :
  config_useCache (spread Firebase.DEFAULT_REDESIGN_OPTIONS options) = true ->
  0 < config_cacheTimeMs (spread Firebase.DEFAULT_REDESIGN_OPTIONS options) ->
  Firebase.cacheKey base64ImageData userPrompt = Some key ->
  Firebase.redesignRoom env base64ImageData mimeType userPrompt options st = (Resolved r, st1) ->
  exists entry, cache st1 !! key = Some entry /\ data entry = r
                /\ clock st1 - timestamp entry <= ttl entry.
Proof.
  intros Huse Httl Hkey Hrun. unfold Firebase.redesignRoom, bind in Hrun.
  rewrite Hkey in Hrun.
  set (config := spread Firebase.DEFAULT_REDESIGN_OPTIONS options) in *.
  rewrite Huse in Hrun.
  destruct (cachedResult key st) as [[hit|x] st2] eqn:Hlookup; [|discriminate].
  destruct hit as [cached|].
  - injection Hrun as <- <-.
    now destruct (cachedResult_resolved_inv _ _ _ _ Hlookup) as (-> & _ & Hentry).
  - destruct (withRetry sleep _ _ st2) as [[v|x] st4]; [|discriminate].
    rewrite (cacheResult_stores config key v _ Huse Httl) in Hrun.
    injection Hrun as <- <-. cbn.
    eexists. split; [apply lookup_insert_eq|].
    split; [reflexivity|]. subst config. cbn in *. lia.
Qed.

(** X13. The same for the Firebase client, which has no quota of its own:
    once [redesignRoom] has resolved with a non-empty design, caching being
    enabled with a positive [cacheTimeMs], the same image and prompt
    requested again right away resolve with the same design and leave the
    state as it is: the backend is not called. *)
Theorem Firebase_repeat_is_served_from_cache (env env' : Firebase.Environment)
    (base64ImageData mimeType mimeType' userPrompt r : jsstring)
    (options options' : RedesignOptions) (st st1 : Runtime) :
  config_useCache (spread Firebase.DEFAULT_REDESIGN_OPTIONS options) = true ->
  0 < config_cacheTimeMs (spread Firebase.DEFAULT_REDESIGN_OPTIONS options) ->
  config_useCache (spread Firebase.DEFAULT_REDESIGN_OPTIONS options') = true ->
  Firebase.redesignRoom env base64ImageData mimeType userPrompt options st = (Resolved r, st1) ->
  truthy r = true ->
  Firebase.redesignRoom env' base64ImageData mimeType' userPrompt options' st1
  = (Resolved r, st1).
Proof.
  intros Huse Httl Huse' Hrun Htruthy.
  destruct (Firebase.cacheKey base64ImageData userPrompt) as [key|] eqn:Hkey.
  2:{ unfold Firebase.redesignRoom, bind in Hrun. rewrite Hkey in Hrun. discriminate. }
  destruct (Firebase_resolved_leaves_cached _ _ _ _ _ _ _ _ _ Huse Httl Hkey Hrun)
    as (entry & Hentry & Hdata & Hfresh).
  unfold Firebase.redesignRoom, bind. rewrite Hkey, Huse'. subst r.
  now rewrite (cachedResult_hit key entry st1 Hentry Hfresh Htruthy).
Qed.

Lemma Firebase_repeat_is_served_from_cache_witness :
  let st1 := snd (Firebase.redesignRoom (firebaseUp Mock.drawing) Mock.photo (lit "image/png")
                    (lit "Make this room modern") noOptions (Mock.loaded Mock.morning)) in
  Firebase.redesignRoom Mock.firebaseDown Mock.photo (lit "image/jpeg")
    (lit "Make this room modern") noOptions st1
  = (Resolved Mock.drawing, st1).
Proof.
  apply (Firebase_repeat_is_served_from_cache (firebaseUp Mock.drawing) Mock.firebaseDown
           Mock.photo (lit "image/png") (lit "image/jpeg") (lit "Make this room modern")
           Mock.drawing noOptions noOptions (Mock.loaded Mock.morning)).
  - reflexivity.
  - reflexivity.
  - reflexivity.
  - evaluate.
  - reflexivity.
Defined.

(** ** Requests that opt out of the cache *)

Section Commuting.
Context {St T : Type}.
Variable swap : St -> St.
Variable timer : Z -> St -> St.
Variable operation : Async St JsError T.
Variable config : RetryOptions.
Hypothesis operation_commutes :
  forall s, operation (swap s) = (fst (operation s), swap (snd (operation s))).
Hypothesis timer_commutes : forall ms s, timer ms (swap s) = swap (timer ms s).

Lemma attempts_commutes (n : nat) :
  forall (a : Z) (lastError : JsThrown) (s : St),
    attempts timer operation config n a lastError (swap s)
    = (fst (attempts timer operation config n a lastError s),
       swap (snd (attempts timer operation config n a lastError s))).
Proof.
  induction n as [|n IH]; intros a lastError s; [reflexivity|].
  cbn [attempts]. rewrite operation_commutes.
  destruct (operation s) as [[v|e] s1]; cbn [fst snd]; [reflexivity|].
  destruct (negb (isRetryableError e) || (a =? maxAttempts config)); [reflexivity|].
  now rewrite timer_commutes, IH.
Qed.
End Commuting.

Lemma getDailyUsage_withCache (c : gmap jsstring (CacheEntry jsstring)) (st : Runtime) :
  OpenRouter.getDailyUsage (withCache c st)
  = (fst (OpenRouter.getDailyUsage st), withCache c (snd (OpenRouter.getDailyUsage st))).
Proof.
  unfold OpenRouter.getDailyUsage. cbn [withCache storedUsage clock].
  destruct (storedUsage st) as [usage|]; [|reflexivity].
  now destruct (decide (date usage = Web.isoDate (clock st))).
Qed.

Lemma generateImage_withCache (env : OpenRouter.Environment)
    (base64ImageData mimeType optimizedPrompt : jsstring)
    (c : gmap jsstring (CacheEntry jsstring)) (st : Runtime) :
  OpenRouter.generateImage env base64ImageData mimeType optimizedPrompt (withCache c st)
  = (fst (OpenRouter.generateImage env base64ImageData mimeType optimizedPrompt st),
     withCache c
       (snd (OpenRouter.generateImage env base64ImageData mimeType optimizedPrompt st))).
Proof.
  unfold OpenRouter.generateImage, OpenRouter.requestImage. cbn [withCache netCalls].
  destruct (OpenRouter.getApiKey env) as [apiKey|e]; [|reflexivity].
  destruct (OpenRouter.response _) as [msg| |httpStatus errorMessage|content picture];
    try reflexivity.
  destruct content as [[|ch content]|]; try reflexivity.
  destruct picture; reflexivity.
Qed.

Lemma generateDesign_withCache (env : Firebase.Environment)
    (base64ImageData mimeType userPrompt : jsstring)
    (c : gmap jsstring (CacheEntry jsstring)) (st : Runtime) :
  Firebase.generateDesign env base64ImageData mimeType userPrompt (withCache c st)
  = (fst (Firebase.generateDesign env base64ImageData mimeType userPrompt st),
     withCache c (snd (Firebase.generateDesign env base64ImageData mimeType userPrompt st))).
Proof.
  unfold Firebase.generateDesign, Firebase.requestDesign. cbn [withCache netCalls].
  destruct (Firebase.result _) as [errorCode|success suggestions picture]; [reflexivity|].
  destruct (negb success || negb (truthy suggestions)); [reflexivity|].
  destruct picture; reflexivity.
Qed.

(** X14. With [useCache: false] the cache plays no part in [redesignRoom],
    in either client: run on any other cache contents, the call settles the
    same way and leaves the same state, the cache apart, which it hands back
    as it found it. *)
Theorem redesignRoom_useCache_false_ignores_cache (openRouter : OpenRouter.Environment)
    (firebase : Firebase.Environment) (base64ImageData mimeType prompt : jsstring)
    (options : RedesignOptions) (c : gmap jsstring (CacheEntry jsstring)) (st : Runtime) :
  useCache options = Some false ->
  let viaOpenRouter := OpenRouter.redesignRoom openRouter base64ImageData mimeType prompt options in
  let viaFirebase := Firebase.redesignRoom firebase base64ImageData mimeType prompt options in
  viaOpenRouter (withCache c st) = (fst (viaOpenRouter st), withCache c (snd (viaOpenRouter st)))
  /\ viaFirebase (withCache c st) = (fst (viaFirebase st), withCache c (snd (viaFirebase st)))
  /\ cache (snd (viaOpenRouter st)) = cache st
  /\ cache (snd (viaFirebase st)) = cache st.
Proof.
  intros Hoff viaOpenRouter viaFirebase.
  assert (Hopen : forall c0,
             viaOpenRouter (withCache c0 st)
             = (fst (viaOpenRouter st), withCache c0 (snd (viaOpenRouter st)))).
  { intros c0. subst viaOpenRouter viaFirebase. unfold OpenRouter.redesignRoom, bind.
    set (config := spread OpenRouter.DEFAULT_REDESIGN_OPTIONS options).
    assert (Hcfg : config_useCache config = false)
      by (unfold config, spread; now rewrite Hoff).
    rewrite Hcfg.
    unfold OpenRouter.checkDailyQuota. rewrite getDailyUsage_withCache.
    destruct (OpenRouter.getDailyUsage st) as [usage st1]. cbn [fst snd].
    destruct (count usage >=? OpenRouter.DAILY_REQUEST_LIMIT openRouter); [reflexivity|].
    destruct (OpenRouter.cacheKey base64ImageData prompt) as [key|]; [|reflexivity].
    cbn [ret].
    unfold OpenRouter.awaitRateLimit. cbn [withCache clock rateLimiter].
    destruct (checkRateLimit (clock st1) (rateLimiter st1)) as [[u|e] rl]; [|reflexivity].
    change (withRateLimiter rl (withCache c0 st1)) with (withCache c0 (withRateLimiter rl st1)).
    unfold withRetry.
    rewrite (attempts_commutes (withCache c0) sleep _ _
               (generateImage_withCache openRouter base64ImageData mimeType _ c0)
               (fun ms s => eq_refl)).
    destruct (attempts sleep _ _ _ 1 ThrownUndefined (withRateLimiter rl st1))
      as [[v|x] st4]; cbn [fst snd]; [|reflexivity].
    unfold OpenRouter.incrementDailyUsage. rewrite getDailyUsage_withCache.
    destruct (OpenRouter.getDailyUsage st4) as [usage4 st5]. cbn [fst snd].
    unfold cacheResult. rewrite Hcfg. reflexivity. }
  assert (Hfire : forall c0,
             viaFirebase (withCache c0 st)
             = (fst (viaFirebase st), withCache c0 (snd (viaFirebase st)))).
  { intros c0. subst viaOpenRouter viaFirebase. unfold Firebase.redesignRoom, bind.
    set (config := spread Firebase.DEFAULT_REDESIGN_OPTIONS options).
    assert (Hcfg : config_useCache config = false)
      by (unfold config, spread; now rewrite Hoff).
    rewrite Hcfg.
    destruct (Firebase.cacheKey base64ImageData prompt) as [key|]; [|reflexivity].
    cbn [ret].
    unfold withRetry.
    rewrite (attempts_commutes (withCache c0) sleep _ _
               (generateDesign_withCache firebase base64ImageData mimeType _ c0)
               (fun ms s => eq_refl)).
    destruct (attempts sleep _ _ _ 1 ThrownUndefined st) as [[v|x] st4];
      cbn [fst snd]; [|reflexivity].
    unfold cacheResult. rewrite Hcfg. reflexivity. }
  split; [apply Hopen|]. split; [apply Hfire|]. split.
  - specialize (Hopen (cache st)). rewrite withCache_same in Hopen.
    destruct (viaOpenRouter st) as [r st']. cbn [fst snd] in *.
    injection Hopen as Hst. now rewrite Hst at 1.
  - specialize (Hfire (cache st)). rewrite withCache_same in Hfire.
    destruct (viaFirebase st) as [r st']. cbn [fst snd] in *.
    injection Hfire as Hst. now rewrite Hst at 1.
Qed.

Lemma redesignRoom_useCache_false_ignores_cache_witness :
  cache (snd (OpenRouter.redesignRoom (Mock.openRouterUp 5 Mock.drawing) Mock.photo
                (lit "image/png") (lit "modern minimalist") withoutCache
                (Mock.dayWithCached 0 Mock.photoKey)))
  = cache (Mock.dayWithCached 0 Mock.photoKey).
Proof.
  exact (proj1 (proj2 (proj2
           (redesignRoom_useCache_false_ignores_cache (Mock.openRouterUp 5 Mock.drawing)
              Mock.firebaseDown Mock.photo (lit "image/png") (lit "modern minimalist")
              withoutCache ∅ (Mock.dayWithCached 0 Mock.photoKey) eq_refl)))).
Defined.

(** ** The usage counter over a day *)

Lemma incrementDailyUsage_then_read (st : Runtime) :
  OpenRouter.getDailyUsage (snd (OpenRouter.incrementDailyUsage st))
  = ({| date := Web.isoDate (clock st);
        count := count (fst (OpenRouter.getDailyUsage st)) + 1 |},
     snd (OpenRouter.incrementDailyUsage st)).
Proof.
  unfold OpenRouter.incrementDailyUsage.
  pose proof (getDailyUsage_today st) as Htoday.
  destruct (getDailyUsage_frame st) as (Hclock & _).
  destruct (OpenRouter.getDailyUsage st) as [usage st1]. cbn [fst snd] in *.
  rewrite <- Htoday. apply getDailyUsage_same_day; [reflexivity|].
  cbn. congruence.
Qed.

(** X15. The day's usage counter: a missing item, or one of another day,
    reads as zero requests; [k] calls of [incrementDailyUsage] raise what
    [getDailyUsage] reads by exactly [k], under today's date; and
    [checkDailyQuota] then passes exactly when that count is below
    [DAILY_REQUEST_LIMIT]. Counting touches neither the clock, the cache,
    the limiter nor the network. *)
Theorem daily_usage_counts (env : OpenRouter.Environment) (st : Runtime) (k : nat) :
  let before := fst (OpenRouter.getDailyUsage st) in
  let counted := countRequests k st in
  fst (OpenRouter.getDailyUsage counted)
  = {| date := Web.isoDate (clock st); count := count before + Z.of_nat k |}
  /\ ((forall usage, storedUsage st = Some usage -> date usage <> Web.isoDate (clock st)) ->
      count before = 0)
  /\ (fst (OpenRouter.checkDailyQuota env counted) = Resolved tt
      <-> count before + Z.of_nat k < OpenRouter.DAILY_REQUEST_LIMIT env)
  /\ clock counted = clock st /\ cache counted = cache st
  /\ rateLimiter counted = rateLimiter st /\ netCalls counted = netCalls st.
Proof.
  intros before counted.
  assert (Hread : fst (OpenRouter.getDailyUsage counted)
                  = {| date := Web.isoDate (clock st); count := count before + Z.of_nat k |}
                  /\ clock counted = clock st /\ cache counted = cache st
                  /\ rateLimiter counted = rateLimiter st /\ netCalls counted = netCalls st).
  { subst counted. induction k as [|k IH].
    - cbn [countRequests]. repeat split; try reflexivity.
      pose proof (getDailyUsage_today st) as Htoday. subst before.
      destruct (fst (OpenRouter.getDailyUsage st)) as [d n]. cbn in *.
      rewrite Htoday. f_equal. lia.
    - destruct IH as (IH & Hclock & Hcache & Hrl & Hnet). cbn [countRequests].
      rewrite incrementDailyUsage_then_read, IH. cbn [fst count].
      destruct (incrementDailyUsage_frame (countRequests k st)) as (H1 & H2 & H3 & H4).
      rewrite Hclock. split; [f_equal; lia|]. repeat split; congruence. }
  destruct Hread as (Hread & Hframe). split; [exact Hread|]. split; [|split; [|exact Hframe]].
  - intros Hstale. subst before. unfold OpenRouter.getDailyUsage.
    destruct (storedUsage st) as [usage|] eqn:Hst; [|reflexivity].
    destruct (decide (date usage = Web.isoDate (clock st))) as [Hday|Hday]; [|reflexivity].
    now destruct (Hstale usage eq_refl).
  - destruct (checkDailyQuota_cases env counted) as [[Hlt ->]|[Hge ->]];
      rewrite Hread in *; cbn [fst count] in *.
    + split; [intros _; exact Hlt | reflexivity].
    + split; [discriminate | lia].
Qed.

(** ** Error codes of the callable function and the number of calls *)

Section FailingOperation.
Context {St T : Type}.
Variable timer : Z -> St -> St.
Variable operation : Async St JsError T.
Variable config : RetryOptions.
Variable counter : St -> nat.
Variable retried : nat -> bool.
Hypothesis operation_fails :
  forall s, exists e s1,
    operation s = (Rejected e, s1) /\ counter s1 = S (counter s)
    /\ isRetryableError e = retried (counter s).
Hypothesis timer_counter : forall ms s, counter (timer ms s) = counter s.

(** An operation that always fails is invoked once per leading retryable
    failure, until a failure that is not retryable or the last attempt. *)
Lemma attempts_until_refusal (n : nat) :
  forall (a : Z) (lastError : JsThrown) (s : St) (k : nat),
    maxAttempts config = a + Z.of_nat n ->
    (k <= n)%nat ->
    (forall j, (j < k)%nat -> retried (counter s + j) = true) ->
    ((k < n)%nat -> retried (counter s + k) = false) ->
    exists e before s',
      attempts timer operation config (S n) a lastError s = (Rejected (ThrownError e), s')
      /\ counter before = (counter s + k)%nat
      /\ operation before = (Rejected e, s').
Proof.
  induction n as [|n IH]; intros a lastError s k Hmax Hk Hretried Hrefused.
  - assert (k = O) by lia. subst k. cbn [attempts].
    destruct (operation_fails s) as (e & s1 & Hop & Hcount & Hretry). rewrite Hop.
    replace (a =? maxAttempts config) with true by (symmetry; apply Z.eqb_eq; lia).
    rewrite orb_true_r. exists e, s, s1. rewrite Nat.add_0_r. now repeat split.
  - change (attempts timer operation config (S (S n)) a lastError s)
      with (match operation s with
            | (Resolved v, s1) => (Resolved v, s1)
            | (Rejected e0, s1) =>
                if negb (isRetryableError e0) || (a =? maxAttempts config)
                then (Rejected (ThrownError e0), s1)
                else attempts timer operation config (S n) (a + 1) (ThrownError e0)
                       (timer (calculateDelay a config) s1)
            end).
    destruct (operation_fails s) as (e & s1 & Hop & Hcount & Hretry). rewrite Hop, Hretry.
    destruct k as [|k].
    + rewrite Nat.add_0_r in Hrefused. rewrite Hrefused by lia. cbn [negb orb].
      exists e, s, s1. rewrite Nat.add_0_r. now repeat split.
    + specialize (Hretried O ltac:(lia)) as Hfirst. rewrite Nat.add_0_r in Hfirst.
      rewrite Hfirst.
      replace (a =? maxAttempts config) with false by (symmetry; apply Z.eqb_neq; lia).
      cbn [negb orb].
      destruct (IH (a + 1) (ThrownError e) (timer (calculateDelay a config) s1) k)
        as (e' & before & s' & Hrun & Hbefore & Hlast).
      * lia.
      * lia.
      * intros j Hj. rewrite timer_counter, Hcount.
        replace (S (counter s) + j)%nat with (counter s + S j)%nat by lia.
        apply Hretried. lia.
      * intros Hlt. rewrite timer_counter, Hcount.
        replace (S (counter s) + k)%nat with (counter s + S k)%nat by lia.
        apply Hrefused. lia.
      * exists e', before, s'. rewrite Hrun. split; [reflexivity|]. split; [|exact Hlast].
        rewrite Hbefore, timer_counter, Hcount. lia.
Qed.
End FailingOperation.

Lemma generateDesign_thrown (env : Firebase.Environment)
    (base64ImageData mimeType userPrompt : jsstring) (codeOf : nat -> option jsstring)
    (st : Runtime) :
  (forall n data,
      Firebase.result (Firebase.generateRoomDesignFunction env n data)
      = Firebase.CallThrows (codeOf n)) ->
  exists st1,
    Firebase.generateDesign env base64ImageData mimeType userPrompt st
    = (Rejected (APIErr (Firebase.classify (Firebase.Failed (codeOf (netCalls st))))), st1)
    /\ netCalls st1 = S (netCalls st).
Proof.
  intros Hthrows. unfold Firebase.generateDesign, Firebase.requestDesign.
  rewrite Hthrows. eexists. split; reflexivity.
Qed.

Lemma classify_thrown (errorCode : option jsstring) :
  let e := Firebase.classify (Firebase.Failed errorCode) in
  retryable e = negb (backendRefusal errorCode)
  /\ (errorCode = Some (lit "functions/unauthenticated") ->
      code e = Some (lit "UNAUTHENTICATED") /\ status e = Some 401)
  /\ (errorCode = Some (lit "functions/resource-exhausted") ->
      code e = Some (lit "QUOTA_EXCEEDED") /\ status e = Some 429)
  /\ (errorCode = Some (lit "functions/invalid-argument") ->
      code e = Some (lit "INVALID_INPUT") /\ status e = Some 400)
  /\ (backendRefusal errorCode = false ->
      code e = Some (lit "UNKNOWN_ERROR") /\ status e = Some 500).
Proof.
  unfold Firebase.classify, backendRefusal. cbn [Firebase.failureCode].
  destruct (decide (errorCode = Some (lit "functions/unauthenticated"))) as [H1|H1].
  { rewrite (bool_decide_eq_true_2 _ H1). cbn. subst errorCode.
    repeat split; intros; discriminate. }
  rewrite (bool_decide_eq_false_2 _ H1).
  destruct (decide (errorCode = Some (lit "functions/resource-exhausted"))) as [H2|H2].
  { rewrite (bool_decide_eq_true_2 _ H2). cbn. subst errorCode.
    repeat split; intros; discriminate. }
  rewrite (bool_decide_eq_false_2 _ H2).
  destruct (decide (errorCode = Some (lit "functions/invalid-argument"))) as [H3|H3].
  { rewrite (bool_decide_eq_true_2 _ H3). cbn. subst errorCode.
    repeat split; intros; discriminate. }
  rewrite (bool_decide_eq_false_2 _ H3). cbn [orb negb].
  repeat split; intros;
    first [reflexivity
          | exfalso; solve [apply H1; assumption | apply H2; assumption | apply H3; assumption]].
Qed.

(** X16. When every call of the callable function throws, [withRetry]
    around [generateDesign] of the Firebase client calls the backend once
    per leading failure whose code is none of [functions/unauthenticated],
    [functions/resource-exhausted], [functions/invalid-argument], and stops
    at the first of these three or when [maxRetries] calls have been made.
    The rejection is the classification of the last failure:
    [UNAUTHENTICATED] 401, [QUOTA_EXCEEDED] 429 and [INVALID_INPUT] 400 are
    not retryable, any other code gives the retryable [UNKNOWN_ERROR] 500.
    The cache, the limiter and the stored usage are not touched. *)
Theorem Firebase_calls_follow_error_code (env : Firebase.Environment)
    (base64ImageData mimeType userPrompt : jsstring) (codeOf : nat -> option jsstring)
    (R : Z) (st : Runtime) (k : nat) :
  (forall n data,
      Firebase.result (Firebase.generateRoomDesignFunction env n data)
      = Firebase.CallThrows (codeOf n)) ->
  (k < Z.to_nat R)%nat ->
  (forall j, (j < k)%nat -> backendRefusal (codeOf (netCalls st + j)%nat) = false) ->
  ((S k < Z.to_nat R)%nat -> backendRefusal (codeOf (netCalls st + k)%nat) = true) ->
  let last := codeOf (netCalls st + k)%nat in
  let e := Firebase.classify (Firebase.Failed last) in
  exists st',
    withRetry sleep (Firebase.generateDesign env base64ImageData mimeType userPrompt)
      (onlyMaxAttempts R) st
    = (Rejected (ThrownError (APIErr e)), st')
    /\ netCalls st' = (netCalls st + k + 1)%nat
    /\ persisted st' = persisted st
    /\ retryable e = negb (backendRefusal last)
    /\ (last = Some (lit "functions/unauthenticated") ->
        code e = Some (lit "UNAUTHENTICATED") /\ status e = Some 401)
    /\ (last = Some (lit "functions/resource-exhausted") ->
        code e = Some (lit "QUOTA_EXCEEDED") /\ status e = Some 429)
    /\ (last = Some (lit "functions/invalid-argument") ->
        code e = Some (lit "INVALID_INPUT") /\ status e = Some 400)
    /\ (backendRefusal last = false ->
        code e = Some (lit "UNKNOWN_ERROR") /\ status e = Some 500).
Proof.
  intros Hthrows Hk Hretried Hrefused last e.
  pose proof (withRetry_frame persisted sleep
                (Firebase.generateDesign env base64ImageData mimeType userPrompt)
                (onlyMaxAttempts R) st
                (generateDesign_persisted env base64ImageData mimeType userPrompt)
                sleep_persisted) as Hframe.
  unfold withRetry in *.
  change (maxAttempts (mergeRetryOptions (onlyMaxAttempts R))) with R in *.
  destruct (Z.to_nat R) as [|n] eqn:Hn; [lia|].
  destruct (attempts_until_refusal sleep
              (Firebase.generateDesign env base64ImageData mimeType userPrompt)
              (mergeRetryOptions (onlyMaxAttempts R)) netCalls
              (fun c => negb (backendRefusal (codeOf c)))) with
    (n := n) (a := 1) (lastError := ThrownUndefined) (s := st) (k := k)
    as (e' & before & st' & Hrun & Hbefore & Hlast).
  - intros s.
    destruct (generateDesign_thrown env base64ImageData mimeType userPrompt codeOf s Hthrows)
      as (s1 & Hop & Hcount).
    eexists _, s1. split; [exact Hop|]. split; [exact Hcount|].
    cbn [isRetryableError]. apply classify_thrown.
  - reflexivity.
  - change (maxAttempts (mergeRetryOptions (onlyMaxAttempts R))) with R. lia.
  - lia.
  - intros j Hj. now rewrite Hretried.
  - intros Hlt. rewrite Hrefused; [reflexivity | lia].
  - destruct (generateDesign_thrown env base64ImageData mimeType userPrompt codeOf before
                Hthrows) as (s1 & Hop & Hcount).
    rewrite Hop in Hlast. injection Hlast as <- <-. rewrite Hbefore in *.
    rewrite Hrun in *. exists s1. split; [reflexivity|]. split; [lia|].
    split; [exact Hframe|]. apply classify_thrown.
Qed.

Lemma Firebase_calls_follow_error_code_witness :
  exists st',
    withRetry sleep
      (Firebase.generateDesign
         (throwing (fun n => if (n <? 1)%nat then Some (lit "functions/internal")
                             else Some (lit "functions/resource-exhausted")))
         Mock.photo (lit "image/png") (lit "Make this room modern"))
      (onlyMaxAttempts 4) (Mock.loaded Mock.morning)
    = (Rejected (ThrownError (APIErr
         {| message := lit "Daily generation limit reached. Please try again tomorrow.";
            status := Some 429; code := Some (lit "QUOTA_EXCEEDED"); retryable := false |})),
       st')
    /\ netCalls st' = 2%nat.
Proof.
  destruct (Firebase_calls_follow_error_code
              (throwing (fun n => if (n <? 1)%nat then Some (lit "functions/internal")
                                  else Some (lit "functions/resource-exhausted")))
              Mock.photo (lit "image/png") (lit "Make this room modern")
              (fun n => if (n <? 1)%nat then Some (lit "functions/internal")
                        else Some (lit "functions/resource-exhausted"))
              4 (Mock.loaded Mock.morning) 1) as (st' & Hrun & Hcalls & _).
  - reflexivity.
  - vm_compute. lia.
  - intros [|j] Hj; [reflexivity | lia].
  - intros _. reflexivity.
  - exists st'. exact (conj Hrun Hcalls).
Defined.

(** ** The backend: sanitizing the prompt *)

Lemma trimStart_head (s : jsstring) (c : N) (rest : jsstring) :
  Functions.trimStart s = c :: rest -> ~ Functions.whiteSpace c.
Proof.
  induction s as [|d s IH]; [discriminate|]. cbn [Functions.trimStart].
  destruct (decide (Functions.whiteSpace d)) as [Hws|Hws]; [exact IH|].
  now intros [= <- <-].
Qed.

Lemma trimStart_suffix (s : jsstring) :
  exists spaces, s = spaces ++ Functions.trimStart s /\ Forall Functions.whiteSpace spaces.
Proof.
  induction s as [|d s (spaces & IH & Hspaces)]; [now exists []|].
  cbn [Functions.trimStart].
  destruct (decide (Functions.whiteSpace d)) as [Hws|Hws].
  - exists (d :: spaces). split; [cbn; now f_equal | now constructor].
  - now exists [].
Qed.

Lemma trimStart_fixed (c : N) (rest : jsstring) :
  ~ Functions.whiteSpace c -> Functions.trimStart (c :: rest) = c :: rest.
Proof.
  intros Hc. cbn [Functions.trimStart].
  now destruct (decide (Functions.whiteSpace c)).
Qed.

Lemma trimStart_snoc (l : jsstring) (c : N) :
  ~ Functions.whiteSpace c ->
  Functions.trimStart (l ++ [c]) = Functions.trimStart l ++ [c].
Proof.
  intros Hc. induction l as [|d l IH]; [now apply trimStart_fixed|].
  cbn [app Functions.trimStart].
  now destruct (decide (Functions.whiteSpace d)).
Qed.

(** [trim] cuts white space off both ends and nothing else. *)
Lemma trim_spec (s : jsstring) :
  exists before after,
    s = before ++ Functions.trim s ++ after
    /\ Forall Functions.whiteSpace before /\ Forall Functions.whiteSpace after
    /\ (forall c rest, Functions.trim s = c :: rest -> ~ Functions.whiteSpace c)
    /\ (forall front c, Functions.trim s = front ++ [c] -> ~ Functions.whiteSpace c).
Proof.
  unfold Functions.trim.
  destruct (trimStart_suffix s) as (before & Hs & Hbefore).
  destruct (trimStart_suffix (reverse (Functions.trimStart s))) as (after & Hr & Hafter).
  exists before, (reverse after).
  assert (Hmid : Functions.trimStart s
                 = reverse (Functions.trimStart (reverse (Functions.trimStart s)))
                   ++ reverse after).
  { rewrite <- reverse_app, <- Hr. now rewrite reverse_involutive. }
  split; [now rewrite <- Hmid|]. split; [exact Hbefore|].
  split; [now apply Forall_reverse|]. split.
  - intros c rest Htrim.
    destruct (Functions.trimStart s) as [|d y] eqn:Hy; [discriminate|].
    pose proof (trimStart_head s d y Hy) as Hd.
    rewrite reverse_cons, (trimStart_snoc _ d Hd), reverse_snoc in Htrim.
    now injection Htrim as <- _.
  - intros front c Htrim.
    apply (f_equal reverse) in Htrim. rewrite reverse_involutive, reverse_snoc in Htrim.
    exact (trimStart_head _ _ _ Htrim).
Qed.

Lemma trim_fixed (s : jsstring) :
  (forall c rest, s = c :: rest -> ~ Functions.whiteSpace c) ->
  (forall front c, s = front ++ [c] -> ~ Functions.whiteSpace c) ->
  Functions.trim s = s.
Proof.
  intros Hhead Hlast. unfold Functions.trim.
  destruct s as [|c rest]; [reflexivity|].
  rewrite (trimStart_fixed c rest (Hhead c rest eq_refl)).
  destruct (reverse (c :: rest)) as [|d front] eqn:Hrev.
  { apply (f_equal reverse) in Hrev. rewrite reverse_involutive in Hrev. discriminate. }
  rewrite trimStart_fixed; [rewrite <- Hrev; apply reverse_involutive|].
  apply (Hlast (reverse front)).
  apply (f_equal reverse) in Hrev. rewrite reverse_involutive in Hrev.
  now rewrite Hrev, reverse_cons.
Qed.

Lemma filter_fixed (P : N -> Prop) `{!forall c, Decision (P c)} (s : list N) :
  Forall P s -> filter P s = s.
Proof.
  induction 1 as [|c s Hc _ IH]; [reflexivity|].
  rewrite filter_cons_True by exact Hc. now rewrite IH.
Qed.

Lemma sanitizeInput_sanitized_or_empty (input : jsstring) :
  Forall (fun c => ~ Functions.htmlSpecial c) (Functions.sanitizeInput input)
  /\ (length (Functions.sanitizeInput input) <= 5000)%nat
  /\ (forall c rest, Functions.sanitizeInput input = c :: rest -> ~ Functions.whiteSpace c).
Proof.
  unfold Functions.sanitizeInput.
  set (kept := filter (fun c => ~ Functions.htmlSpecial c) input).
  destruct (trim_spec kept) as (before & after & Hkept & _ & _ & Hhead & _).
  assert (Hclean : Forall (fun c => ~ Functions.htmlSpecial c) kept).
  { apply Forall_forall. intros c Hc. now apply list_elem_of_filter in Hc as [Hc _]. }
  split; [|split].
  - apply Forall_take. rewrite Hkept in Hclean.
    apply Forall_app in Hclean as [_ Hclean]. now apply Forall_app in Hclean as [Hclean _].
  - rewrite length_take. lia.
  - intros c rest Hout. destruct (Functions.trim kept) as [|d y]; [discriminate|].
    cbn in Hout. injection Hout as <- _. now apply (Hhead d y).
Qed.

(** X17. What [sanitizeInput] returns holds none of the characters
    [<], [>], double quote, single quote and [&], has at most 5000 code units,
    does not start with white space, and is made of characters of the input
    in their order (nothing is added or reordered). After the cut at 5000 it
    may still end with white space. *)
Theorem sanitizeInput_output (input : jsstring) :
  let output := Functions.sanitizeInput input in
  Forall (fun c => ~ Functions.htmlSpecial c) output
  /\ (length output <= 5000)%nat
  /\ (forall c rest, output = c :: rest -> ~ Functions.whiteSpace c)
  /\ output `sublist_of` input
  /\ (output <> [] -> sanitized output).
Proof.
  intros output.
  destruct (sanitizeInput_sanitized_or_empty input) as (Hclean & Hlength & Hhead).
  split; [exact Hclean|]. split; [exact Hlength|]. split; [exact Hhead|]. split.
  - subst output. unfold Functions.sanitizeInput.
    set (kept := filter (fun c => ~ Functions.htmlSpecial c) input).
    destruct (trim_spec kept) as (before & after & Hkept & _).
    transitivity (Functions.trim kept); [apply sublist_take|].
    transitivity kept; [|apply sublist_filter].
    rewrite Hkept at 2. apply sublist_inserts_l, sublist_inserts_r. reflexivity.
  - intros Hnonempty. split; [exact Hclean|]. split; [exact Hlength|].
    fold output in Hhead. destruct output as [|c rest]; [done|].
    exists c, rest. split; [reflexivity | now apply (Hhead c rest)].
Qed.

Example sanitizeInput_script :
  Functions.sanitizeInput (lit "  <b>Scandinavian & 'cozy'</b>  ")
  = lit "bScandinavian  cozy/b".
Proof. vm_compute. reflexivity. Qed.

Example sanitizeInput_cut_leaves_space :
  let long := replicate 4999 97%N ++ lit " b" in
  List.last (Functions.sanitizeInput long) 0%N = 32%N
  /\ Functions.sanitizeInput (Functions.sanitizeInput long) <> Functions.sanitizeInput long.
Proof. vm_compute. split; [reflexivity | discriminate]. Qed.

(** X18. A prompt with none of the five special characters, no white
    space at either end and at most 5000 code units passes through
    [sanitizeInput] unchanged. *)
Theorem sanitizeInput_keeps_clean_prompts (input : jsstring) :
  Forall (fun c => ~ Functions.htmlSpecial c) input ->
  (forall c rest, input = c :: rest -> ~ Functions.whiteSpace c) ->
  (forall front c, input = front ++ [c] -> ~ Functions.whiteSpace c) ->
  (length input <= 5000)%nat ->
  Functions.sanitizeInput input = input.
Proof.
  intros Hclean Hhead Hlast Hlength. unfold Functions.sanitizeInput.
  rewrite (filter_fixed _ input Hclean), (trim_fixed input Hhead Hlast).
  now apply take_ge.
Qed.

Lemma sanitizeInput_keeps_clean_prompts_witness :
  Functions.sanitizeInput (lit "warm Japandi living room") = lit "warm Japandi living room".
Proof.
  apply sanitizeInput_keeps_clean_prompts.
  - apply (bool_decide_unpack _). vm_compute. exact I.
  - intros c rest [= <- _]. apply (bool_decide_unpack _). vm_compute. exact I.
  - intros front c Hsplit.
    assert (c = 109%N) as ->.
    { apply (f_equal reverse) in Hsplit. rewrite reverse_snoc in Hsplit.
      vm_compute in Hsplit. now injection Hsplit as <- _. }
    apply (bool_decide_unpack _). vm_compute. exact I.
  - vm_compute. lia.
Defined.

(** ** The backend: rate limit and usage statistics *)

Lemma Functions_checkRateLimit_cases (userId : jsstring) (sv : Functions.Server) :
  (exists doc, Functions.rateLimits sv !! userId = Some doc
               /\ Functions.now sv <= Functions.resetAt doc
               /\ 10 <= Functions.count doc
               /\ Functions.checkRateLimit userId sv = (false, sv))
  \/ (exists doc, Functions.rateLimits sv !! userId = Some doc
                  /\ Functions.now sv <= Functions.resetAt doc
                  /\ Functions.count doc < 10
                  /\ Functions.checkRateLimit userId sv
                     = (true, Functions.withRateLimits
                                (<[userId := {| Functions.count := Functions.count doc + 1;
                                                Functions.resetAt := Functions.resetAt doc |}]>
                                   (Functions.rateLimits sv)) sv))
  \/ ((forall doc, Functions.rateLimits sv !! userId = Some doc ->
                   Functions.now sv > Functions.resetAt doc)
      /\ Functions.checkRateLimit userId sv
         = (true, Functions.withRateLimits
                    (<[userId := {| Functions.count := 1;
                                    Functions.resetAt := Functions.now sv + Functions.oneDay |}]>
                       (Functions.rateLimits sv)) sv)).
Proof.
  unfold Functions.checkRateLimit.
  destruct (Functions.rateLimits sv !! userId) as [doc|] eqn:Hdoc.
  - destruct (decide (Functions.now sv > Functions.resetAt doc)) as [Hpast|Hin].
    + right. right. split; [now intros doc' [= <-] | reflexivity].
    + destruct (decide (Functions.count doc < 10)) as [Hlt|Hge].
      * right. left. exists doc. repeat split; [lia | exact Hlt].
      * left. exists doc. repeat split; lia.
  - right. right. split; [discriminate | reflexivity].
Qed.



(** ** The backend: what a call costs and what it forwards *)

(** One call of [generateRoomDesign] by a signed-in user, step by step. *)
Lemma generateRoomDesign_step (cfg : Functions.Deployment) (call : Functions.Call)
    (userId : jsstring) (sv : Functions.Server) :
  Functions.auth call = Some userId ->
  let limited := Functions.checkRateLimit userId sv in
  let run := Functions.generateRoomDesign cfg call sv in
  Functions.rateLimits (snd run) = Functions.rateLimits (snd limited)
  /\ resourceExhausted (fst run) = negb (fst limited)
  /\ Functions.now sv <= Functions.now (snd run)
  /\ (Functions.fetches (snd run) = Functions.fetches sv
      \/ fst limited = true /\ Functions.fetches (snd run) = S (Functions.fetches sv))
  /\ (forall d, fst run = Resolved d ->
                Functions.fetches (snd run) = S (Functions.fetches sv)
                /\ Functions.success d = true /\ Functions.suggestions d <> []
                /\ Functions.timestamp d = Functions.now (snd run)).
Proof.
  intros Hauth limited run. subst limited run.
  unfold Functions.generateRoomDesign. rewrite Hauth.
  assert (Hclock : Functions.now (snd (Functions.checkRateLimit userId sv)) = Functions.now sv
                   /\ Functions.fetches (snd (Functions.checkRateLimit userId sv))
                      = Functions.fetches sv).
  { destruct (Functions_checkRateLimit_cases userId sv)
      as [(doc & _ & _ & _ & ->)|[(doc & _ & _ & _ & ->)|(_ & ->)]]; now cbn. }
  destruct Hclock as (Hclock & Hfetches).
  destruct (Functions.checkRateLimit userId sv) as [withinLimit sv1]. cbn [fst snd] in *.
  destruct withinLimit; cbn [negb];
    [|cbn; repeat split; first [lia | now left | discriminate]].
  destruct (Functions.prompt call) as [[|c userPrompt]|];
    try (cbn; repeat split; first [lia | now left | discriminate]).
  destruct (Functions.imageDataUrl call) as [[|d url]|];
    try (cbn; repeat split; first [lia | now left | discriminate]).
  destruct (decide (length (Functions.sanitizeInput (c :: userPrompt)) = 0%nat));
    [cbn; repeat split; first [lia | now left | discriminate]|].
  destruct (Functions.openrouter_apikey cfg) as [[|k apiKey]|];
    try (cbn; repeat split; first [lia | now left | discriminate]).
  destruct (Functions.upstream cfg _ _) as [reply elapsed].
  destruct reply as [| |[[|e designSuggestions]|]]; cbn;
    (split; [reflexivity|]); (split; [reflexivity|]); (split; [lia|]);
    (split; [right; split; [reflexivity | congruence]|]);
    try discriminate.
  intros d' [= <-]. cbn. repeat split; [congruence | discriminate].
Qed.

(** X20. What a call of [generateRoomDesign] costs. A call without
    [context.auth] is rejected with [unauthenticated] and changes nothing.
    For a signed-in user the rate-limit document after the call is the one
    [checkRateLimit] wrote, whatever happens next: a call let through is
    counted even when it then fails validation, meets a missing API key or
    an upstream error; the call is rejected with [resource-exhausted]
    exactly when [checkRateLimit] refuses it; it sends at most one request
    to OpenRouter, and none when refused; a resolved design always comes
    from such a request, with [success] true, non-empty suggestions and the
    time after the request as timestamp. *)
Theorem generateRoomDesign_accounting (cfg : Functions.Deployment) (call : Functions.Call)
    (sv : Functions.Server) :
  let run := Functions.generateRoomDesign cfg call sv in
  (Functions.auth call = None ->
   snd run = sv /\ exists e, fst run = Rejected e
                             /\ Functions.errorCode e = lit "unauthenticated")
  /\ (forall userId, Functions.auth call = Some userId ->
        let limited := Functions.checkRateLimit userId sv in
        Functions.rateLimits (snd run) = Functions.rateLimits (snd limited)
        /\ resourceExhausted (fst run) = negb (fst limited)
        /\ (fst limited = false -> snd run = sv))
  /\ (Functions.fetches (snd run) = Functions.fetches sv
      \/ Functions.fetches (snd run) = S (Functions.fetches sv))
  /\ (forall d, fst run = Resolved d ->
                Functions.fetches (snd run) = S (Functions.fetches sv)
                /\ Functions.success d = true /\ Functions.suggestions d <> []
                /\ Functions.timestamp d = Functions.now (snd run))
  /\ Functions.now sv <= Functions.now (snd run).
Proof.
  intros run. subst run.
  destruct (Functions.auth call) as [userId|] eqn:Hauth.
  - destruct (generateRoomDesign_step cfg call userId sv Hauth)
      as (Hdocs & Hrefused & Hclock & Hfetch & Hdesign).
    split; [discriminate|]. split; [|split; [|split; [exact Hdesign | exact Hclock]]].
    + intros userId' [= <-]. split; [exact Hdocs|]. split; [exact Hrefused|].
      intros Hno. unfold Functions.generateRoomDesign. rewrite Hauth.
      destruct (Functions_checkRateLimit_cases userId sv)
        as [(doc & _ & _ & _ & Hrl)|[(doc & _ & _ & _ & Hrl)|(_ & Hrl)]];
        rewrite Hrl in *; cbn in *; [reflexivity | discriminate | discriminate].
    + destruct Hfetch as [Hfetch|[_ Hfetch]]; [now left | now right].
  - unfold Functions.generateRoomDesign. rewrite Hauth. cbn.
    split; [intros _; split; [reflexivity | now eexists]|].
    split; [discriminate|]. split; [now left|]. split; [discriminate | lia].
Qed.

Example generateRoomDesign_counts_invalid_calls :
  let call := {| Functions.auth := Some (lit "uid-1");
                 Functions.prompt := Some (lit "  <>  ");
                 Functions.imageDataUrl := Some (lit "data:image/png;base64,AAAA") |} in
  let run := Functions.generateRoomDesign advising call (started Mock.morning) in
  fst run = Rejected {| Functions.errorCode := lit "invalid-argument";
                        Functions.errorMessage := lit "Prompt cannot be empty" |}
  /\ Functions.fetches (snd run) = O
  /\ fst (Functions.getUserUsageStats call (snd run))
     = Resolved {| Functions.used := 1; Functions.limit := 10;
                   Functions.resetsAt := Mock.morning + Functions.oneDay |}.
Proof. cbv zeta. split; [evaluate|]. split; evaluate. Qed.

(** X21. OpenRouter only ever receives what [sanitizeInput] made of the
    prompt: two deployments with the same API key whose model agrees on
    every request that carries that key, the caller's image URL as sent,
    and a sanitized prompt (none of the five special characters, at most
    5000 code units, not empty, no leading white space) cannot be told apart
    through [generateRoomDesign]. The image URL is forwarded as the caller
    sent it. *)
Theorem generateRoomDesign_forwards_sanitized (cfg cfg' : Functions.Deployment)
    (call : Functions.Call) (sv : Functions.Server) :
  Functions.openrouter_apikey cfg = Functions.openrouter_apikey cfg' ->
  (forall n u,
      sanitized (Functions.request u) ->
      (exists userPrompt, Functions.prompt call = Some userPrompt
                          /\ Functions.request u = Functions.sanitizeInput userPrompt) ->
      Functions.imageDataUrl call = Some (Functions.image u) ->
      Functions.openrouter_apikey cfg = Some (Functions.bearer u) ->
      Functions.upstream cfg n u = Functions.upstream cfg' n u) ->
  Functions.generateRoomDesign cfg call sv = Functions.generateRoomDesign cfg' call sv.
Proof.
  intros Hkey Hagree. unfold Functions.generateRoomDesign.
  destruct (Functions.auth call) as [userId|]; [|reflexivity].
  destruct (Functions.checkRateLimit userId sv) as [withinLimit sv1].
  destruct (negb withinLimit); [reflexivity|].
  destruct (Functions.prompt call) as [[|c userPrompt]|] eqn:Hprompt; try reflexivity.
  destruct (Functions.imageDataUrl call) as [[|d url]|] eqn:Himage; try reflexivity.
  destruct (decide (length (Functions.sanitizeInput (c :: userPrompt)) = 0%nat))
    as [Hempty|Hfull]; [reflexivity|].
  rewrite <- Hkey.
  destruct (Functions.openrouter_apikey cfg) as [[|k apiKey]|] eqn:Hcfg; try reflexivity.
  rewrite (Hagree (Functions.fetches sv1)
             {| Functions.bearer := k :: apiKey; Functions.image := d :: url;
                Functions.request := Functions.sanitizeInput (c :: userPrompt) |});
    [reflexivity| |now eexists|reflexivity|reflexivity].
  cbn [Functions.request].
  destruct (sanitizeInput_sanitized_or_empty (c :: userPrompt)) as (Hclean & Hlength & Hhead).
  split; [exact Hclean|]. split; [exact Hlength|].
  destruct (Functions.sanitizeInput (c :: userPrompt)) as [|c0 rest]; [done|].
  exists c0, rest. split; [reflexivity | now apply (Hhead c0 rest)].
Qed.

Lemma generateRoomDesign_forwards_sanitized_witness :
  Functions.generateRoomDesign advising
    (signedIn (lit "uid-1") (lit "<i>more plants</i> & light")) (started Mock.morning)
  = Functions.generateRoomDesign fragile
      (signedIn (lit "uid-1") (lit "<i>more plants</i> & light")) (started Mock.morning).
Proof.
  apply generateRoomDesign_forwards_sanitized.
  - reflexivity.
  - intros n u (Hclean & _) _ _ _. unfold fragile. cbn [Functions.upstream].
    destruct (decide (Forall (fun c => ~ Functions.htmlSpecial c) (Functions.request u)));
      [reflexivity | contradiction].
Defined.

Lemma generateRoomDesign_accounting_witness :
  snd (Functions.generateRoomDesign advising
         {| Functions.auth := None; Functions.prompt := Some (lit "cozy");
            Functions.imageDataUrl := None |} (started Mock.morning))
  = started Mock.morning.
Proof.
  exact (proj1 (proj1 (generateRoomDesign_accounting advising
                         {| Functions.auth := None; Functions.prompt := Some (lit "cozy");
                            Functions.imageDataUrl := None |} (started Mock.morning))
                  eq_refl)).
Defined.

(** ** The backend: ten designs a day *)





Example generateRoomDesign_ten_a_day_run :
  resourceExhausted
  <$> fst (Functions.callAll advising (signedIn (lit "uid-1") (lit "cozy"))
             (replicate 12 60000%N) (started Mock.morning))
  = replicate 10 false ++ replicate 2 true.
Proof. vm_compute. reflexivity. Qed.

(** ** File names *)

Lemma squeeze_head (s : jsstring) : head (FileUtils.squeeze s) = head s.
Proof.
  induction s as [|c rest IH]; [reflexivity|]. cbn [FileUtils.squeeze].
  destruct (decide (c = FileUtils.underscore)) as [Hc|Hc]; [|reflexivity].
  destruct rest as [|d rest]; [reflexivity|].
  destruct (decide (d = FileUtils.underscore)) as [Hd|Hd]; [|reflexivity].
  rewrite IH. cbn. congruence.
Qed.

Lemma squeeze_Forall (P : N -> Prop) (s : jsstring) :
  Forall P s -> Forall P (FileUtils.squeeze s).
Proof.
  induction 1 as [|c rest Hc Hrest IH]; [constructor|]. cbn [FileUtils.squeeze].
  destruct (decide (c = FileUtils.underscore)) as [Hu|Hu]; [|now constructor].
  destruct rest as [|d rest]; [now constructor|].
  destruct (decide (d = FileUtils.underscore)); [exact IH | now constructor].
Qed.

Lemma squeeze_length (s : jsstring) : (length (FileUtils.squeeze s) <= length s)%nat.
Proof.
  induction s as [|c rest IH]; [reflexivity|]. cbn [FileUtils.squeeze].
  destruct (decide (c = FileUtils.underscore)) as [Hu|Hu]; [|cbn; lia].
  destruct rest as [|d rest]; [reflexivity|].
  destruct (decide (d = FileUtils.underscore)); cbn in *; lia.
Qed.

Lemma squeeze_singleUnderscores (s : jsstring) : singleUnderscores (FileUtils.squeeze s).
Proof.
  induction s as [|c rest IH]; [exact I|]. cbn [FileUtils.squeeze].
  destruct (decide (c = FileUtils.underscore)) as [Hc|Hc].
  - destruct rest as [|d rest]; [now cbn|].
    destruct (decide (d = FileUtils.underscore)) as [Hd|Hd]; [exact IH|].
    cbn [singleUnderscores]. split; [|exact IH].
    pose proof (squeeze_head (d :: rest)) as Hhead.
    destruct (FileUtils.squeeze (d :: rest)) as [|d' rest']; [exact I|].
    cbn in Hhead. injection Hhead as ->. tauto.
  - cbn [singleUnderscores]. split; [|exact IH].
    destruct (FileUtils.squeeze rest); [exact I | tauto].
Qed.

Lemma squeeze_fixed (s : jsstring) : singleUnderscores s -> FileUtils.squeeze s = s.
Proof.
  induction s as [|c rest IH]; [reflexivity|]. intros [Hpair Hrest].
  cbn [FileUtils.squeeze]. rewrite (IH Hrest).
  destruct (decide (c = FileUtils.underscore)) as [Hc|Hc]; [|reflexivity].
  destruct rest as [|d rest]; [reflexivity|].
  destruct (decide (d = FileUtils.underscore)) as [Hd|Hd]; [tauto | reflexivity].
Qed.

Lemma take_singleUnderscores (n : nat) :
  forall s, singleUnderscores s -> singleUnderscores (take n s).
Proof.
  induction n as [|n IH]; intros s Hs; [exact I|].
  destruct s as [|c rest]; [exact I|]. destruct Hs as [Hpair Hrest].
  cbn [take singleUnderscores]. split; [|now apply IH].
  destruct rest as [|d rest]; [now destruct n|].
  destruct n; [exact I | exact Hpair].
Qed.

Lemma singleUnderscores_no_run (front back : jsstring) :
  ~ singleUnderscores (front ++ FileUtils.underscore :: FileUtils.underscore :: back).
Proof.
  induction front as [|c front IH]; intros Hs.
  - destruct Hs as [Hpair _]. tauto.
  - destruct Hs as [_ Hrest]. now apply IH.
Qed.

(** X23. What [sanitizeFileName] returns is made of ASCII letters, digits,
    dots, hyphens and underscores only; no underscore follows another;
    it has at most 255 code units and is not longer than the input; and
    sanitizing it again changes nothing. *)
Theorem sanitizeFileName_output (filename : jsstring) :
  let name := FileUtils.sanitizeFileName filename in
  Forall (fun c => FileUtils.safeChar c \/ c = FileUtils.underscore) name
  /\ (forall front back,
        name <> front ++ FileUtils.underscore :: FileUtils.underscore :: back)
  /\ (length name <= 255)%nat
  /\ (length name <= length filename)%nat
  /\ FileUtils.sanitizeFileName name = name.
Proof.
  intros name. subst name. unfold FileUtils.sanitizeFileName.
  set (replaced := (fun c => if decide (FileUtils.safeChar c) then c else FileUtils.underscore)
                   <$> filename).
  change (substring (FileUtils.squeeze replaced) 0 255)
    with (take 255 (FileUtils.squeeze replaced)).
  set (name := take 255 (FileUtils.squeeze replaced)).
  assert (Hchars : Forall (fun c => FileUtils.safeChar c \/ c = FileUtils.underscore) name).
  { apply Forall_take, squeeze_Forall, Forall_fmap, Forall_forall. intros c _. cbn.
    destruct (decide (FileUtils.safeChar c)); [now left | now right]. }
  assert (Hsingle : singleUnderscores name)
    by apply take_singleUnderscores, squeeze_singleUnderscores.
  assert (Hshort : (length name <= 255)%nat) by (subst name; rewrite length_take; lia).
  split; [exact Hchars|]. split; [|split; [exact Hshort|split]].
  - intros front back Hrun. rewrite Hrun in Hsingle.
    exact (singleUnderscores_no_run front back Hsingle).
  - subst name replaced. rewrite length_take.
    pose proof (squeeze_length ((fun c => if decide (FileUtils.safeChar c) then c
                                          else FileUtils.underscore) <$> filename)) as Hle.
    rewrite length_fmap in Hle. lia.
  - assert (Hsame : (fun c => if decide (FileUtils.safeChar c) then c else FileUtils.underscore)
                    <$> name = name).
    { clear Hsingle Hshort. induction Hchars as [|c rest Hc _ IH]; [reflexivity|].
      cbn [fmap list_fmap]. fold (@fmap list _ N N). f_equal; [|exact IH].
      destruct (decide (FileUtils.safeChar c)); [reflexivity|]. now destruct Hc. }
    rewrite Hsame, (squeeze_fixed name Hsingle).
    change (substring name 0 255) with (take 255 name). now apply take_ge.
Qed.

Example sanitizeFileName_keeps_dots :
  FileUtils.sanitizeFileName (lit "../../my room (1).PNG") = lit ".._.._my_room_1_.PNG".
Proof. vm_compute. reflexivity. Qed.

(** ** Thrown errors and the number of requests sent *)

Lemma classify_caught_retryable (failure : option jsstring) :
  let e := OpenRouter.classify (caught failure) in
  retryable e = true
  /\ code e ∈ [Some (lit "QUOTA_EXCEEDED"); Some (lit "NETWORK_ERROR");
                Some (lit "API_ERROR"); Some (lit "UNKNOWN_ERROR")].
Proof.
  destruct failure as [msg|]; cbn [caught OpenRouter.classify].
  - destruct (includes msg (lit "quota") || includes msg (lit "limit")).
    { split; [reflexivity | apply list_elem_of_here]. }
    destruct (includes msg (lit "network") || includes msg (lit "fetch")).
    { split; [reflexivity | apply list_elem_of_further, list_elem_of_here]. }
    split; [reflexivity | do 2 apply list_elem_of_further; apply list_elem_of_here].
  - split; [reflexivity | do 3 apply list_elem_of_further; apply list_elem_of_here].
Qed.

Lemma generateImage_thrown (env : OpenRouter.Environment)
    (apiKey base64ImageData mimeType optimizedPrompt : jsstring)
    (failureOf : nat -> option jsstring) (st : Runtime) :
  OpenRouter.getApiKey env = Resolved apiKey ->
  (forall n request,
      OpenRouter.response (OpenRouter.openRouter env n request) = thrown (failureOf n)) ->
  exists st1,
    OpenRouter.generateImage env base64ImageData mimeType optimizedPrompt st
    = (Rejected (APIErr (OpenRouter.classify (caught (failureOf (netCalls st))))), st1)
    /\ netCalls st1 = S (netCalls st).
Proof.
  intros Hkey Hthrows. unfold OpenRouter.generateImage, OpenRouter.requestImage.
  rewrite Hkey, Hthrows.
  destruct (failureOf (netCalls st)) as [msg|]; cbn [thrown caught];
    eexists; split; reflexivity.
Qed.

(** X24. With a key configured, when every request throws ([fetch]
    failing, a body that is not JSON, ...), [withRetry] around
    [generateImage] uses all its attempts: it sends exactly [maxRetries]
    requests and rejects with the classification of the last failure, which
    is always retryable and one of [QUOTA_EXCEEDED], [NETWORK_ERROR],
    [API_ERROR] and [UNKNOWN_ERROR]; the cache, the limiter and the usage
    counter are left alone. *)
Theorem OpenRouter_thrown_errors_use_all_attempts (env : OpenRouter.Environment)
    (apiKey base64ImageData mimeType optimizedPrompt : jsstring)
    (failureOf : nat -> option jsstring) (R : Z) (st : Runtime) :
  OpenRouter.getApiKey env = Resolved apiKey ->
  (forall n request,
      OpenRouter.response (OpenRouter.openRouter env n request) = thrown (failureOf n)) ->
  1 <= R ->
  let e := OpenRouter.classify (caught (failureOf (netCalls st + Z.to_nat R - 1)%nat)) in
  exists st',
    withRetry sleep (OpenRouter.generateImage env base64ImageData mimeType optimizedPrompt)
      (onlyMaxAttempts R) st
    = (Rejected (ThrownError (APIErr e)), st')
    /\ netCalls st' = (netCalls st + Z.to_nat R)%nat
    /\ persisted st' = persisted st
    /\ retryable e = true
    /\ code e ∈ [Some (lit "QUOTA_EXCEEDED"); Some (lit "NETWORK_ERROR");
                  Some (lit "API_ERROR"); Some (lit "UNKNOWN_ERROR")].
Proof.
  intros Hkey Hthrows HR e.
  pose proof (withRetry_frame persisted sleep
                (OpenRouter.generateImage env base64ImageData mimeType optimizedPrompt)
                (onlyMaxAttempts R) st
                (generateImage_persisted env base64ImageData mimeType optimizedPrompt)
                sleep_persisted) as Hframe.
  unfold withRetry in *.
  change (maxAttempts (mergeRetryOptions (onlyMaxAttempts R))) with R in *.
  destruct (Z.to_nat R) as [|n] eqn:Hn; [lia|].
  destruct (attempts_until_refusal sleep
              (OpenRouter.generateImage env base64ImageData mimeType optimizedPrompt)
              (mergeRetryOptions (onlyMaxAttempts R)) netCalls (fun _ => true)) with
    (n := n) (a := 1) (lastError := ThrownUndefined) (s := st) (k := n)
    as (e' & before & st' & Hrun & Hbefore & Hlast).
  - intros s.
    destruct (generateImage_thrown env apiKey base64ImageData mimeType optimizedPrompt
                failureOf s Hkey Hthrows) as (s1 & Hop & Hcount).
    eexists _, s1. split; [exact Hop|]. split; [exact Hcount|].
    cbn [isRetryableError]. apply classify_caught_retryable.
  - reflexivity.
  - change (maxAttempts (mergeRetryOptions (onlyMaxAttempts R))) with R. lia.
  - lia.
  - reflexivity.
  - lia.
  - destruct (generateImage_thrown env apiKey base64ImageData mimeType optimizedPrompt
                failureOf before Hkey Hthrows) as (s1 & Hop & Hcount).
    rewrite Hop in Hlast. injection Hlast as <- <-. rewrite Hbefore in *.
    rewrite Hrun in *. exists s1. subst e.
    replace (netCalls st + S n - 1)%nat with (netCalls st + n)%nat by lia.
    split; [reflexivity|]. split; [lia|]. split; [exact Hframe|].
    apply classify_caught_retryable.
Qed.

Lemma OpenRouter_thrown_errors_use_all_attempts_witness :
  exists st',
    withRetry sleep
      (OpenRouter.generateImage (unreachable 5) Mock.photo (lit "image/png")
         (OpenRouter.createOptimizedPrompt (lit "modern")))
      (onlyMaxAttempts 3) (Mock.loaded Mock.morning)
    = (Rejected (ThrownError (APIErr
         {| message := lit "Network error occurred. Please check your connection and try again.";
            status := Some 503; code := Some (lit "NETWORK_ERROR"); retryable := true |})),
       st')
    /\ netCalls st' = 3%nat.
Proof.
  destruct (OpenRouter_thrown_errors_use_all_attempts (unreachable 5) (lit "sk-or-test")
              Mock.photo (lit "image/png") (OpenRouter.createOptimizedPrompt (lit "modern"))
              (fun _ => Some (lit "Failed to fetch")) 3 (Mock.loaded Mock.morning)
              eq_refl (fun n request => eq_refl) ltac:(lia))
    as (st' & Hrun & Hcalls & _).
  exists st'. exact (conj Hrun Hcalls).
Defined.

(** ** An upper bound on the requests of one call *)

Section CountedOperation.
Context {St T : Type}.
Variable timer : Z -> St -> St.
Variable operation : Async St JsError T.
Variable config : RetryOptions.
Variable counter : St -> nat.
Hypothesis operation_counter : forall s, (counter (snd (operation s)) <= S (counter s))%nat.
Hypothesis timer_counter : forall ms s, counter (timer ms s) = counter s.

Lemma attempts_counter (n : nat) :
  forall (a : Z) (lastError : JsThrown) (s : St),
    (counter (snd (attempts timer operation config n a lastError s)) <= counter s + n)%nat.
Proof.
  induction n as [|n IH]; intros a lastError s; [cbn; lia|].
  cbn [attempts]. pose proof (operation_counter s) as Hop.
  destruct (operation s) as [[v|e] s1]; cbn [snd] in *; [lia|].
  destruct (negb (isRetryableError e) || (a =? maxAttempts config)); cbn [snd]; [lia|].
  specialize (IH (a + 1) (ThrownError e) (timer (calculateDelay a config) s1)).
  rewrite timer_counter in IH. lia.
Qed.
End CountedOperation.

Lemma generateImage_netCalls (env : OpenRouter.Environment)
    (base64ImageData mimeType optimizedPrompt : jsstring) (st : Runtime) :
  (netCalls (snd (OpenRouter.generateImage env base64ImageData mimeType optimizedPrompt st))
   <= S (netCalls st))%nat.
Proof.
  unfold OpenRouter.generateImage, OpenRouter.requestImage.
  destruct (OpenRouter.getApiKey env) as [apiKey|e]; [|cbn; lia].
  destruct (OpenRouter.response _) as [msg| |httpStatus errorMessage|content picture];
    try (cbn; lia).
  destruct content as [[|ch content]|]; try (cbn; lia).
  destruct picture; cbn; lia.
Qed.

(** X25. [redesignRoom] of the OpenRouter client sends at most
    [maxRetries] requests, and it sends one only after each of its gates
    let the call through: the day's counter was below the limit, the cache
    key could be built, the lookup (when caching is on) found nothing usable,
    and the rate limiter admitted the request. *)
Theorem OpenRouter_requests_are_gated (env : OpenRouter.Environment)
    (base64ImageData mimeType prompt : jsstring) (options : RedesignOptions) (st : Runtime) :
  let config := spread OpenRouter.DEFAULT_REDESIGN_OPTIONS options in
  let st' := snd (OpenRouter.redesignRoom env base64ImageData mimeType prompt options st) in
  let st1 := snd (OpenRouter.getDailyUsage st) in
  (netCalls st' <= netCalls st + Z.to_nat (config_maxRetries config))%nat
  /\ (netCalls st' <> netCalls st ->
      count (fst (OpenRouter.getDailyUsage st)) < OpenRouter.DAILY_REQUEST_LIMIT env
      /\ (exists key, OpenRouter.cacheKey base64ImageData prompt = Some key
                      /\ (config_useCache config = true ->
                          fst (cachedResult key st1) = Resolved None))
      /\ fst (checkRateLimit (clock st) (rateLimiter st)) = Resolved tt).
Proof.
  intros config st' st1. subst st'. unfold OpenRouter.redesignRoom, bind.
  fold config.
  destruct (getDailyUsage_frame st) as (Hclock1 & _ & Hrl1 & Hnet1). fold st1 in Hclock1, Hrl1, Hnet1.
  destruct (checkDailyQuota_cases env st) as [[Hquota ->]|[_ ->]]; fold st1;
    [|cbn [snd]; split; [lia | congruence]].
  destruct (OpenRouter.cacheKey base64ImageData prompt) as [key|];
    [|cbn [snd throw]; split; [lia | congruence]].
  destruct (lookup_frame (config_useCache config) key st1) as (_ & _ & Hrl2 & Hnet2 & Hclock2).
  assert (Hlookup : config_useCache config = true ->
                    fst ((if config_useCache config then cachedResult key else ret None) st1)
                    = fst (cachedResult key st1))
    by (now intros ->).
  destruct ((if config_useCache config then cachedResult key else ret None) st1)
    as [[hit|x] st2]; cbn [fst snd] in *; [|split; [lia | congruence]].
  destruct hit as [cached|]; [cbn [snd ret]; split; [lia | congruence]|].
  destruct (awaitRateLimit_frame st2) as (_ & _ & Hnet3 & _).
  assert (Hlimiter : forall u s, OpenRouter.awaitRateLimit st2 = (Resolved u, s) ->
                                 fst (checkRateLimit (clock st) (rateLimiter st)) = Resolved tt).
  { unfold OpenRouter.awaitRateLimit. rewrite Hclock2, Hclock1, Hrl2, Hrl1.
    destruct (checkRateLimit (clock st) (rateLimiter st)) as [[[]|e] rl]; [reflexivity|].
    discriminate. }
  destruct (OpenRouter.awaitRateLimit st2) as [[u|x] st3]; cbn [snd] in *;
    [|split; [lia | congruence]].
  specialize (Hlimiter u st3 eq_refl).
  pose proof (attempts_counter sleep
                (OpenRouter.generateImage env base64ImageData mimeType
                   (OpenRouter.createOptimizedPrompt prompt))
                (mergeRetryOptions (onlyMaxAttempts (config_maxRetries config))) netCalls
                (generateImage_netCalls env base64ImageData mimeType _)
                (fun ms s => eq_refl)
                (Z.to_nat (config_maxRetries config)) 1 ThrownUndefined st3) as Hbound.
  unfold withRetry.
  change (maxAttempts (mergeRetryOptions (onlyMaxAttempts (config_maxRetries config))))
    with (config_maxRetries config).
  destruct (attempts sleep _ _ _ 1 ThrownUndefined st3) as [[v|x] st4]; cbn [snd] in *.
  - destruct (incrementDailyUsage_frame st4) as (_ & _ & Hnet5 & _).
    destruct (OpenRouter.incrementDailyUsage st4) as [[u5|x5] st5]; cbn [snd] in *.
    + pose proof (cacheResult_netCalls config key v st5) as Hnet6.
      destruct (cacheResult config key v st5) as [[u6|x6] st6]; cbn [snd ret] in *;
        (split; [lia|]); intros _;
        (split; [exact Hquota|]); (split; [|exact Hlimiter]);
        exists key; (split; [reflexivity|]); intros Huse; now rewrite <- (Hlookup Huse).
    + split; [lia|]. intros _. split; [exact Hquota|]. split; [|exact Hlimiter].
      exists key. split; [reflexivity|]. intros Huse. now rewrite <- (Hlookup Huse).
  - split; [lia|]. intros _. split; [exact Hquota|]. split; [|exact Hlimiter].
    exists key. split; [reflexivity|]. intros Huse. now rewrite <- (Hlookup Huse).
Qed.

Lemma OpenRouter_requests_are_gated_witness :
  (netCalls (snd (OpenRouter.redesignRoom (Mock.openRouterDown 5) Mock.photo (lit "image/png")
                    (lit "modern minimalist") noOptions (Mock.loaded Mock.morning)))
   <= 0 + 1)%nat.
Proof.
  exact (proj1 (OpenRouter_requests_are_gated (Mock.openRouterDown 5) Mock.photo
                  (lit "image/png") (lit "modern minimalist") noOptions
                  (Mock.loaded Mock.morning))).
Defined.

(** ** Sample runs of the counter and of the sanitizer *)

Lemma daily_usage_counts_witness :
  count (fst (OpenRouter.getDailyUsage (Mock.loaded Mock.morning))) = 0.
Proof.
  apply (proj1 (proj2 (daily_usage_counts (Mock.openRouterUp 5 Mock.drawing)
                         (Mock.loaded Mock.morning) 3))).
  intros usage Hstored. discriminate Hstored.
Defined.

Lemma sanitizeInput_output_witness :
  sanitized (Functions.sanitizeInput (lit "  <b>Scandinavian & 'cozy'</b>  ")).
Proof.
  apply (proj2 (proj2 (proj2 (proj2
           (sanitizeInput_output (lit "  <b>Scandinavian & 'cozy'</b>  ")))))).
  vm_compute. discriminate.
Defined.


Lemma sanitizeFileName_output_witness :
  FileUtils.sanitizeFileName (FileUtils.sanitizeFileName (lit "../../my room (1).PNG"))
  = FileUtils.sanitizeFileName (lit "../../my room (1).PNG").
Proof.
  exact (proj2 (proj2 (proj2 (proj2
           (sanitizeFileName_output (lit "../../my room (1).PNG")))))).
Defined.
